(** * Document extractors: a shallow embedding of [extractors/extractors.py]

    The Python module defines six extractor classes sharing one method,
    [extract(filepath)], and a factory mapping a file-type tag to a class.
    Every extractor builds a dictionary [result] with the keys ['text'] and
    ['metadata'], mutates it inside a [try] block and returns it.

    The embedding keeps the shape of the code:
    - Python values are an inductive type [pyval]; dictionaries are [gmap]s
      with string keys; a Python [str] is a list of code points;
    - the local variables that are mutated while an exception may be in
      flight ([result], [all_text], the counters) live in an explicit
      [state], and statements are computations in a state-and-exception
      monad [M], where a raised exception leaves the state as it was at the
      point of the [raise];
    - the third-party libraries (pdfplumber, PIL, pytesseract, pdf2image,
      python-docx, ezdxf, pandas) and the file system are an environment
      [Env] of oracles: each call either returns a value or raises.  Each
      call is written to a log, so that statements such as "the page is sent
      to OCR" or "the file is never parsed" can be expressed.
    - exceptions are the ones deriving from Python's [Exception]; the
      asynchronous signals that derive from [BaseException] only
      (KeyboardInterrupt, SystemExit) are outside the model. *)

From stdpp Require Import gmap strings list fin_maps pretty.
From Stdlib Require Import Strings.Byte.

Set Warnings "-register-all".
Open Scope Z_scope.

(** ** Python strings *)

(** A [str] is a sequence of Unicode code points. *)
Abbreviation pystr := (list N).

(** An ASCII literal of the source. *)
Definition str (s : string) : pystr :=
  Ascii.N_of_ascii <$> String.list_ascii_of_string s.

(** The line feed, ['\n']. *)
Definition LF : N := 10%N.
Definition nl : pystr := [LF].

(** [str.isspace] on one code point: the Unicode white space characters. *)
Definition isspace (c : N) : bool :=
  ((9 <=? c) && (c <=? 13) || (28 <=? c) && (c <=? 32)
   || (c =? 133) || (c =? 160) || (c =? 5760)
   || (8192 <=? c) && (c <=? 8202)
   || (c =? 8232) || (c =? 8233) || (c =? 8239) || (c =? 8287)
   || (c =? 12288))%N.

Fixpoint lstrip (s : pystr) : pystr :=
  match s with
  | c :: s' => if isspace c then lstrip s' else s
  | [] => []
  end.

Definition rstrip (s : pystr) : pystr := reverse (lstrip (reverse s)).

(** [s.strip()] *)
Definition strip (s : pystr) : pystr := rstrip (lstrip s).

(** [s.lower()] on the code points below U+0100 (ASCII and Latin-1 capital
    letters); code points above are left as they are.  Python maps them
    through the full Unicode table; no code point outside ['D'], ['X'], ['F']
    lowers to ['d'], ['x'] or ['f'], so the suffix test of [CADExtractor] is
    the same under both. *)
Definition lower_char (c : N) : N :=
  (if (65 <=? c) && (c <=? 90) then c + 32
   else if (192 <=? c) && (c <=? 222) && negb (c =? 215) then c + 32
   else c)%N.

Definition lower (s : pystr) : pystr := lower_char <$> s.

(** [s.endswith(suffix)] *)
Definition endswith (s suffix : pystr) : bool :=
  bool_decide (suffix `suffix_of` s).

(** [sep.join(parts)] *)
Fixpoint join (sep : pystr) (parts : list pystr) : pystr :=
  match parts with
  | [] => []
  | [p] => p
  | p :: rest => p ++ sep ++ join sep rest
  end.

(** [s.split(c)] for a separator of one character: the segments between the
    occurrences of [c]; the empty string gives one empty segment. *)
Fixpoint split (c : N) (s : pystr) : list pystr :=
  match s with
  | [] => [[]]
  | x :: s' =>
      if (x =? c)%N then [] :: split c s'
      else match split c s' with
           | seg :: segs => (x :: seg) :: segs
           | [] => [[x]]
           end
  end.

(** [os.path.basename] (POSIX flavour): what follows the last ['/']. *)
Fixpoint basename_aux (p acc : pystr) : pystr :=
  match p with
  | [] => acc
  | c :: p' => if (c =? 47)%N then basename_aux p' [] else basename_aux p' (acc ++ [c])
  end.

Definition basename (p : pystr) : pystr := basename_aux p [].

(** [str(n)] for an integer. *)
Definition str_of_nat (n : nat) : pystr := str (pretty n).

(** ** Python values *)

Inductive pyval :=
  | VNone
  | VInt (n : Z)
  | VStr (s : pystr)
  | VList (l : list pyval)
  | VTuple (l : list pyval)
  | VDict (d : gmap string pyval).

(** ** Exceptions *)

Inductive exn_class :=
  | UnicodeDecodeError
  | ValueError
  | KeyError
  | TypeError
  | AttributeError
  | FileNotFoundError
  | LookupError
  | NotImplementedError
  | LibraryError (name : string).

#[global] Instance exn_class_eq_dec : EqDecision exn_class.
Proof. solve_decision. Defined.

(** An exception instance: its class and [str(e)]. *)
Record exn := Exn { exn_cls : exn_class; exn_msg : pystr }.

Inductive outcome (A : Type) :=
  | Ret (a : A)
  | Raise (e : exn).
Arguments Ret {A} a.
Arguments Raise {A} e.

Definition failure_of {A} (o : outcome A) : option exn :=
  match o with Ret _ => None | Raise e => Some e end.

(** ** Library objects *)

(** pdfplumber: a table is a list of rows, a row a list of cells, a cell a
    string or [None]. *)
Definition Table := list (list (option pystr)).

Record Page := {
  extract_text : outcome (option pystr);
  extract_tables : outcome (list Table)
}.

(** PIL: an image, with its [size] as read from the header. *)
Record Image := { size : Z * Z; pixels : list N }.

(** python-docx *)
Record Document := {
  paragraphs : list pystr;                (* [p.text] of each paragraph *)
  tables : list (list (list pystr))       (* [cell.text], by table and row *)
}.

(** ezdxf: [dxf_text] is [None] when [hasattr(entity.dxf, 'text')] is false. *)
Record Entity := {
  dxftype : pystr;
  dxf_text : option (outcome pystr);
  entity_str : pystr                      (* [str(entity)] *)
}.

Record Drawing := {
  layers : list pystr;                    (* [layer.dxf.name] of each layer *)
  modelspace : outcome (list Entity)
}.

(** pandas *)
Record DataFrame := {
  columns : list pystr;
  rows : list (list pyval)
}.

(** [df.head(n)] *)
Definition head (n : nat) (df : DataFrame) : DataFrame :=
  {| columns := columns df; rows := take n (rows df) |}.

(** ** The environment: library calls and the file system *)

Record Env := {
  pdfplumber_open : pystr → outcome (list Page);
  convert_from_path : pystr → nat → nat → outcome (list Image);
  image_to_string : Image → string → outcome pystr;
  Image_open : pystr → outcome Image;
  docx_Document : pystr → outcome Document;
  ezdxf_readfile : pystr → outcome Drawing;
  pd_read_csv : pystr → string → outcome DataFrame;
  to_string : DataFrame → pystr;          (* [df.to_string(index=False)] *)
  open_read : pystr → string → outcome pystr   (* [open(p, 'r', encoding=e).read()] *)
}.

(** The calls an extractor makes, as they are logged. *)
Inductive call :=
  | c_pdfplumber_open (filepath : pystr)
  | c_extract_text (i : nat)
  | c_extract_tables (i : nat)
  | c_convert_from_path (filepath : pystr) (first_page last_page : nat)
  | c_image_to_string (img : Image) (lang : string)
  | c_Image_open (filepath : pystr)
  | c_docx_Document (filepath : pystr)
  | c_ezdxf_readfile (filepath : pystr)
  | c_modelspace
  | c_dxf_text
  | c_pd_read_csv (filepath : pystr) (encoding : string)
  | c_open_read (filepath : pystr) (encoding : string)
  | c_print (msg : pystr).

(** A logged call and the exception it raised, if any. *)
Abbreviation event := (call * option exn)%type.

(** ** State and the monad of statements *)

Record state := State {
  result : gmap string pyval;
  all_text : list pystr;
  tables_count : Z;
  text_entities : Z;
  log : list event
}.

Definition M (A : Type) : Type := state → outcome A * state.

#[global] Instance M_ret : MRet M := λ A a st, (Ret a, st).

#[global] Instance M_bind : MBind M := λ A B k m st,
  match m st with
  | (Ret a, st') => k a st'
  | (Raise e, st') => (Raise e, st')
  end.

Definition raise {A} (e : exn) : M A := λ st, (Raise e, st).

(** [try: body  except Exception as e: handler] *)
Definition try_except {A} (body : M A) (handler : exn → M A) : M A := λ st,
  match body st with
  | (Ret a, st') => (Ret a, st')
  | (Raise e, st') => handler e st'
  end.

(** [try: body  except cls: handler] *)
Definition try_except_class {A} (cls : exn_class) (body : M A) (handler : M A) : M A := λ st,
  match body st with
  | (Ret a, st') => (Ret a, st')
  | (Raise e, st') =>
      if decide (exn_cls e = cls) then handler st' else (Raise e, st')
  end.

(** [for x in xs: f x] *)
Fixpoint for_each {A} (xs : list A) (f : A → M unit) : M unit :=
  match xs with
  | [] => mret tt
  | x :: xs' => f x ;; for_each xs' f
  end.

(** [for i, x in enumerate(xs): f i x], counting from [i]. *)
Fixpoint for_enumerate_from {A} (i : nat) (xs : list A) (f : nat → A → M unit) : M unit :=
  match xs with
  | [] => mret tt
  | x :: xs' => f i x ;; for_enumerate_from (S i) xs' f
  end.

Definition for_enumerate {A} (xs : list A) (f : nat → A → M unit) : M unit :=
  for_enumerate_from 0 xs f.

(** A library call: its outcome, and one more line in the log. *)
Definition lib {A} (c : call) (o : outcome A) : M A := λ st,
  (o, State (result st) (all_text st) (tables_count st) (text_entities st)
            (log st ++ [(c, failure_of o)])).

(** [print(msg)] *)
Definition print (msg : pystr) : M unit := lib (c_print msg) (Ret tt).

(** *** The local variables *)

(** [result = d] *)
Definition assign_result (d : gmap string pyval) : M unit := λ st,
  (Ret tt, State d (all_text st) (tables_count st) (text_entities st) (log st)).

Definition get_result : M (gmap string pyval) := λ st, (Ret (result st), st).

(** [all_text = []] *)
Definition assign_all_text (l : list pystr) : M unit := λ st,
  (Ret tt, State (result st) l (tables_count st) (text_entities st) (log st)).

Definition get_all_text : M (list pystr) := λ st, (Ret (all_text st), st).

(** [all_text.append(s)] *)
Definition all_text_append (s : pystr) : M unit := λ st,
  (Ret tt, State (result st) (all_text st ++ [s]) (tables_count st) (text_entities st) (log st)).

Definition assign_tables_count (n : Z) : M unit := λ st,
  (Ret tt, State (result st) (all_text st) n (text_entities st) (log st)).

Definition get_tables_count : M Z := λ st, (Ret (tables_count st), st).

Definition assign_text_entities (n : Z) : M unit := λ st,
  (Ret tt, State (result st) (all_text st) (tables_count st) n (log st)).

Definition get_text_entities : M Z := λ st, (Ret (text_entities st), st).

(** *** Subscripting [result] *)

(** [repr] of a key, as [KeyError] prints it. *)
Definition key_repr (k : string) : pystr := str "'" ++ str k ++ str "'".

(** [result['text'] = v] *)
Definition set_text (v : pyval) : M unit :=
  r ← get_result; assign_result (<["text" := v]> r).

(** [result['metadata']], which must be there and be a dictionary. *)
Definition get_metadata : M (gmap string pyval) :=
  r ← get_result;
  match r !! "metadata" with
  | Some (VDict m) => mret m
  | Some _ => raise (Exn TypeError (str "object is not subscriptable"))
  | None => raise (Exn KeyError (key_repr "metadata"))
  end.

(** [result['metadata'][k] = v] *)
Definition meta_set (k : string) (v : pyval) : M unit :=
  m ← get_metadata;
  r ← get_result;
  assign_result (<["metadata" := VDict (<[k := v]> m)]> r).

(** [result['metadata'][k]] *)
Definition meta_get (k : string) : M pyval :=
  m ← get_metadata;
  match m !! k with
  | Some v => mret v
  | None => raise (Exn KeyError (key_repr k))
  end.

(** [result['metadata'][k].append(v)] *)
Definition meta_append (k : string) (v : pyval) : M unit :=
  old ← meta_get k;
  match old with
  | VList l => meta_set k (VList (l ++ [v]))
  | _ => raise (Exn AttributeError (str "object has no attribute 'append'"))
  end.

(** [result['metadata'][k] += 1] *)
Definition meta_incr (k : string) : M unit :=
  old ← meta_get k;
  match old with
  | VInt n => meta_set k (VInt (n + 1))
  | _ => raise (Exn TypeError (str "unsupported operand type(s) for +=" ))
  end.

(** The handler shared by all extractors:
    [result['metadata']['error'] = str(e)]. *)
Definition record_error (e : exn) : M unit :=
  meta_set "error" (VStr (exn_msg e)).

(** The frame in which a method starts: no local variable is bound yet. *)
Definition fresh : state := State ∅ [] 0 0 [].

(** ** The extractors *)

Section Extractors.

Variable env : Env.

(** *** [BaseExtractor] *)

Definition BaseExtractor_extract (filepath : pystr) : M (gmap string pyval) :=
  raise (Exn NotImplementedError []).

(** *** [PDFExtractor] *)

(** [text and len(text.strip()) > 30]: the text that is accepted as it is. *)
Definition direct_text (text : option pystr) : option pystr :=
  match text with
  | Some t =>
      if bool_decide (t ≠ []) && bool_decide (30 < length (strip t))%nat
      then Some t else None
  | None => None
  end.

(** [f'page_{i+1}_direct'] and [f'page_{i+1}_ocr'] *)
Definition page_direct (i : nat) : pystr :=
  str "page_" ++ str_of_nat (i + 1) ++ str "_direct".

Definition page_ocr (i : nat) : pystr :=
  str "page_" ++ str_of_nat (i + 1) ++ str "_ocr".

(** The [else] branch: rasterise page [i+1] alone and run OCR over it. *)
Definition PDF_ocr (filepath : pystr) (i : nat) : M unit :=
  try_except
    (img_pages ← lib (c_convert_from_path filepath (i + 1) (i + 1))
                     (convert_from_path env filepath (i + 1) (i + 1));
     for_each img_pages (λ img,
       ocr_text ← lib (c_image_to_string img "eng+mal")
                      (image_to_string env img "eng+mal");
       all_text_append ocr_text;;
       meta_append "extraction_method" (VStr (page_ocr i))))
    (λ e, print (str "OCR failed for page " ++ str_of_nat (i + 1)
                 ++ str ": " ++ exn_msg e)).

(** [if cell]: neither [None] nor the empty string. *)
Definition cell_truthy (cell : option pystr) : bool :=
  match cell with
  | Some (_ :: _) => true
  | _ => false
  end.

(** [' | '.join([str(cell) for cell in row if cell])] *)
Definition row_text (row : list (option pystr)) : pystr :=
  join (str " | ") (default [] <$> List.filter cell_truthy row).

Definition table_text (table : Table) : pystr :=
  join nl (row_text <$> table).

(** The table part of a page, inside its own bare [except: pass]. *)
Definition PDF_tables (i : nat) (page : Page) : M unit :=
  try_except
    (tables ← lib (c_extract_tables i) (extract_tables page);
     if bool_decide (tables ≠ []) then
       n ← get_tables_count;
       assign_tables_count (n + Z.of_nat (length tables));;
       for_each tables (λ table,
         all_text_append (str "TABLE:" ++ nl ++ table_text table))
     else mret tt)
    (λ _, mret tt).

(** The body of [for i, page in enumerate(pdf.pages)]. *)
Definition PDF_page (filepath : pystr) (i : nat) (page : Page) : M unit :=
  text ← lib (c_extract_text i) (extract_text page);
  match direct_text text with
  | Some t =>
      all_text_append t;;
      meta_append "extraction_method" (VStr (page_direct i))
  | None => PDF_ocr filepath i
  end;;
  PDF_tables i page.

Definition PDF_body (filepath : pystr) : M unit :=
  pdf ← lib (c_pdfplumber_open filepath) (pdfplumber_open env filepath);
  meta_set "pages" (VInt (Z.of_nat (length pdf)));;
  assign_all_text [];;
  assign_tables_count 0;;
  for_enumerate pdf (PDF_page filepath);;
  all_text ← get_all_text;
  set_text (VStr (join (nl ++ nl) all_text));;
  tables_count ← get_tables_count;
  meta_set "tables_found" (VInt tables_count).

Definition PDF_init : gmap string pyval :=
  {[ "text" := VStr [];
     "metadata" := VDict {[ "pages" := VInt 0;
                            "extraction_method" := VList [];
                            "tables_found" := VInt 0 ]} ]}.

Definition PDFExtractor_extract (filepath : pystr) : M (gmap string pyval) :=
  assign_result PDF_init;;
  try_except (PDF_body filepath) record_error;;
  get_result.

(** *** [ImageExtractor] *)

Definition Image_body (filepath : pystr) : M unit :=
  img ← lib (c_Image_open filepath) (Image_open env filepath);
  meta_set "image_size" (VTuple [VInt (size img).1; VInt (size img).2]);;
  text ← lib (c_image_to_string img "eng+mal") (image_to_string env img "eng+mal");
  set_text (VStr text).

Definition Image_init : gmap string pyval :=
  {[ "text" := VStr [];
     "metadata" := VDict {[ "ocr_method" := VStr (str "tesseract");
                            "image_size" := VNone ]} ]}.

Definition ImageExtractor_extract (filepath : pystr) : M (gmap string pyval) :=
  assign_result Image_init;;
  try_except (Image_body filepath) record_error;;
  get_result.

(** *** [DOCXExtractor] *)

(** [paragraph.text.strip()] is truthy. *)
Definition nonblank (t : pystr) : bool := bool_decide (strip t ≠ []).

(** One table: its rows joined by [' | '], the rows by a line feed, after the
    marker. *)
Definition docx_table_text (table : list (list pystr)) : pystr :=
  str "TABLE:" ++ nl ++ join nl (join (str " | ") <$> table).

Definition DOCX_body (filepath : pystr) : M unit :=
  doc ← lib (c_docx_Document filepath) (docx_Document env filepath);
  assign_all_text [];;
  for_each (paragraphs doc) (λ p,
    if nonblank p then all_text_append p else mret tt);;
  meta_set "paragraphs" (VInt (Z.of_nat (length (List.filter nonblank (paragraphs doc)))));;
  for_each (tables doc) (λ table, all_text_append (docx_table_text table));;
  meta_set "tables" (VInt (Z.of_nat (length (tables doc))));;
  all_text ← get_all_text;
  set_text (VStr (join (nl ++ nl) all_text)).

Definition DOCX_init : gmap string pyval :=
  {[ "text" := VStr [];
     "metadata" := VDict {[ "paragraphs" := VInt 0; "tables" := VInt 0 ]} ]}.

Definition DOCXExtractor_extract (filepath : pystr) : M (gmap string pyval) :=
  assign_result DOCX_init;;
  try_except (DOCX_body filepath) record_error;;
  get_result.

(** *** [CADExtractor] *)

(** [text_entities += 1] *)
Definition incr_text_entities : M unit :=
  n ← get_text_entities; assign_text_entities (n + 1).

(** The body of [for entity in msp]. *)
Definition CAD_entity (entity : Entity) : M unit :=
  meta_incr "entities";;
  if bool_decide (dxftype entity ∈ [str "TEXT"; str "MTEXT"]) then
    t ← match dxf_text entity with
        | Some o => lib c_dxf_text o
        | None => mret (entity_str entity)
        end;
    all_text_append t;;
    incr_text_entities
  else if bool_decide (dxftype entity = str "DIMENSION") then
    match dxf_text entity with
    | Some o => t ← lib c_dxf_text o; all_text_append t;; incr_text_entities
    | None => mret tt
    end
  else mret tt.

Definition CAD_body (filepath : pystr) : M unit :=
  if endswith (lower filepath) (str ".dxf") then
    doc ← lib (c_ezdxf_readfile filepath) (ezdxf_readfile env filepath);
    assign_all_text [];;
    assign_text_entities 0;;
    meta_set "layers" (VList (VStr <$> layers doc));;
    msp ← lib c_modelspace (modelspace doc);
    for_each msp CAD_entity;;
    text_entities ← get_text_entities;
    meta_set "text_entities" (VInt text_entities);;
    all_text ← get_all_text;
    set_text (VStr (join nl all_text))
  else mret tt.

(** The placeholder, [f"CAD file detected: {os.path.basename(filepath)}"]. *)
Definition CAD_placeholder (filepath : pystr) : pystr :=
  str "CAD file detected: " ++ basename filepath.

Definition CAD_handler (filepath : pystr) (e : exn) : M unit :=
  record_error e;;
  set_text (VStr (CAD_placeholder filepath)).

Definition CAD_init : gmap string pyval :=
  {[ "text" := VStr [];
     "metadata" := VDict {[ "entities" := VInt 0;
                            "text_entities" := VInt 0;
                            "layers" := VList [] ]} ]}.

Definition CADExtractor_extract (filepath : pystr) : M (gmap string pyval) :=
  assign_result CAD_init;;
  try_except (CAD_body filepath) (CAD_handler filepath);;
  get_result.

(** *** [CSVExtractor] and [TXTExtractor] *)

(** The encodings tried, in this order. *)
Definition encodings : list string := ["utf-8"; "latin-1"; "cp1252"].

(** The [for encoding in [...]: try ... break / except UnicodeDecodeError:
    continue / else: raise ValueError] loop, over the encodings left. *)
Fixpoint CSV_read (filepath : pystr) (encs : list string) : M DataFrame :=
  match encs with
  | encoding :: rest =>
      try_except_class UnicodeDecodeError
        (df ← lib (c_pd_read_csv filepath encoding) (pd_read_csv env filepath encoding);
         meta_set "encoding" (VStr (str encoding));;
         mret df)
        (CSV_read filepath rest)
  | [] => raise (Exn ValueError (str "Could not decode CSV with any common encoding"))
  end.

(** The four parts of the rendered text. *)
Definition CSV_text_parts (df : DataFrame) : list pystr :=
  [ str "CSV Table with " ++ str_of_nat (length (rows df)) ++ str " rows and "
      ++ str_of_nat (length (columns df)) ++ str " columns:";
    str "Columns: " ++ join (str ", ") (columns df);
    str "Data preview:";
    to_string env (head 10 df) ].

Definition CSV_body (filepath : pystr) : M unit :=
  df ← CSV_read filepath encodings;
  meta_set "rows" (VInt (Z.of_nat (length (rows df))));;
  meta_set "columns" (VInt (Z.of_nat (length (columns df))));;
  set_text (VStr (join (nl ++ nl) (CSV_text_parts df))).

Definition CSV_init : gmap string pyval :=
  {[ "text" := VStr [];
     "metadata" := VDict {[ "rows" := VInt 0;
                            "columns" := VInt 0;
                            "encoding" := VStr (str "utf-8") ]} ]}.

Definition CSVExtractor_extract (filepath : pystr) : M (gmap string pyval) :=
  assign_result CSV_init;;
  try_except (CSV_body filepath) record_error;;
  get_result.

Fixpoint TXT_read (filepath : pystr) (encs : list string) : M pystr :=
  match encs with
  | encoding :: rest =>
      try_except_class UnicodeDecodeError
        (text ← lib (c_open_read filepath encoding) (open_read env filepath encoding);
         meta_set "encoding" (VStr (str encoding));;
         mret text)
        (TXT_read filepath rest)
  | [] => raise (Exn ValueError (str "Could not decode text file with any common encoding"))
  end.

Definition TXT_body (filepath : pystr) : M unit :=
  text ← TXT_read filepath encodings;
  set_text (VStr text);;
  meta_set "lines" (VInt (Z.of_nat (length (split LF text)))).

Definition TXT_init : gmap string pyval :=
  {[ "text" := VStr [];
     "metadata" := VDict {[ "encoding" := VStr (str "utf-8"); "lines" := VInt 0 ]} ]}.

Definition TXTExtractor_extract (filepath : pystr) : M (gmap string pyval) :=
  assign_result TXT_init;;
  try_except (TXT_body filepath) record_error;;
  get_result.

(** *** [ExtractorFactory] *)

(** The classes the factory can instantiate. *)
Inductive extractor_class :=
  | PDFExtractor
  | ImageExtractor
  | DOCXExtractor
  | CADExtractor
  | CSVExtractor
  | TXTExtractor.

(** [extractor.extract(filepath)], by the class of the instance. *)
Definition extract (c : extractor_class) (filepath : pystr) : M (gmap string pyval) :=
  match c with
  | PDFExtractor => PDFExtractor_extract filepath
  | ImageExtractor => ImageExtractor_extract filepath
  | DOCXExtractor => DOCXExtractor_extract filepath
  | CADExtractor => CADExtractor_extract filepath
  | CSVExtractor => CSVExtractor_extract filepath
  | TXTExtractor => TXTExtractor_extract filepath
  end.

(** The body of the [try] block of each class, and its handler. *)
Definition body (c : extractor_class) (filepath : pystr) : M unit :=
  match c with
  | PDFExtractor => PDF_body filepath
  | ImageExtractor => Image_body filepath
  | DOCXExtractor => DOCX_body filepath
  | CADExtractor => CAD_body filepath
  | CSVExtractor => CSV_body filepath
  | TXTExtractor => TXT_body filepath
  end.

Definition init (c : extractor_class) : gmap string pyval :=
  match c with
  | PDFExtractor => PDF_init
  | ImageExtractor => Image_init
  | DOCXExtractor => DOCX_init
  | CADExtractor => CAD_init
  | CSVExtractor => CSV_init
  | TXTExtractor => TXT_init
  end.

(** The [except Exception as e] clause of each class. *)
Definition handler (c : extractor_class) (filepath : pystr) (e : exn) : M unit :=
  match c with
  | CADExtractor => CAD_handler filepath e
  | _ => record_error e
  end.

End Extractors.

(** The class attribute [extractors]. *)
Definition extractors : gmap pystr extractor_class :=
  list_to_map
    [ (str "PDF", PDFExtractor);
      (str "IMAGE", ImageExtractor);
      (str "DOCX", DOCXExtractor);
      (str "DOC", DOCXExtractor);
      (str "DXF", CADExtractor);
      (str "DWG", CADExtractor);
      (str "CSV", CSVExtractor);
      (str "TXT", TXTExtractor);
      (str "XLSX", CSVExtractor) ].

(** [ExtractorFactory.get_extractor(file_type)] *)
Definition get_extractor (file_type : pystr) : outcome extractor_class :=
  match extractors !! file_type with
  | Some extractor_class => Ret extractor_class
  | None =>
      Raise (Exn ValueError (str "No extractor available for file type: " ++ file_type))
  end.

(** ** Python's codecs and text-mode reading

    [open(path, 'r', encoding=e).read()] over a file system of byte
    contents: the bytes are decoded under the codec named [e] (strictly: a
    byte sequence the codec does not accept raises [UnicodeDecodeError]), and
    text mode turns the line endings ['\r\n'] and ['\r'] into ['\n']. *)

(** Latin-1: byte [b] is code point [b]; every byte sequence decodes. *)
Definition decode_latin1 (bs : list byte) : pystr := Byte.to_N <$> bs.

(** Windows-1252 differs from Latin-1 on 0x80..0x9F; five bytes there are
    not assigned. *)
Definition cp1252_high : list (option N) :=
  [ Some 8364; None; Some 8218; Some 402; Some 8222; Some 8230; Some 8224;
    Some 8225; Some 710; Some 8240; Some 352; Some 8249; Some 338; None;
    Some 381; None;
    None; Some 8216; Some 8217; Some 8220; Some 8221; Some 8226; Some 8211;
    Some 8212; Some 732; Some 8482; Some 353; Some 8250; Some 339; None;
    Some 382; Some 376 ]%N.

Definition cp1252_char (b : N) : option N :=
  if ((128 <=? b) && (b <=? 159))%N
  then mjoin (cp1252_high !! N.to_nat (b - 128))
  else Some b.

Definition decode_cp1252 (bs : list byte) : option pystr :=
  mapM (λ b, cp1252_char (Byte.to_N b)) bs.

(** UTF-8, the well-formed byte sequences only (no overlong forms, no
    surrogates, nothing above U+10FFFF). *)
Definition continuation (b : N) : bool := ((128 <=? b) && (b <=? 191))%N.

Fixpoint decode_utf8_N (bs : list N) : option pystr :=
  match bs with
  | [] => Some []
  | b0 :: r0 =>
      if (b0 <? 128)%N then cons b0 <$> decode_utf8_N r0
      else if ((194 <=? b0) && (b0 <=? 223))%N then
        match r0 with
        | b1 :: r1 =>
            if continuation b1
            then cons ((b0 - 192) * 64 + (b1 - 128))%N <$> decode_utf8_N r1
            else None
        | _ => None
        end
      else if ((224 <=? b0) && (b0 <=? 239))%N then
        match r0 with
        | b1 :: b2 :: r2 =>
            if ((if b0 =? 224 then 160 else 128) <=? b1)%N
               && (b1 <=? (if b0 =? 237 then 159 else 191))%N
               && continuation b2
            then cons ((b0 - 224) * 4096 + (b1 - 128) * 64 + (b2 - 128))%N
                   <$> decode_utf8_N r2
            else None
        | _ => None
        end
      else if ((240 <=? b0) && (b0 <=? 244))%N then
        match r0 with
        | b1 :: b2 :: b3 :: r3 =>
            if ((if b0 =? 240 then 144 else 128) <=? b1)%N
               && (b1 <=? (if b0 =? 244 then 143 else 191))%N
               && continuation b2 && continuation b3
            then cons ((b0 - 240) * 262144 + (b1 - 128) * 4096
                       + (b2 - 128) * 64 + (b3 - 128))%N
                   <$> decode_utf8_N r3
            else None
        | _ => None
        end
      else None
  end.

Definition decode_utf8 (bs : list byte) : option pystr :=
  decode_utf8_N (Byte.to_N <$> bs).

(** The codec of a name, for the three names the extractors use. *)
Definition codec (encoding : string) : option (list byte → option pystr) :=
  if decide (encoding = "utf-8") then Some decode_utf8
  else if decide (encoding = "latin-1") then Some (λ bs, Some (decode_latin1 bs))
  else if decide (encoding = "cp1252") then Some decode_cp1252
  else None.

(** Text mode with the default [newline=None]. *)
Fixpoint universal_newlines (s : pystr) : pystr :=
  match s with
  | [] => []
  | c :: s' =>
      if (c =? 13)%N then
        match s' with
        | c' :: s'' =>
            if (c' =? 10)%N then LF :: universal_newlines s''
            else LF :: universal_newlines s'
        | [] => [LF]
        end
      else c :: universal_newlines s'
  end.

(** The read of [filepath]: of its bytes when [fs] has them, and what
    [other] answers when it has not. *)
Definition python_open_read (fs : pystr → option (list byte))
    (other : pystr → string → outcome pystr)
    (filepath : pystr) (encoding : string) : outcome pystr :=
  match fs filepath with
  | None => other filepath encoding
  | Some bs =>
      match codec encoding with
      | None => Raise (Exn LookupError (str "unknown encoding"))
      | Some dec =>
          match dec bs with
          | Some s => Ret (universal_newlines s)
          | None => Raise (Exn UnicodeDecodeError (str "codec can't decode byte"))
          end
      end
  end.

(** The characters of a file: its bytes under UTF-8 when they are valid
    UTF-8, and under Latin-1 when they are not. *)
Definition decoded (bs : list byte) : pystr :=
  match decode_utf8 bs with
  | Some s => s
  | None => decode_latin1 bs
  end.

(** An environment whose files are read by Python itself: [fs] gives the
    bytes of the paths that can be opened and read; what [open] does on any
    other path (a missing file, a directory, a file that may not be read) is
    left to the environment. *)
Definition with_files (env : Env) (fs : pystr → option (list byte)) : Env :=
  {| pdfplumber_open := pdfplumber_open env;
     convert_from_path := convert_from_path env;
     image_to_string := image_to_string env;
     Image_open := Image_open env;
     docx_Document := docx_Document env;
     ezdxf_readfile := ezdxf_readfile env;
     pd_read_csv := pd_read_csv env;
     to_string := to_string env;
     open_read := python_open_read fs (open_read env) |}.

(** ** Reading a returned dictionary *)

(** [result['metadata']] when it is a dictionary, [result['text']] when it is
    a string, and [result['metadata'][k]]. *)
Definition metadata_of (r : gmap string pyval) : option (gmap string pyval) :=
  match r !! "metadata" with
  | Some (VDict m) => Some m
  | _ => None
  end.

Definition text_of (r : gmap string pyval) : option pystr :=
  match r !! "text" with
  | Some (VStr t) => Some t
  | _ => None
  end.

Definition meta_key (r : gmap string pyval) (k : string) : option pyval :=
  m ← metadata_of r; m !! k.

(** The shape every extractor promises. *)
Definition well_formed (r : gmap string pyval) : Prop :=
  is_Some (metadata_of r) ∧ is_Some (text_of r).

(** What a method leaves behind: the value returned and the final frame. *)
Definition returns {A} (m : M A) (a : A) (st : state) : Prop :=
  m fresh = (Ret a, st).

(** The frame in which the [try] block of class [c] starts. *)
Definition entry (c : extractor_class) : state := State (init c) [] 0 0 [].

(** The dictionary [{'text': t, 'metadata': m}]. *)
Definition res (t : pystr) (m : gmap string pyval) : gmap string pyval :=
  {[ "text" := VStr t; "metadata" := VDict m ]}.

(** [st] with another [result]. *)
Definition with_result (st : state) (r : gmap string pyval) : state :=
  State r (all_text st) (tables_count st) (text_entities st) (log st).

(** What the handler of class [c] makes of the dictionary [r] whose
    metadata is [m]. *)
Definition handled (c : extractor_class) (filepath : pystr) (e : exn)
    (m r : gmap string pyval) : gmap string pyval :=
  let r' := <["metadata" := VDict (<["error" := VStr (exn_msg e)]> m)]> r in
  match c with
  | CADExtractor => <["text" := VStr (CAD_placeholder filepath)]> r'
  | _ => r'
  end.

(** ** Invariants of [result]

    [pres Q m]: a property [Q] of the dictionary [result] that holds before
    statement [m] holds after it, whether [m] returns or raises. *)

Definition pres {A} (Q : gmap string pyval → Prop) (m : M A) : Prop :=
  ∀ st, Q (result st) → Q (result (m st).2).

(** [Q] survives a write to key [k] of the metadata, and a write of a
    string to ['text']. *)
Definition stable_meta (Q : gmap string pyval → Prop) (k : string) : Prop :=
  ∀ r m v, metadata_of r = Some m → Q r →
    Q (<["metadata" := VDict (<[k := v]> m)]> r).

Definition stable_text (Q : gmap string pyval → Prop) : Prop :=
  ∀ r t, Q r → Q (<["text" := VStr t]> r).


(** The shape the two decoding loops share, with the read as a parameter
    (used to reason about both at once). *)
Fixpoint read_loop {A} (mk : string → call) (oracle : string → outcome A)
    (failure : exn) (encs : list string) : M A :=
  match encs with
  | encoding :: rest =>
      try_except_class UnicodeDecodeError
        (x ← lib (mk encoding) (oracle encoding);
         meta_set "encoding" (VStr (str encoding));;
         mret x)
        (read_loop mk oracle failure rest)
  | [] => raise failure
  end.

(** [never_raises W m]: from a frame whose [result] satisfies [W],
    statement [m] returns.  [raise_from Q m]: when [m] raises from a frame
    whose [result] satisfies [Q], [Q] holds where the exception leaves it. *)
Definition never_raises {A} (W : gmap string pyval → Prop) (m : M A) : Prop :=
  ∀ st, W (result st) → ∃ a st', m st = (Ret a, st').

Definition raise_from {A} (Q : gmap string pyval → Prop) (m : M A) : Prop :=
  ∀ st e st1, Q (result st) → m st = (Raise e, st1) → Q (result st1).

(** Well formed, and the text still empty. *)
Definition text_pending (r : gmap string pyval) : Prop :=
  well_formed r ∧ text_of r = Some [].

(** ** Words of the specification *)

(** The nine tags of the registry. *)
Definition registered_tags : list pystr :=
  [ str "PDF"; str "IMAGE"; str "DOCX"; str "DOC"; str "DXF"; str "DWG";
    str "CSV"; str "TXT"; str "XLSX" ].

(** A decoding attempt that fails as such: it raises [UnicodeDecodeError]. *)
Definition decode_error {A} (o : outcome A) : Prop :=
  ∃ e, o = Raise e ∧ exn_cls e = UnicodeDecodeError.

(** The log of the attempts to read a file under the encodings [encs], in
    this order. *)
Definition attempts {A} (mk : string → call) (oracle : string → outcome A)
    (encs : list string) : list event :=
  (λ enc, (mk enc, failure_of (oracle enc))) <$> encs.

(** The number of line feeds in a text. *)
Definition count_LF (s : pystr) : nat :=
  length (List.filter (λ c, (c =? LF)%N) s).

(** The page has a text layer [t] that is longer than 30 characters once
    trimmed. *)
Definition significant (page : Page) (t : pystr) : Prop :=
  extract_text page = Ret (Some t) ∧ (30 < length (strip t))%nat.

(** The text extraction of the page returns (a text or [None]). *)
Definition text_extracted (page : Page) : Prop :=
  ∃ text, extract_text page = Ret text.

(** A request to rasterise. *)
Definition is_convert (c : call) : bool :=
  match c with
  | c_convert_from_path _ _ _ => true
  | _ => false
  end.

(** The key under which the provenance tags are kept. *)
Definition em : string := "extraction_method".

(** The request to rasterise page [i+1] alone, as it is logged. *)
Definition convert_event (env : Env) (filepath : pystr) (i : nat) : event :=
  (c_convert_from_path filepath (i + 1) (i + 1),
   failure_of (convert_from_path env filepath (i + 1) (i + 1))).

(** A provenance tag [x] of page [i]: "direct" for a significant page, "ocr"
    for a page whose text was extracted and is not significant. *)
Definition tag_of (i : nat) (page : Page) (x : pyval) : Prop :=
  (x = VStr (page_direct i) ∧ ∃ t, significant page t) ∨
  (x = VStr (page_ocr i) ∧ text_extracted page ∧ ¬ (∃ t, significant page t)).

(** What the loop over [pages], counted from [i0], adds to the tags ([dm]),
    to [all_text] ([dt]) and to the log ([dl]), and how it ends ([o]). *)
Definition loop_facts (env : Env) (filepath : pystr) (i0 : nat)
    (pages : list Page) (o : outcome unit) (dm : list pyval)
    (dt : list pystr) (dl : list event) : Prop :=
  (∀ x, x ∈ dm → ∃ j page, pages !! j = Some page ∧ tag_of (i0 + j) page x) ∧
  (∀ ev : event, ev ∈ dl → is_convert ev.1 = true →
     ∃ j page, pages !! j = Some page ∧ ev = convert_event env filepath (i0 + j) ∧
       ¬ (∃ t, significant page t)) ∧
  (∀ j page, pages !! j = Some page →
     (∀ j' page', (j' ≤ j)%nat → pages !! j' = Some page' → text_extracted page') →
     (∀ t, significant page t → VStr (page_direct (i0 + j)) ∈ dm ∧ t ∈ dt) ∧
     ((¬ (∃ t, significant page t)) → convert_event env filepath (i0 + j) ∈ dl)) ∧
  match o with
  | Ret _ => ∀ page, page ∈ pages → text_extracted page
  | Raise e =>
      ∃ j page, pages !! j = Some page ∧ extract_text page = Raise e ∧
        ∀ j' page', (j' < j)%nat → pages !! j' = Some page' → text_extracted page'
  end.

(** ** Sample inputs *)

(** An installation where no library answers: every call raises. *)
Definition unavailable : exn := Exn (LibraryError "OSError") (str "not available").

Definition offline : Env :=
  {| pdfplumber_open := λ _, Raise unavailable;
     convert_from_path := λ _ _ _, Raise unavailable;
     image_to_string := λ _ _, Raise unavailable;
     Image_open := λ _, Raise unavailable;
     docx_Document := λ _, Raise unavailable;
     ezdxf_readfile := λ _, Raise unavailable;
     pd_read_csv := λ _ _, Raise unavailable;
     to_string := λ _, [];
     open_read := λ _ _, Raise unavailable |}.

(** A PDF reader that opens every path as the document [pages], with no
    rasteriser behind it: [convert_from_path] raises. *)
Definition pdf_only (pages : list Page) : Env :=
  {| pdfplumber_open := λ _, Ret pages;
     convert_from_path := λ _ _ _,
       Raise (Exn (LibraryError "PDFInfoNotInstalledError")
                  (str "Unable to get page count. Is poppler installed?"));
     image_to_string := image_to_string offline;
     Image_open := Image_open offline;
     docx_Document := docx_Document offline;
     ezdxf_readfile := ezdxf_readfile offline;
     pd_read_csv := pd_read_csv offline;
     to_string := to_string offline;
     open_read := open_read offline |}.

(** A scanned page: no text layer, no table. *)
Definition scanned_page : Page :=
  {| extract_text := Ret None; extract_tables := Ret [] |}.

(** A page with a text layer of forty characters. *)
Definition forty : pystr := str "Kochi Metro Rail Limited: safety notice.".

Definition text_page : Page :=
  {| extract_text := Ret (Some forty); extract_tables := Ret [] |}.

(** A page whose content stream cannot be parsed. *)
Definition parse_error : exn :=
  Exn (LibraryError "PSSyntaxError") (str "Invalid dictionary construct").

Definition broken_page : Page :=
  {| extract_text := Raise parse_error; extract_tables := Ret [] |}.

(** An image that opens (640 by 480) in an installation where tesseract
    fails on it. *)
Definition photo : Image := {| size := (640, 480); pixels := [] |}.

Definition tesseract_error : exn :=
  Exn (LibraryError "TesseractError") (str "Failed loading language 'mal'").

Definition ocr_down : Env :=
  {| pdfplumber_open := pdfplumber_open offline;
     convert_from_path := convert_from_path offline;
     image_to_string := λ _ _, Raise tesseract_error;
     Image_open := λ _, Ret photo;
     docx_Document := docx_Document offline;
     ezdxf_readfile := ezdxf_readfile offline;
     pd_read_csv := pd_read_csv offline;
     to_string := to_string offline;
     open_read := open_read offline |}.



Definition one_file (name : pystr) (bs : list byte) : pystr → option (list byte) :=
  λ p, if decide (p = name) then Some bs else None.


(** A reader of CSV files that answers every path, under UTF-8, with a
    table of two columns and [n] rows. *)
Definition sheet (n : nat) : DataFrame :=
  {| columns := [str "station"; str "riders"];
     rows := replicate n [VStr (str "Aluva"); VInt 1200] |}.

Definition csv_reader (n : nat) : Env :=
  {| pdfplumber_open := pdfplumber_open offline;
     convert_from_path := convert_from_path offline;
     image_to_string := image_to_string offline;
     Image_open := Image_open offline;
     docx_Document := docx_Document offline;
     ezdxf_readfile := ezdxf_readfile offline;
     pd_read_csv := λ _ _, Ret (sheet n);
     to_string := to_string offline;
     open_read := open_read offline |}.

(** A file system with one text file of two lines, each ended by a line
    feed. *)
Definition two_lines : list byte := [ Byte.x61; Byte.x0a; Byte.x62; Byte.x0a ].

Definition notes_disk : Env := with_files offline (one_file (str "notes.txt") two_lines).

(** The carriage return. *)
Definition CR : N := 13%N.

(** A file system with one text file of two lines, the first ended the DOS
    way: the bytes of "a\r\nb". *)
Definition dos_lines : list byte := [ Byte.x61; Byte.x0d; Byte.x0a; Byte.x62 ].

Definition dos_disk : Env := with_files offline (one_file (str "dos.txt") dos_lines).

(** ** The claims that the code does not meet, as they are worded *)

(** Every internal failure ends up under [metadata.error]. *)
Definition all_failures_recorded : Prop :=
  ∀ env c filepath, ∃ r st,
    returns (extract env c filepath) r st ∧ well_formed r ∧
    (∀ cl e, (cl, Some e) ∈ log st → is_Some (meta_key r "error")).

(** Any failure of the image extractor leaves the text empty and
    [image_size] null. *)
Definition image_failure_leaves_size_null : Prop :=
  ∀ env filepath r st,
    returns (ImageExtractor_extract env filepath) r st →
    is_Some (meta_key r "error") →
    text_of r = Some [] ∧ meta_key r "image_size" = Some VNone.


(** The text returned for a file that decodes is the content of the file,
    as it is, and [lines] is the number of segments of that content between
    line feeds. *)
Definition text_is_file_content_verbatim : Prop :=
  ∀ env fs filepath bs content,
    fs filepath = Some bs →
    decode_utf8 bs = Some content →
    ∃ r st, returns (TXTExtractor_extract (with_files env fs) filepath) r st ∧
      text_of r = Some content ∧
      meta_key r "lines" = Some (VInt (Z.of_nat (length (split LF content)))).

(** [t] occurs in [text]. *)
Definition occurs_in (t text : pystr) : Prop :=
  ∃ before after, text = before ++ t ++ after.

(** When a later page of a PDF fails, the text returned still has the text
    of the pages extracted before it. *)
Definition partial_text_survives : Prop :=
  ∀ env filepath good bad rest e r st,
    pdfplumber_open env filepath = Ret (good ++ bad :: rest) →
    (∀ page, page ∈ good → ∃ t, significant page t) →
    extract_text bad = Raise e →
    returns (PDFExtractor_extract env filepath) r st →
    is_Some (meta_key r "error") ∧
    ∃ text, text_of r = Some text ∧
      ∀ page t, page ∈ good → significant page t → occurs_in t text.

(** ** Further words for the extractors *)

(** The metadata keys of each class, as its initial dictionary lists them. *)
Definition schema (c : extractor_class) : list string :=
  match c with
  | PDFExtractor => ["pages"; "extraction_method"; "tables_found"]
  | ImageExtractor => ["ocr_method"; "image_size"]
  | DOCXExtractor => ["paragraphs"; "tables"]
  | CADExtractor => ["entities"; "text_entities"; "layers"]
  | CSVExtractor => ["rows"; "columns"; "encoding"]
  | TXTExtractor => ["encoding"; "lines"]
  end.

(** The metadata of [r] has the keys [ks], and the key ['error'] or not. *)
Definition has_keys (ks : list string) (r : gmap string pyval) : Prop :=
  ∃ m, metadata_of r = Some m ∧
    dom m ∖ {["error"]} = (list_to_set ks : gset string).

(** ** Further sample inputs *)

(** An installation where images open and tesseract reads "EXIT" on them. *)
Definition ocr_up : Env :=
  {| pdfplumber_open := pdfplumber_open offline;
     convert_from_path := convert_from_path offline;
     image_to_string := λ _ _, Ret (str "EXIT");
     Image_open := λ _, Ret photo;
     docx_Document := docx_Document offline;
     ezdxf_readfile := ezdxf_readfile offline;
     pd_read_csv := pd_read_csv offline;
     to_string := to_string offline;
     open_read := open_read offline |}.

(** An installation whose disk has no file "absent.txt": [open] raises
    there what Python raises for a missing file. *)
Definition no_such_file : exn :=
  Exn FileNotFoundError (str "[Errno 2] No such file or directory: 'absent.txt'").

Definition bare_disk : Env :=
  {| pdfplumber_open := pdfplumber_open offline;
     convert_from_path := convert_from_path offline;
     image_to_string := image_to_string offline;
     Image_open := Image_open offline;
     docx_Document := docx_Document offline;
     ezdxf_readfile := ezdxf_readfile offline;
     pd_read_csv := pd_read_csv offline;
     to_string := to_string offline;
     open_read := λ p _,
       if decide (p = str "absent.txt") then Raise no_such_file
       else Raise unavailable |}.

(** A memo of three paragraphs, the second blank, and one table of two rows. *)
Definition memo : Document :=
  {| paragraphs := [str "Track inspection"; str "   "; str "Line 1 is clear."];
     tables := [[[str "KM"; str "Status"]; [str "5+200"; str ""]]] |}.

Definition docx_reader (doc : Document) : Env :=
  {| pdfplumber_open := pdfplumber_open offline;
     convert_from_path := convert_from_path offline;
     image_to_string := image_to_string offline;
     Image_open := Image_open offline;
     docx_Document := λ _, Ret doc;
     ezdxf_readfile := ezdxf_readfile offline;
     pd_read_csv := pd_read_csv offline;
     to_string := to_string offline;
     open_read := open_read offline |}.

(** What the loop of the CAD extractor takes from one entity: nothing, or
    the outcome of reading its text. *)
Definition entity_text (entity : Entity) : option (outcome pystr) :=
  if bool_decide (dxftype entity ∈ [str "TEXT"; str "MTEXT"]) then
    Some (match dxf_text entity with
          | Some o => o
          | None => Ret (entity_str entity)
          end)
  else if bool_decide (dxftype entity = str "DIMENSION") then dxf_text entity
  else None.

(** Over a model space, up to the first entity whose text cannot be read:
    the number of entities visited (that one included), the texts taken and
    the failure, if any. *)
Fixpoint visited (entities : list Entity) : nat :=
  match entities with
  | [] => 0
  | entity :: rest =>
      match entity_text entity with
      | Some (Raise _) => 1
      | _ => S (visited rest)
      end
  end.

Fixpoint texts_of (entities : list Entity) : list pystr :=
  match entities with
  | [] => []
  | entity :: rest =>
      match entity_text entity with
      | Some (Ret t) => t :: texts_of rest
      | Some (Raise _) => []
      | None => texts_of rest
      end
  end.

Fixpoint entity_failure (entities : list Entity) : option exn :=
  match entities with
  | [] => None
  | entity :: rest =>
      match entity_text entity with
      | Some (Raise e) => Some e
      | _ => entity_failure rest
      end
  end.

(** A drawing with a line, a note, a dimension with its text and one
    without, on two layers. *)
Definition a_line : Entity :=
  {| dxftype := str "LINE"; dxf_text := None; entity_str := str "LINE(#1)" |}.

Definition a_note : Entity :=
  {| dxftype := str "TEXT"; dxf_text := Some (Ret (str "PLATFORM 2"));
     entity_str := str "TEXT(#2)" |}.

Definition a_dimension : Entity :=
  {| dxftype := str "DIMENSION"; dxf_text := Some (Ret (str "12.5 m"));
     entity_str := str "DIMENSION(#3)" |}.

Definition a_bare_dimension : Entity :=
  {| dxftype := str "DIMENSION"; dxf_text := None;
     entity_str := str "DIMENSION(#4)" |}.

Definition dxf_error : exn :=
  Exn (LibraryError "DXFValueError") (str "invalid text attribute").

Definition a_bad_note : Entity :=
  {| dxftype := str "MTEXT"; dxf_text := Some (Raise dxf_error);
     entity_str := str "MTEXT(#5)" |}.

Definition cad_reader (entities : list Entity) : Env :=
  {| pdfplumber_open := pdfplumber_open offline;
     convert_from_path := convert_from_path offline;
     image_to_string := image_to_string offline;
     Image_open := Image_open offline;
     docx_Document := docx_Document offline;
     ezdxf_readfile := λ _,
       Ret {| layers := [str "0"; str "TRACK"]; modelspace := Ret entities |};
     pd_read_csv := pd_read_csv offline;
     to_string := to_string offline;
     open_read := open_read offline |}.

(** ** The PDF extractor, page by page

    What one page adds to the text stream, to the provenance tags and to
    the log, written as functions of the answers of the libraries. *)

(** The texts that OCR reads off the images of a page, up to the first
    image on which it fails; that failure, if any; and the calls made. *)
Fixpoint ocr_texts (env : Env) (imgs : list Image) : list pystr :=
  match imgs with
  | [] => []
  | img :: rest =>
      match image_to_string env img "eng+mal" with
      | Ret t => t :: ocr_texts env rest
      | Raise _ => []
      end
  end.

Fixpoint ocr_failure (env : Env) (imgs : list Image) : option exn :=
  match imgs with
  | [] => None
  | img :: rest =>
      match image_to_string env img "eng+mal" with
      | Ret _ => ocr_failure env rest
      | Raise e => Some e
      end
  end.

Fixpoint ocr_calls (env : Env) (imgs : list Image) : list event :=
  match imgs with
  | [] => []
  | img :: rest =>
      (c_image_to_string img "eng+mal",
       failure_of (image_to_string env img "eng+mal")) ::
      match image_to_string env img "eng+mal" with
      | Ret _ => ocr_calls env rest
      | Raise _ => []
      end
  end.

(** The line printed when the fallback of page [i+1] fails with [e]. *)
Definition ocr_failed (i : nat) (e : exn) : event :=
  (c_print (str "OCR failed for page " ++ str_of_nat (i + 1)
            ++ str ": " ++ exn_msg e), None).

(** The fallback on page [i+1]: the texts it adds (none when the
    rasterisation fails) and the calls it makes. *)
Definition page_scan (env : Env) (filepath : pystr) (i : nat) : list pystr :=
  match convert_from_path env filepath (i + 1) (i + 1) with
  | Ret imgs => ocr_texts env imgs
  | Raise _ => []
  end.

Definition scan_calls (env : Env) (filepath : pystr) (i : nat) : list event :=
  convert_event env filepath i ::
  match convert_from_path env filepath (i + 1) (i + 1) with
  | Ret imgs =>
      ocr_calls env imgs ++
      match ocr_failure env imgs with
      | Some e => [ocr_failed i e]
      | None => []
      end
  | Raise e => [ocr_failed i e]
  end.

(** The tables of a page: none when their extraction fails. *)
Definition page_tables (page : Page) : list Table :=
  match extract_tables page with
  | Ret tables => tables
  | Raise _ => []
  end.

(** [f"TABLE:\n{table_text}"] *)
Definition table_block (table : Table) : pystr :=
  str "TABLE:" ++ nl ++ table_text table.

(** Page [i+1]: its texts (the direct text or what the fallback read, then
    the tables), its tags and its calls.  A page whose text extraction
    raises adds nothing but that call. *)
Definition page_texts (env : Env) (filepath : pystr) (i : nat) (page : Page)
    : list pystr :=
  match extract_text page with
  | Ret text =>
      match direct_text text with
      | Some t => [t]
      | None => page_scan env filepath i
      end ++ (table_block <$> page_tables page)
  | Raise _ => []
  end.

Definition page_methods (env : Env) (filepath : pystr) (i : nat) (page : Page)
    : list pyval :=
  match extract_text page with
  | Ret text =>
      match direct_text text with
      | Some _ => [VStr (page_direct i)]
      | None => replicate (length (page_scan env filepath i)) (VStr (page_ocr i))
      end
  | Raise _ => []
  end.

Definition page_calls (env : Env) (filepath : pystr) (i : nat) (page : Page)
    : list event :=
  (c_extract_text i, failure_of (extract_text page)) ::
  match extract_text page with
  | Ret text =>
      match direct_text text with
      | Some _ => []
      | None => scan_calls env filepath i
      end ++ [(c_extract_tables i, failure_of (extract_tables page))]
  | Raise _ => []
  end.

(** A document of three pages: one with a text layer and a table of two
    rows (one cell missing, one empty), one scanned, one whose tables cannot
    be extracted; the rasteriser gives one image per page and tesseract
    reads "EXIT" on it. *)
Definition fares : Table :=
  [ [Some (str "Aluva"); None; Some (str "40")];
    [Some (str "Edapally"); Some []; Some (str "30")] ].

Definition fares_page : Page :=
  {| extract_text := Ret (Some forty); extract_tables := Ret [fares] |}.

Definition table_error : exn :=
  Exn (LibraryError "PDFSyntaxError") (str "bad table").

Definition no_tables_page : Page :=
  {| extract_text := Ret (Some forty); extract_tables := Raise table_error |}.

Definition pdf_scanner (pages : list Page) : Env :=
  {| pdfplumber_open := λ _, Ret pages;
     convert_from_path := λ _ _ _, Ret [photo];
     image_to_string := λ _ _, Ret (str "EXIT");
     Image_open := Image_open offline;
     docx_Document := docx_Document offline;
     ezdxf_readfile := ezdxf_readfile offline;
     pd_read_csv := pd_read_csv offline;
     to_string := to_string offline;
     open_read := open_read offline |}.

(** * Properties *)

(** ** The string functions and the codecs on known values *)

Example strip_example : strip (str "  Kochi Metro ") = str "Kochi Metro".
Proof. reflexivity. Qed.

Example strip_blank : strip ([9; 10; 32; 160]%N) = [].
Proof. reflexivity. Qed.

Example lower_example : lower (str "Plans/Depot.DXF") = str "plans/depot.dxf".
Proof. reflexivity. Qed.

Example endswith_example :
  endswith (str "plans/depot.dxf") (str ".dxf") = true ∧
  endswith (str "plans/depot.dwg") (str ".dxf") = false ∧
  endswith (str "dxf") (str ".dxf") = false.
Proof. repeat split. Qed.

Example basename_example :
  basename (str "/data/watch_cad/depot.dxf") = str "depot.dxf" ∧
  basename (str "depot.dxf") = str "depot.dxf" ∧
  basename (str "/data/watch_cad/") = [].
Proof. repeat split. Qed.

Example join_example :
  join (str " | ") [str "a"; str "b"; str "c"] = str "a | b | c" ∧
  join (str " | ") [] = [].
Proof. repeat split. Qed.

Example split_example :
  split LF (str "a" ++ nl ++ str "b" ++ nl) = [str "a"; str "b"; []] ∧
  split LF [] = [[]].
Proof. repeat split. Qed.

Example page_tags : page_direct 0 = str "page_1_direct" ∧ page_ocr 11 = str "page_12_ocr".
Proof. repeat split. Qed.

Example utf8_euro : decode_utf8 [Byte.xe2; Byte.x82; Byte.xac] = Some [8364%N].
Proof. reflexivity. Qed.

Example utf8_rejects :
  decode_utf8 [Byte.x80] = None ∧                      (* a lone continuation byte *)
  decode_utf8 [Byte.xc0; Byte.x80] = None ∧            (* an overlong form *)
  decode_utf8 [Byte.xed; Byte.xa0; Byte.x80] = None ∧  (* a surrogate *)
  decode_utf8 [Byte.xe2; Byte.x82] = None.             (* a truncated sequence *)
Proof. repeat split. Qed.

Example cp1252_euro :
  decode_cp1252 [Byte.x80] = Some [8364%N] ∧ decode_cp1252 [Byte.x81] = None.
Proof. repeat split. Qed.

Example latin1_high : decode_latin1 [Byte.x80; Byte.xe9] = [128%N; 233%N].
Proof. reflexivity. Qed.

Example newlines_example :
  universal_newlines (str "a" ++ [13; 10]%N ++ str "b" ++ [13]%N) =
  str "a" ++ nl ++ str "b" ++ nl.
Proof. reflexivity. Qed.

(** ** The monad, one step at a time *)

Lemma bind_eq {A B} (m : M A) (k : A → M B) st :
  (m ≫= k) st =
  match m st with
  | (Ret a, st') => k a st'
  | (Raise e, st') => (Raise e, st')
  end.
Proof. reflexivity. Qed.

Lemma bind_ret {A B} (m : M A) (k : A → M B) st a st' :
  m st = (Ret a, st') → (m ≫= k) st = k a st'.
Proof. intros H. rewrite bind_eq, H. reflexivity. Qed.

Lemma bind_raise {A B} (m : M A) (k : A → M B) st e st' :
  m st = (Raise e, st') → (m ≫= k) st = (Raise e, st').
Proof. intros H. rewrite bind_eq, H. reflexivity. Qed.

(** ** Reading and writing the metadata dictionary *)

Lemma metadata_of_Some r m :
  metadata_of r = Some m ↔ r !! "metadata" = Some (VDict m).
Proof.
  unfold metadata_of. split.
  - destruct (r !! "metadata") as [[]|]; congruence.
  - intros ->. reflexivity.
Qed.

Lemma text_of_Some r t :
  text_of r = Some t ↔ r !! "text" = Some (VStr t).
Proof.
  unfold text_of. split.
  - destruct (r !! "text") as [[]|]; congruence.
  - intros ->. reflexivity.
Qed.

Lemma metadata_of_set_meta (r : gmap string pyval) m :
  metadata_of (<["metadata" := VDict m]> r) = Some m.
Proof. unfold metadata_of. rewrite lookup_insert_eq. reflexivity. Qed.

Lemma metadata_of_set_text (r : gmap string pyval) v :
  metadata_of (<["text" := v]> r) = metadata_of r.
Proof. unfold metadata_of. rewrite lookup_insert_ne by done. reflexivity. Qed.

Lemma text_of_set_meta (r : gmap string pyval) v :
  text_of (<["metadata" := v]> r) = text_of r.
Proof. unfold text_of. rewrite lookup_insert_ne by done. reflexivity. Qed.

Lemma text_of_set_text (r : gmap string pyval) t :
  text_of (<["text" := VStr t]> r) = Some t.
Proof. unfold text_of. rewrite lookup_insert_eq. reflexivity. Qed.

Lemma meta_key_set_meta (r : gmap string pyval) m k :
  meta_key (<["metadata" := VDict m]> r) k = m !! k.
Proof. unfold meta_key. rewrite metadata_of_set_meta. reflexivity. Qed.

Lemma meta_key_set_text (r : gmap string pyval) v k :
  meta_key (<["text" := v]> r) k = meta_key r k.
Proof. unfold meta_key. rewrite metadata_of_set_text. reflexivity. Qed.

(** The statements on [result], stepwise. *)

Lemma get_metadata_eq st m :
  metadata_of (result st) = Some m → get_metadata st = (Ret m, st).
Proof.
  intros H%metadata_of_Some. unfold get_metadata, get_result.
  rewrite bind_eq. simpl. rewrite H. reflexivity.
Qed.

Lemma meta_set_eq k v st m :
  metadata_of (result st) = Some m →
  meta_set k v st =
    (Ret tt, with_result st (<["metadata" := VDict (<[k := v]> m)]> (result st))).
Proof.
  intros H. unfold meta_set.
  rewrite (bind_ret _ _ _ _ _ (get_metadata_eq _ _ H)). reflexivity.
Qed.

Lemma meta_get_eq k st m v :
  metadata_of (result st) = Some m → m !! k = Some v →
  meta_get k st = (Ret v, st).
Proof.
  intros H Hk. unfold meta_get.
  rewrite (bind_ret _ _ _ _ _ (get_metadata_eq _ _ H)), Hk. reflexivity.
Qed.

Lemma meta_append_eq k v st m l :
  metadata_of (result st) = Some m → m !! k = Some (VList l) →
  meta_append k v st =
    (Ret tt, with_result st
       (<["metadata" := VDict (<[k := VList (l ++ [v])]> m)]> (result st))).
Proof.
  intros H Hk. unfold meta_append.
  rewrite (bind_ret _ _ _ _ _ (meta_get_eq _ _ _ _ H Hk)).
  apply meta_set_eq, H.
Qed.

Lemma record_error_eq e st m :
  metadata_of (result st) = Some m →
  record_error e st =
    (Ret tt, with_result st
       (<["metadata" := VDict (<["error" := VStr (exn_msg e)]> m)]> (result st))).
Proof. intros H. unfold record_error. exact (meta_set_eq _ _ _ _ H). Qed.

(** ** Invariants of [result] *)

Section Pres.

Context (Q : gmap string pyval → Prop).

Lemma pres_ret {A} (a : A) : pres Q (mret a).
Proof. intros st H. exact H. Qed.

Lemma pres_raise {A} e : pres Q (@raise A e).
Proof. intros st H. exact H. Qed.

Lemma pres_bind {A B} (m : M A) (k : A → M B) :
  pres Q m → (∀ a, pres Q (k a)) → pres Q (m ≫= k).
Proof.
  intros Hm Hk st H. rewrite bind_eq. specialize (Hm st H).
  destruct (m st) as [[a|e] st']; simpl in *.
  - apply Hk, Hm.
  - exact Hm.
Qed.

Lemma pres_try_except {A} (b : M A) h :
  pres Q b → (∀ e, pres Q (h e)) → pres Q (try_except b h).
Proof.
  intros Hb Hh st H. unfold try_except. specialize (Hb st H).
  destruct (b st) as [[a|e] st']; simpl in *.
  - exact Hb.
  - apply Hh, Hb.
Qed.

Lemma pres_try_except_class {A} cls (b h : M A) :
  pres Q b → pres Q h → pres Q (try_except_class cls b h).
Proof.
  intros Hb Hh st H. unfold try_except_class. specialize (Hb st H).
  destruct (b st) as [[a|e] st']; simpl in *.
  - exact Hb.
  - destruct (decide _); [apply Hh, Hb | exact Hb].
Qed.

Lemma pres_for_each {A} (xs : list A) f :
  (∀ x, pres Q (f x)) → pres Q (for_each xs f).
Proof.
  intros Hf. induction xs as [|x xs IH]; simpl.
  - apply pres_ret.
  - apply pres_bind; [apply Hf | intros _; exact IH].
Qed.

Lemma pres_for_enumerate_from {A} i (xs : list A) f :
  (∀ j x, pres Q (f j x)) → pres Q (for_enumerate_from i xs f).
Proof.
  intros Hf. revert i. induction xs as [|x xs IH]; intros i; simpl.
  - apply pres_ret.
  - apply pres_bind; [apply Hf | intros _; apply IH].
Qed.

Lemma pres_lib {A} c (o : outcome A) : pres Q (lib c o).
Proof. intros st H. exact H. Qed.

Lemma pres_print msg : pres Q (print msg).
Proof. apply pres_lib. Qed.

Lemma pres_get_result : pres Q get_result.
Proof. intros st H. exact H. Qed.

Lemma pres_get_all_text : pres Q get_all_text.
Proof. intros st H. exact H. Qed.

Lemma pres_assign_all_text l : pres Q (assign_all_text l).
Proof. intros st H. exact H. Qed.

Lemma pres_all_text_append s : pres Q (all_text_append s).
Proof. intros st H. exact H. Qed.

Lemma pres_get_tables_count : pres Q get_tables_count.
Proof. intros st H. exact H. Qed.

Lemma pres_assign_tables_count n : pres Q (assign_tables_count n).
Proof. intros st H. exact H. Qed.

Lemma pres_get_text_entities : pres Q get_text_entities.
Proof. intros st H. exact H. Qed.

Lemma pres_assign_text_entities n : pres Q (assign_text_entities n).
Proof. intros st H. exact H. Qed.

Lemma pres_get_metadata : pres Q get_metadata.
Proof.
  intros st H. unfold get_metadata. rewrite bind_eq. simpl.
  destruct (result st !! "metadata") as [[]|]; exact H.
Qed.

Lemma pres_meta_get k : pres Q (meta_get k).
Proof.
  unfold meta_get. apply pres_bind; [apply pres_get_metadata|].
  intros m. destruct (m !! k); [apply pres_ret | apply pres_raise].
Qed.

Lemma pres_meta_set k v : stable_meta Q k → pres Q (meta_set k v).
Proof.
  intros Hk st H. destruct (metadata_of (result st)) as [m|] eqn:Hm.
  - rewrite (meta_set_eq _ _ _ _ Hm). simpl. apply Hk; assumption.
  - unfold meta_set, get_metadata, get_result. rewrite !bind_eq. simpl.
    unfold metadata_of in Hm.
    destruct (result st !! "metadata") as [[]|]; simpl; try exact H. discriminate.
Qed.

Lemma pres_meta_append k v : stable_meta Q k → pres Q (meta_append k v).
Proof.
  intros Hk. unfold meta_append. apply pres_bind; [apply pres_meta_get|].
  intros []; try apply pres_raise. apply pres_meta_set, Hk.
Qed.

Lemma pres_meta_incr k : stable_meta Q k → pres Q (meta_incr k).
Proof.
  intros Hk. unfold meta_incr. apply pres_bind; [apply pres_meta_get|].
  intros []; try apply pres_raise. apply pres_meta_set, Hk.
Qed.

Lemma pres_set_text t : stable_text Q → pres Q (set_text (VStr t)).
Proof. intros Ht st H. apply Ht, H. Qed.

Lemma pres_record_error e : stable_meta Q "error" → pres Q (record_error e).
Proof. apply pres_meta_set. Qed.

End Pres.

Create HintDb pres.

#[local] Hint Resolve pres_ret pres_raise pres_lib pres_print pres_get_result
  pres_get_all_text pres_assign_all_text pres_all_text_append
  pres_get_tables_count pres_assign_tables_count pres_get_text_entities
  pres_assign_text_entities pres_get_metadata pres_meta_get pres_meta_set
  pres_meta_append pres_meta_incr pres_set_text pres_record_error : pres.

(** Follow the statement: one rule per construct, a case split at every
    branch. *)
Ltac pres_tac :=
  repeat first
    [ solve [auto with pres]
    | simple apply pres_bind; [|intros ?]
    | simple apply pres_try_except; [|intros ?]
    | simple apply pres_try_except_class
    | simple apply pres_for_each; intros ?
    | simple apply pres_for_enumerate_from; intros ? ?
    | match goal with
      | |- pres _ (match ?x with _ => _ end) => destruct x
      end ].

Section BodyPres.

Context (env : Env) (Q : gmap string pyval → Prop).

Lemma PDF_ocr_pres filepath i :
  stable_meta Q "extraction_method" → pres Q (PDF_ocr env filepath i).
Proof. intros H. unfold PDF_ocr. pres_tac. Qed.

Lemma PDF_tables_pres i page : pres Q (PDF_tables i page).
Proof. unfold PDF_tables. pres_tac. Qed.

Lemma PDF_page_pres filepath i page :
  stable_meta Q "extraction_method" → pres Q (PDF_page env filepath i page).
Proof.
  intros H. unfold PDF_page. pres_tac.
  - apply PDF_ocr_pres, H.
  - apply PDF_tables_pres.
Qed.

Lemma PDF_loop_pres filepath i pages :
  stable_meta Q "extraction_method" →
  pres Q (for_enumerate_from i pages (PDF_page env filepath)).
Proof. intros H. apply pres_for_enumerate_from. intros. apply PDF_page_pres, H. Qed.

Lemma CAD_entity_pres entity :
  stable_meta Q "entities" → pres Q (CAD_entity entity).
Proof. intros H. unfold CAD_entity, incr_text_entities. pres_tac. Qed.

Lemma CSV_read_pres filepath encs :
  stable_meta Q "encoding" → pres Q (CSV_read env filepath encs).
Proof. intros H. induction encs as [|enc encs IH]; simpl; pres_tac. Qed.

Lemma TXT_read_pres filepath encs :
  stable_meta Q "encoding" → pres Q (TXT_read env filepath encs).
Proof. intros H. induction encs as [|enc encs IH]; simpl; pres_tac. Qed.

(** No [try] block writes the key ['error']: a property that survives the
    other writes survives the block. *)
Lemma body_pres c filepath :
  (∀ k, k ≠ "error" → stable_meta Q k) → stable_text Q →
  pres Q (body env c filepath).
Proof.
  intros Hm Ht.
  assert (∀ k, bool_decide (k ≠ "error") = true → stable_meta Q k) as Hm'
    by (intros k Hk%bool_decide_eq_true; auto).
  destruct c; simpl.
  - unfold PDF_body. unfold for_enumerate. pres_tac.
    apply PDF_page_pres; auto.
  - unfold Image_body. pres_tac.
  - unfold DOCX_body. pres_tac.
  - unfold CAD_body. pres_tac. apply CAD_entity_pres; auto.
  - unfold CSV_body. pres_tac. apply CSV_read_pres; auto.
  - unfold TXT_body. pres_tac. apply TXT_read_pres; auto.
Qed.

End BodyPres.

(** ** The shape of every [extract] *)

Lemma extract_eq env c filepath :
  extract env c filepath =
  (assign_result (init c);;
   try_except (body env c filepath) (handler c filepath);;
   get_result).
Proof. destruct c; reflexivity. Qed.

Lemma init_res c : ∃ m, init c = res [] m ∧ m !! "error" = None.
Proof. destruct c; eexists; split; reflexivity. Qed.

Lemma init_well_formed c : well_formed (init c).
Proof.
  destruct (init_res c) as (m & -> & _). split; eexists; reflexivity.
Qed.

Lemma init_no_error c : meta_key (init c) "error" = None.
Proof. destruct c; reflexivity. Qed.

Lemma well_formed_stable_meta k : stable_meta well_formed k.
Proof.
  intros r m v Hm [_ Ht]. split.
  - rewrite metadata_of_set_meta. eauto.
  - rewrite text_of_set_meta. exact Ht.
Qed.

Lemma well_formed_stable_text : stable_text well_formed.
Proof.
  intros r t [Hm _]. split.
  - rewrite metadata_of_set_text. exact Hm.
  - rewrite text_of_set_text. eauto.
Qed.

Lemma no_error_stable_meta k :
  k ≠ "error" → stable_meta (λ r, meta_key r "error" = None) k.
Proof.
  intros Hk r m v Hm H. rewrite meta_key_set_meta, lookup_insert_ne by done.
  unfold meta_key in H. rewrite Hm in H. exact H.
Qed.

Lemma no_error_stable_text : stable_text (λ r, meta_key r "error" = None).
Proof. intros r t H. rewrite meta_key_set_text. exact H. Qed.

(** The frame at the end of the [try] block is well formed. *)
Lemma body_well_formed env c filepath :
  well_formed (result (body env c filepath (entry c)).2).
Proof.
  apply (body_pres env well_formed).
  - intros k _. apply well_formed_stable_meta.
  - apply well_formed_stable_text.
  - apply init_well_formed.
Qed.

Lemma handler_eq c filepath e st m :
  metadata_of (result st) = Some m →
  handler c filepath e st =
    (Ret tt, with_result st (handled c filepath e m (result st))).
Proof.
  intros Hm. unfold handler, handled.
  destruct c; try apply (record_error_eq e st m Hm).
  unfold CAD_handler.
  rewrite (bind_ret _ _ _ _ _ (record_error_eq e st m Hm)). reflexivity.
Qed.

(** Every [extract] returns: with the dictionary as the [try] block left it,
    or with what the handler made of it. *)
Lemma extract_cases env c filepath :
  match body env c filepath (entry c) with
  | (Ret _, st1) =>
      extract env c filepath fresh = (Ret (result st1), st1)
  | (Raise e, st1) =>
      ∃ m, metadata_of (result st1) = Some m ∧
        extract env c filepath fresh =
          (Ret (handled c filepath e m (result st1)),
           with_result st1 (handled c filepath e m (result st1)))
  end.
Proof.
  pose proof (body_well_formed env c filepath) as [[m Hm] _].
  rewrite extract_eq.
  change ((assign_result (init c);; try_except (body env c filepath) (handler c filepath);;
           get_result) fresh)
    with ((try_except (body env c filepath) (handler c filepath);; get_result) (entry c)).
  rewrite bind_eq. unfold try_except.
  destruct (body env c filepath (entry c)) as [[[]|e] st1]; simpl in *.
  - reflexivity.
  - exists m. split; [exact Hm|].
    rewrite (handler_eq c filepath e st1 m Hm). reflexivity.
Qed.

Lemma handled_well_formed c filepath e m r :
  well_formed r → metadata_of r = Some m → well_formed (handled c filepath e m r).
Proof.
  intros Hr Hm. unfold handled.
  pose proof (well_formed_stable_meta "error" r m (VStr (exn_msg e)) Hm Hr) as H.
  destruct c; try exact H. apply well_formed_stable_text, H.
Qed.

Lemma handled_error c filepath e m r :
  meta_key (handled c filepath e m r) "error" = Some (VStr (exn_msg e)).
Proof.
  unfold handled.
  destruct c; rewrite ?meta_key_set_text, meta_key_set_meta, lookup_insert_eq;
    reflexivity.
Qed.

Lemma body_no_error env c filepath :
  meta_key (result (body env c filepath (entry c)).2) "error" = None.
Proof.
  apply (body_pres env (λ r, meta_key r "error" = None)).
  - apply no_error_stable_meta.
  - apply no_error_stable_text.
  - apply init_no_error.
Qed.

(** Every extractor returns a well-formed dictionary. *)
Lemma extract_returns env c filepath :
  ∃ r st, returns (extract env c filepath) r st ∧ well_formed r.
Proof.
  pose proof (extract_cases env c filepath) as H.
  pose proof (body_well_formed env c filepath) as Hwf.
  destruct (body env c filepath (entry c)) as [[[]|e] st1]; simpl in *.
  - eauto.
  - destruct H as (m & Hm & H). do 2 eexists. split; [exact H|].
    apply handled_well_formed; assumption.
Qed.

(** ** C1: [extract] always returns *)

(** C1, as amended.  For each of the six classes and every path, [extract]
    returns normally, with a dictionary whose ['metadata'] is a dictionary
    and whose ['text'] is a string.  An exception that leaves the [try]
    block is recorded under [metadata.error], with its message; when the
    block completes there is no ['error'] key.  (Failures handled inside the
    block, such as a failed OCR of one PDF page, are not recorded there.) *)
Theorem extract_always_returns env c filepath :
  ∃ r st, returns (extract env c filepath) r st ∧ well_formed r ∧
    match body env c filepath (entry c) with
    | (Raise e, _) => meta_key r "error" = Some (VStr (exn_msg e))
    | (Ret _, _) => meta_key r "error" = None
    end.
Proof.
  pose proof (extract_cases env c filepath) as H.
  pose proof (body_well_formed env c filepath) as Hwf.
  pose proof (body_no_error env c filepath) as Hne.
  destruct (body env c filepath (entry c)) as [[[]|e] st1]; simpl in *.
  - exists (result st1), st1. auto.
  - destruct H as (m & Hm & H). do 2 eexists. split; [exact H|]. split.
    + apply handled_well_formed; assumption.
    + apply handled_error.
Qed.

(** A scanned page, in an installation without a rasteriser. *)
Lemma scanned_pdf_run :
  returns (PDFExtractor_extract (pdf_only [scanned_page]) (str "scan.pdf"))
    (res [] {[ "pages" := VInt 1; "extraction_method" := VList [];
               "tables_found" := VInt 0 ]})
    (State
       (res [] {[ "pages" := VInt 1; "extraction_method" := VList [];
                  "tables_found" := VInt 0 ]})
       [] 0 0
       [ (c_pdfplumber_open (str "scan.pdf"), None);
         (c_extract_text 0, None);
         (c_convert_from_path (str "scan.pdf") 1 1,
          Some (Exn (LibraryError "PDFInfoNotInstalledError")
                    (str "Unable to get page count. Is poppler installed?")));
         (c_print (str "OCR failed for page 1: Unable to get page count. Is poppler installed?"),
          None);
         (c_extract_tables 0, None) ]).
Proof. vm_compute. reflexivity. Qed.

(** C1 as worded fails: on a scanned page whose rasterisation raises, the
    PDF extractor prints the failure and returns without an ['error'] key. *)
Lemma ocr_failure_not_recorded : ¬ all_failures_recorded.
Proof.
  intros H.
  destruct (H (pdf_only [scanned_page]) PDFExtractor (str "scan.pdf"))
    as (r & st & Hret & _ & Herr).
  unfold returns in Hret. simpl extract in Hret.
  rewrite scanned_pdf_run in Hret. injection Hret as <- <-.
  edestruct Herr as [v Hv].
  - simpl. apply list_elem_of_In. do 2 right. left. reflexivity.
  - discriminate.
Qed.

(** ** Running a method on given oracle answers

    Every frame an extractor goes through has a [result] of the form
    [res t m]; the equations below run one statement on such a frame. *)

Lemma res_set_meta t m m' :
  <["metadata" := VDict m']> (res t m) = res t m'.
Proof.
  unfold res. rewrite insert_insert_ne by done.
  rewrite insert_singleton_eq. reflexivity.
Qed.

Lemma res_set_text t m v :
  <["text" := v]> (res t m) = <["text" := v]> {[ "metadata" := VDict m ]}.
Proof. unfold res. apply insert_insert_eq. Qed.

Lemma metadata_of_res t m : metadata_of (res t m) = Some m.
Proof. reflexivity. Qed.

Lemma text_of_res t m : text_of (res t m) = Some t.
Proof. reflexivity. Qed.

Lemma meta_key_res t m k : meta_key (res t m) k = m !! k.
Proof. reflexivity. Qed.

Lemma handled_res c filepath e t m :
  handled c filepath e m (res t m) =
  res (match c with CADExtractor => CAD_placeholder filepath | _ => t end)
      (<["error" := VStr (exn_msg e)]> m).
Proof.
  unfold handled. rewrite res_set_meta.
  destruct c; reflexivity.
Qed.

Section Run.

Context (t : pystr) (m : gmap string pyval) (a : list pystr) (tc te : Z)
  (lg : list event).

Lemma run_lib {A} c (o : outcome A) r :
  lib c o (State r a tc te lg) = (o, State r a tc te (lg ++ [(c, failure_of o)])).
Proof. reflexivity. Qed.

Lemma run_set_text t' :
  set_text (VStr t') (State (res t m) a tc te lg) =
  (Ret tt, State (res t' m) a tc te lg).
Proof.
  unfold set_text, get_result, assign_result. rewrite bind_eq. simpl.
  rewrite res_set_text. reflexivity.
Qed.

Lemma run_meta_set k v :
  meta_set k v (State (res t m) a tc te lg) =
  (Ret tt, State (res t (<[k := v]> m)) a tc te lg).
Proof.
  rewrite (meta_set_eq k v _ m) by reflexivity.
  unfold with_result. simpl. rewrite res_set_meta. reflexivity.
Qed.

Lemma run_meta_append k v l :
  m !! k = Some (VList l) →
  meta_append k v (State (res t m) a tc te lg) =
  (Ret tt, State (res t (<[k := VList (l ++ [v])]> m)) a tc te lg).
Proof.
  intros Hk. rewrite (meta_append_eq k v _ m l) by (reflexivity || exact Hk).
  unfold with_result. simpl. rewrite res_set_meta. reflexivity.
Qed.

Lemma run_meta_incr k n :
  m !! k = Some (VInt n) →
  meta_incr k (State (res t m) a tc te lg) =
  (Ret tt, State (res t (<[k := VInt (n + 1)]> m)) a tc te lg).
Proof.
  intros Hk. unfold meta_incr.
  rewrite (bind_ret _ _ _ _ _
    (meta_get_eq k (State (res t m) a tc te lg) m _ (metadata_of_res t m) Hk)).
  apply run_meta_set.
Qed.

Lemma run_ret {A} (x : A) st : (mret x : M A) st = (Ret x, st).
Proof. reflexivity. Qed.

Lemma run_raise {A} e st : @raise A e st = (Raise e, st).
Proof. reflexivity. Qed.

Lemma run_try_except {A} (b : M A) h st :
  try_except b h st =
  match b st with
  | (Ret x, st') => (Ret x, st')
  | (Raise e, st') => h e st'
  end.
Proof. reflexivity. Qed.

Lemma run_try_except_class {A} cls (b h : M A) st :
  try_except_class cls b h st =
  match b st with
  | (Ret x, st') => (Ret x, st')
  | (Raise e, st') =>
      if decide (exn_cls e = cls) then h st' else (Raise e, st')
  end.
Proof. reflexivity. Qed.

Lemma run_assign_result d r :
  assign_result d (State r a tc te lg) = (Ret tt, State d a tc te lg).
Proof. reflexivity. Qed.

Lemma run_get_result r :
  get_result (State r a tc te lg) = (Ret r, State r a tc te lg).
Proof. reflexivity. Qed.

Lemma run_assign_all_text l r :
  assign_all_text l (State r a tc te lg) = (Ret tt, State r l tc te lg).
Proof. reflexivity. Qed.

Lemma run_get_all_text r :
  get_all_text (State r a tc te lg) = (Ret a, State r a tc te lg).
Proof. reflexivity. Qed.

Lemma run_all_text_append s r :
  all_text_append s (State r a tc te lg) = (Ret tt, State r (a ++ [s]) tc te lg).
Proof. reflexivity. Qed.

Lemma run_assign_tables_count n r :
  assign_tables_count n (State r a tc te lg) = (Ret tt, State r a n te lg).
Proof. reflexivity. Qed.

Lemma run_get_tables_count r :
  get_tables_count (State r a tc te lg) = (Ret tc, State r a tc te lg).
Proof. reflexivity. Qed.

Lemma run_assign_text_entities n r :
  assign_text_entities n (State r a tc te lg) = (Ret tt, State r a tc n lg).
Proof. reflexivity. Qed.

Lemma run_get_text_entities r :
  get_text_entities (State r a tc te lg) = (Ret te, State r a tc te lg).
Proof. reflexivity. Qed.

Lemma run_print msg r :
  print msg (State r a tc te lg) =
  (Ret tt, State r a tc te (lg ++ [(c_print msg, None)])).
Proof. reflexivity. Qed.

Lemma run_record_error e :
  record_error e (State (res t m) a tc te lg) =
  (Ret tt, State (res t (<["error" := VStr (exn_msg e)]> m)) a tc te lg).
Proof. unfold record_error. exact (run_meta_set _ _). Qed.

End Run.

(** Run the statements in the goal in order, as far as the answers of the
    library calls are known. *)
Ltac mrun :=
  repeat first
    [ rewrite bind_eq
    | rewrite run_ret
    | rewrite run_raise
    | rewrite run_lib
    | rewrite run_print
    | rewrite run_set_text
    | rewrite run_meta_set
    | rewrite run_record_error
    | rewrite run_assign_result
    | rewrite run_get_result
    | rewrite run_assign_all_text
    | rewrite run_get_all_text
    | rewrite run_all_text_append
    | rewrite run_assign_tables_count
    | rewrite run_get_tables_count
    | rewrite run_assign_text_entities
    | rewrite run_get_text_entities
    | rewrite run_try_except
    | rewrite run_try_except_class
    | progress cbv beta iota
    | progress cbn [failure_of] ].


(** ** C10 and C4: the CAD extractor and the extension of the path *)

(** The test [filepath.lower().endswith('.dxf')], in words: the path ends
    in an extension that reads ".dxf" once lowered. *)
Lemma endswith_dxf filepath :
  endswith (lower filepath) (str ".dxf") = true ↔
  ∃ stem ext, filepath = stem ++ ext ∧ lower ext = str ".dxf".
Proof.
  unfold endswith. rewrite bool_decide_eq_true. unfold lower. split.
  - intros [k Hk]. apply fmap_app_inv in Hk as (stem & ext & _ & Hext & ->).
    exists stem, ext. auto.
  - intros (stem & ext & -> & Hext). exists (lower_char <$> stem).
    rewrite fmap_app, Hext. reflexivity.
Qed.

Lemma CAD_body_skips env filepath st :
  endswith (lower filepath) (str ".dxf") = false →
  CAD_body env filepath st = (Ret tt, st).
Proof. intros H. unfold CAD_body. rewrite H. reflexivity. Qed.

Lemma CAD_extract_skips env filepath :
  endswith (lower filepath) (str ".dxf") = false →
  returns (CADExtractor_extract env filepath) CAD_init (entry CADExtractor).
Proof.
  intros H. unfold returns, CADExtractor_extract.
  rewrite bind_eq. simpl. rewrite bind_eq. unfold try_except.
  rewrite (CAD_body_skips env filepath _ H). reflexivity.
Qed.

(** C10.  For a path that does not end in ".dxf", in any letter case, the
    CAD extractor makes no library call at all (the log is empty) and
    returns the dictionary it started from: empty text, no ['error'] key,
    both counts 0 and an empty list of layers. *)
Theorem CAD_decides_by_extension env filepath :
  ¬ (∃ stem ext, filepath = stem ++ ext ∧ lower ext = str ".dxf") →
  ∃ r st, returns (CADExtractor_extract env filepath) r st ∧
    log st = [] ∧
    text_of r = Some [] ∧
    meta_key r "error" = None ∧
    meta_key r "entities" = Some (VInt 0) ∧
    meta_key r "text_entities" = Some (VInt 0) ∧
    meta_key r "layers" = Some (VList []).
Proof.
  intros H. exists CAD_init, (entry CADExtractor). split.
  - apply CAD_extract_skips. apply not_true_is_false.
    intros Hd%endswith_dxf. exact (H Hd).
  - repeat split; reflexivity.
Qed.

Lemma CAD_decides_by_extension_witness :
  ∃ r st, returns (CADExtractor_extract offline (str "notes/readme.txt")) r st ∧
    log st = [] ∧
    text_of r = Some [] ∧
    meta_key r "error" = None ∧
    meta_key r "entities" = Some (VInt 0) ∧
    meta_key r "text_entities" = Some (VInt 0) ∧
    meta_key r "layers" = Some (VList []).
Proof.
  apply (CAD_decides_by_extension offline (str "notes/readme.txt")).
  rewrite <- endswith_dxf. vm_compute. discriminate.
Defined.

(** C4, at a path with the legacy extension: in every environment the CAD
    extractor returns for "site_plan.dwg" the empty text and no ['error']
    key, without a call to the parser; the placeholder, which is not the
    empty text, is not produced. *)
Theorem CAD_dwg_gets_no_placeholder env :
  ∃ r st, returns (CADExtractor_extract env (str "site_plan.dwg")) r st ∧
    log st = [] ∧
    text_of r = Some [] ∧
    meta_key r "error" = None ∧
    CAD_placeholder (str "site_plan.dwg") = str "CAD file detected: site_plan.dwg" ∧
    text_of r ≠ Some (CAD_placeholder (str "site_plan.dwg")).
Proof.
  exists CAD_init, (entry CADExtractor). split.
  - apply CAD_extract_skips. reflexivity.
  - repeat split; try reflexivity. vm_compute. discriminate.
Qed.

(** What does hold of C4: an exception that leaves the [try] block of the
    CAD extractor gives the placeholder and the message; when it is the
    parser that raised, both counts are still 0. *)
Lemma CAD_failure_gives_placeholder env filepath e st1 :
  CAD_body env filepath (entry CADExtractor) = (Raise e, st1) →
  ∃ r st, returns (CADExtractor_extract env filepath) r st ∧
    text_of r = Some (CAD_placeholder filepath) ∧
    meta_key r "error" = Some (VStr (exn_msg e)).
Proof.
  intros Hb. pose proof (extract_cases env CADExtractor filepath) as H.
  simpl in H. rewrite Hb in H. destruct H as (m & Hm & H).
  do 2 eexists. split; [exact H|]. split.
  - unfold handled. apply text_of_set_text.
  - apply (handled_error CADExtractor).
Qed.

Lemma CAD_parser_failure env filepath e :
  endswith (lower filepath) (str ".dxf") = true →
  ezdxf_readfile env filepath = Raise e →
  ∃ r st, returns (CADExtractor_extract env filepath) r st ∧
    text_of r = Some (CAD_placeholder filepath) ∧
    meta_key r "error" = Some (VStr (exn_msg e)) ∧
    meta_key r "entities" = Some (VInt 0) ∧
    meta_key r "text_entities" = Some (VInt 0).
Proof.
  intros Hd He.
  assert (CADExtractor_extract env filepath fresh =
    (Ret (handled CADExtractor filepath e
            {[ "entities" := VInt 0; "text_entities" := VInt 0; "layers" := VList [] ]}
            CAD_init),
     State (handled CADExtractor filepath e
            {[ "entities" := VInt 0; "text_entities" := VInt 0; "layers" := VList [] ]}
            CAD_init) [] 0 0 [(c_ezdxf_readfile filepath, Some e)])) as H.
  { unfold CADExtractor_extract, CAD_body. rewrite Hd, He. reflexivity. }
  do 2 eexists. split; [exact H|]. repeat split.
Qed.

(** ** C5: the image extractor on failure *)

(** C5, as amended.  Every failure of the image extractor is reported.
    When the image cannot be opened, the result has the message of that
    failure under ['error'], the empty text and a null [image_size], and
    the OCR is not called.  When the image opens and the OCR call raises,
    the result has the message of that failure under ['error'], the empty
    text, and [image_size] holds the dimensions read from the header.
    Conversely, a result with an error comes from one of these two
    failures. *)
Theorem Image_failure env filepath :
  (∀ e, Image_open env filepath = Raise e →
     ∃ r st, returns (ImageExtractor_extract env filepath) r st ∧
       meta_key r "error" = Some (VStr (exn_msg e)) ∧
       text_of r = Some [] ∧
       meta_key r "image_size" = Some VNone ∧
       log st = [(c_Image_open filepath, Some e)]) ∧
  (∀ img e, Image_open env filepath = Ret img →
     image_to_string env img "eng+mal" = Raise e →
     ∃ r st, returns (ImageExtractor_extract env filepath) r st ∧
       meta_key r "error" = Some (VStr (exn_msg e)) ∧
       text_of r = Some [] ∧
       meta_key r "image_size" =
         Some (VTuple [VInt (size img).1; VInt (size img).2])) ∧
  (∀ r st, returns (ImageExtractor_extract env filepath) r st →
     is_Some (meta_key r "error") →
     text_of r = Some [] ∧
     match Image_open env filepath with
     | Raise e =>
         meta_key r "error" = Some (VStr (exn_msg e)) ∧
         meta_key r "image_size" = Some VNone
     | Ret img =>
         ∃ e, image_to_string env img "eng+mal" = Raise e ∧
           meta_key r "error" = Some (VStr (exn_msg e)) ∧
           meta_key r "image_size" =
             Some (VTuple [VInt (size img).1; VInt (size img).2])
     end).
Proof.
  unfold returns, ImageExtractor_extract, Image_body, fresh.
  change Image_init
    with (res [] {[ "ocr_method" := VStr (str "tesseract"); "image_size" := VNone ]}).
  split; [|split].
  - intros e Hopen. mrun. rewrite Hopen. mrun.
    do 2 eexists. split; [reflexivity|]. repeat split.
  - intros img e Hopen Hocr. mrun. rewrite Hopen. mrun. rewrite Hocr. mrun.
    do 2 eexists. split; [reflexivity|]. repeat split.
  - destruct (Image_open env filepath) as [img|e] eqn:Hopen; mrun.
    + destruct (image_to_string env img "eng+mal") as [text|e] eqn:Hocr; mrun;
        intros r st [= <- <-] Herr.
      * destruct Herr as [v Hv]. discriminate.
      * split; [reflexivity|]. exists e. repeat split.
    + intros r st [= <- <-] Herr. repeat split.
Qed.

(** An image that opens, in an installation where the OCR call fails. *)
Lemma scan_png_run :
  returns (ImageExtractor_extract ocr_down (str "scan.png"))
    (res []
       {[ "ocr_method" := VStr (str "tesseract");
          "image_size" := VTuple [VInt 640; VInt 480];
          "error" := VStr (str "Failed loading language 'mal'") ]})
    (State
       (res []
          {[ "ocr_method" := VStr (str "tesseract");
             "image_size" := VTuple [VInt 640; VInt 480];
             "error" := VStr (str "Failed loading language 'mal'") ]})
       [] 0 0
       [ (c_Image_open (str "scan.png"), None);
         (c_image_to_string photo "eng+mal", Some tesseract_error) ]).
Proof. vm_compute. reflexivity. Qed.

Lemma Image_failure_witness :
  (∃ r st, returns (ImageExtractor_extract offline (str "torn.png")) r st ∧
     meta_key r "error" = Some (VStr (str "not available")) ∧
     text_of r = Some [] ∧
     meta_key r "image_size" = Some VNone) ∧
  (∃ r st, returns (ImageExtractor_extract ocr_down (str "scan.png")) r st ∧
     meta_key r "error" = Some (VStr (str "Failed loading language 'mal'")) ∧
     text_of r = Some [] ∧
     meta_key r "image_size" = Some (VTuple [VInt 640; VInt 480])).
Proof.
  split.
  - destruct (Image_failure offline (str "torn.png")) as (H & _ & _).
    destruct (H unavailable eq_refl) as (r & st & Hret & He & Ht & Hsz & _).
    exists r, st. split; [exact Hret|]. split; [exact He|].
    split; [exact Ht|exact Hsz].
  - destruct (Image_failure ocr_down (str "scan.png")) as (_ & H & _).
    destruct (H photo tesseract_error eq_refl eq_refl)
      as (r & st & Hret & He & Ht & Hsz).
    exists r, st. split; [exact Hret|]. split; [exact He|].
    split; [exact Ht|exact Hsz].
Defined.

(** C5 as worded fails: when the image opens and the OCR call raises, the
    error is reported with [image_size] set to the dimensions, not null. *)
Lemma ocr_failure_keeps_image_size : ¬ image_failure_leaves_size_null.
Proof.
  intros H.
  destruct (H ocr_down (str "scan.png") _ _ scan_png_run) as [_ Hsz].
  - eexists. reflexivity.
  - discriminate.
Qed.

(** ** C9: the factory *)

Lemma extractors_lookup_None tag :
  extractors !! tag = None ↔ tag ∉ registered_tags.
Proof.
  unfold extractors. rewrite <- not_elem_of_list_to_map. reflexivity.
Qed.

Lemma get_extractor_unknown tag :
  tag ∉ registered_tags →
  get_extractor tag =
    Raise (Exn ValueError (str "No extractor available for file type: " ++ tag)).
Proof.
  intros H%extractors_lookup_None. unfold get_extractor. rewrite H. reflexivity.
Qed.

Lemma get_extractor_known tag :
  tag ∈ registered_tags → ∃ c, get_extractor tag = Ret c.
Proof.
  intros H. unfold get_extractor.
  destruct (extractors !! tag) as [c|] eqn:E; [eauto|].
  apply extractors_lookup_None in E. contradiction.
Qed.

(** C9.  For a tag outside the registry, [get_extractor] raises a
    [ValueError] whose message is "No extractor available for file type: "
    followed by the tag itself, so that two unknown tags never give the same
    message.  For a registered tag it returns a class whose [extract]
    returns a well-formed dictionary on every path.  The tags DOC, DWG and
    XLSX give the classes of DOCX, DXF and CSV. *)
Theorem factory_contract :
  (∀ tag, tag ∉ registered_tags →
     get_extractor tag =
       Raise (Exn ValueError (str "No extractor available for file type: " ++ tag))) ∧
  (∀ tag tag' e, tag ∉ registered_tags → tag' ∉ registered_tags →
     get_extractor tag = Raise e → get_extractor tag' = Raise e → tag = tag') ∧
  (∀ tag, tag ∈ registered_tags →
     ∃ c, get_extractor tag = Ret c ∧
       ∀ env filepath, ∃ r st,
         returns (extract env c filepath) r st ∧ well_formed r) ∧
  get_extractor (str "DOC") = get_extractor (str "DOCX") ∧
  get_extractor (str "DWG") = get_extractor (str "DXF") ∧
  get_extractor (str "XLSX") = get_extractor (str "CSV") ∧
  get_extractor (str "DOCX") = Ret DOCXExtractor ∧
  get_extractor (str "DXF") = Ret CADExtractor ∧
  get_extractor (str "CSV") = Ret CSVExtractor.
Proof.
  split; [exact get_extractor_unknown|]. split.
  - intros tag tag' e H H' E E'.
    rewrite (get_extractor_unknown tag H) in E.
    rewrite (get_extractor_unknown tag' H') in E'.
    rewrite <- E' in E. injection E as E. exact E.
  - split; [|repeat split; reflexivity].
    intros tag [c Hc]%get_extractor_known. exists c. split; [exact Hc|].
    intros env filepath. apply extract_returns.
Qed.

Lemma factory_contract_witness :
  get_extractor (str "ZIP") =
    Raise (Exn ValueError (str "No extractor available for file type: ZIP")) ∧
  ∃ c, get_extractor (str "DOC") = Ret c ∧
    ∀ env filepath, ∃ r st, returns (extract env c filepath) r st ∧ well_formed r.
Proof.
  destruct factory_contract as (Hunknown & _ & Hknown & _). split.
  - apply (Hunknown (str "ZIP")).
    apply (bool_decide_unpack _). vm_compute. exact I.
  - apply (Hknown (str "DOC")).
    apply (bool_decide_unpack _). vm_compute. exact I.
Defined.

(** ** The decoding loop of [CSVExtractor] and [TXTExtractor] *)

Lemma CSV_read_loop env filepath encs :
  CSV_read env filepath encs =
  read_loop (c_pd_read_csv filepath) (pd_read_csv env filepath)
    (Exn ValueError (str "Could not decode CSV with any common encoding")) encs.
Proof. induction encs as [|enc encs IH]; simpl; [|rewrite IH]; reflexivity. Qed.

Lemma TXT_read_loop env filepath encs :
  TXT_read env filepath encs =
  read_loop (c_open_read filepath) (open_read env filepath)
    (Exn ValueError (str "Could not decode text file with any common encoding")) encs.
Proof. induction encs as [|enc encs IH]; simpl; [|rewrite IH]; reflexivity. Qed.

Section ReadLoop.

Context {A : Type} (mk : string → call) (oracle : string → outcome A)
  (failure : exn).
Context (t : pystr) (m : gmap string pyval) (a : list pystr) (tc te : Z).

(** The encodings before the first that answers all raise
    [UnicodeDecodeError]: they are tried in order, and the one that answers
    is recorded. *)
Lemma read_loop_first pre enc post x lg :
  (∀ enc', enc' ∈ pre → decode_error (oracle enc')) →
  oracle enc = Ret x →
  read_loop mk oracle failure (pre ++ enc :: post) (State (res t m) a tc te lg) =
    (Ret x, State (res t (<["encoding" := VStr (str enc)]> m)) a tc te
              (lg ++ attempts mk oracle (pre ++ [enc]))).
Proof.
  intros Hpre Henc. revert lg.
  induction pre as [|enc' pre IH]; intros lg; simpl.
  - mrun. rewrite Henc. mrun. reflexivity.
  - destruct (Hpre enc') as (e & He & Hcls); [left|].
    mrun. rewrite He. mrun. rewrite decide_True by exact Hcls.
    rewrite IH by (intros; apply Hpre; right; assumption).
    unfold attempts. simpl. rewrite <- app_assoc. reflexivity.
Qed.


(** An exception of another class leaves the loop at once. *)
Lemma read_loop_other pre enc post e lg :
  (∀ enc', enc' ∈ pre → decode_error (oracle enc')) →
  oracle enc = Raise e → exn_cls e ≠ UnicodeDecodeError →
  read_loop mk oracle failure (pre ++ enc :: post) (State (res t m) a tc te lg) =
    (Raise e, State (res t m) a tc te (lg ++ attempts mk oracle (pre ++ [enc]))).
Proof.
  intros Hpre Henc Hcls. revert lg.
  induction pre as [|enc' pre IH]; intros lg; simpl.
  - mrun. rewrite Henc. mrun. rewrite decide_False by exact Hcls. reflexivity.
  - destruct (Hpre enc') as (e' & He' & Hcls'); [left|].
    mrun. rewrite He'. mrun. rewrite decide_True by exact Hcls'.
    rewrite IH by (intros; apply Hpre; right; assumption).
    unfold attempts. simpl. rewrite <- app_assoc. reflexivity.
Qed.

End ReadLoop.

(** ** [split] *)

Lemma split_cons c x s :
  split c (x :: s) =
  if (x =? c)%N then [] :: split c s
  else match split c s with
       | seg :: segs => (x :: seg) :: segs
       | [] => [[x]]
       end.
Proof. reflexivity. Qed.

Lemma split_nonempty c s : split c s ≠ [].
Proof.
  destruct s as [|x s]; [discriminate|]. rewrite split_cons.
  destruct (x =? c)%N; [discriminate|]. destruct (split c s); discriminate.
Qed.

(** One segment more than there are separators. *)
Lemma split_length c s :
  length (split c s) = (length (List.filter (λ x, (x =? c)%N) s) + 1)%nat.
Proof.
  induction s as [|x s IH]; [reflexivity|].
  rewrite split_cons. simpl. destruct (x =? c)%N; simpl.
  - rewrite IH. reflexivity.
  - pose proof (split_nonempty c s) as Hne.
    destruct (split c s) as [|seg segs]; [contradiction|]. exact IH.
Qed.

(** A text that ends in the separator has a last, empty, segment. *)
Lemma split_snoc c s : split c (s ++ [c]) = split c s ++ [[]].
Proof.
  induction s as [|x s IH].
  - simpl. rewrite N.eqb_refl. reflexivity.
  - rewrite <- app_comm_cons, !split_cons, IH.
    destruct (x =? c)%N; [reflexivity|].
    pose proof (split_nonempty c s) as Hne.
    destruct (split c s) as [|seg segs]; [contradiction|]. reflexivity.
Qed.

(** Joining the segments with the separator gives the text back. *)
Lemma join_split c s : join [c] (split c s) = s.
Proof.
  induction s as [|x s IH]; [reflexivity|].
  rewrite split_cons. pose proof (split_nonempty c s) as Hne.
  destruct (x =? c)%N eqn:E.
  - apply N.eqb_eq in E as ->.
    destruct (split c s) as [|seg segs]; [contradiction|].
    simpl in *. rewrite IH. reflexivity.
  - destruct (split c s) as [|seg segs]; [contradiction|].
    destruct segs; simpl in *; rewrite IH; reflexivity.
Qed.

(** ** The two extractors on a file that decodes *)

Lemma TXT_extract_first env filepath pre enc post content :
  encodings = pre ++ enc :: post →
  (∀ enc', enc' ∈ pre → decode_error (open_read env filepath enc')) →
  open_read env filepath enc = Ret content →
  returns (TXTExtractor_extract env filepath)
    (res content
       (<["lines" := VInt (Z.of_nat (length (split LF content)))]>
          (<["encoding" := VStr (str enc)]>
             {[ "encoding" := VStr (str "utf-8"); "lines" := VInt 0 ]})))
    (State
       (res content
          (<["lines" := VInt (Z.of_nat (length (split LF content)))]>
             (<["encoding" := VStr (str enc)]>
                {[ "encoding" := VStr (str "utf-8"); "lines" := VInt 0 ]})))
       [] 0 0
       (attempts (c_open_read filepath) (open_read env filepath) (pre ++ [enc]))).
Proof.
  intros Hencs Hpre Henc.
  unfold returns, TXTExtractor_extract, TXT_body, fresh.
  change TXT_init
    with (res [] {[ "encoding" := VStr (str "utf-8"); "lines" := VInt 0 ]}).
  rewrite TXT_read_loop, Hencs. mrun.
  rewrite (read_loop_first _ _ _ _ _ _ _ _ pre enc post content _ Hpre Henc).
  mrun. reflexivity.
Qed.


Lemma CSV_extract_first env filepath pre enc post df :
  encodings = pre ++ enc :: post →
  (∀ enc', enc' ∈ pre → decode_error (pd_read_csv env filepath enc')) →
  pd_read_csv env filepath enc = Ret df →
  returns (CSVExtractor_extract env filepath)
    (res (join (nl ++ nl) (CSV_text_parts env df))
       (<["columns" := VInt (Z.of_nat (length (columns df)))]>
          (<["rows" := VInt (Z.of_nat (length (rows df)))]>
             (<["encoding" := VStr (str enc)]>
                {[ "rows" := VInt 0; "columns" := VInt 0;
                   "encoding" := VStr (str "utf-8") ]}))))
    (State
       (res (join (nl ++ nl) (CSV_text_parts env df))
          (<["columns" := VInt (Z.of_nat (length (columns df)))]>
             (<["rows" := VInt (Z.of_nat (length (rows df)))]>
                (<["encoding" := VStr (str enc)]>
                   {[ "rows" := VInt 0; "columns" := VInt 0;
                      "encoding" := VStr (str "utf-8") ]}))))
       [] 0 0
       (attempts (c_pd_read_csv filepath) (pd_read_csv env filepath) (pre ++ [enc]))).
Proof.
  intros Hencs Hpre Henc.
  unfold returns, CSVExtractor_extract, CSV_body, fresh.
  change CSV_init
    with (res [] {[ "rows" := VInt 0; "columns" := VInt 0;
                    "encoding" := VStr (str "utf-8") ]}).
  rewrite CSV_read_loop, Hencs. mrun.
  rewrite (read_loop_first _ _ _ _ _ _ _ _ pre enc post df _ Hpre Henc).
  mrun. reflexivity.
Qed.


(** ** Python's own reading of a file *)

Lemma python_read_latin1 fs other filepath bs :
  fs filepath = Some bs →
  python_open_read fs other filepath "latin-1" =
    Ret (universal_newlines (decode_latin1 bs)).
Proof. intros H. unfold python_open_read. rewrite H. reflexivity. Qed.

Lemma python_read_utf8 fs other filepath bs :
  fs filepath = Some bs →
  python_open_read fs other filepath "utf-8" =
    match decode_utf8 bs with
    | Some s => Ret (universal_newlines s)
    | None => Raise (Exn UnicodeDecodeError (str "codec can't decode byte"))
    end.
Proof. intros H. unfold python_open_read. rewrite H. reflexivity. Qed.


(** ** C6: the order of the encodings *)





(** ** C7: the summary of a CSV file *)

(** C7.  When one of the encodings parses the file into a table [df], the
    text is a header with the numbers of rows and columns, a line with the
    names of the columns, and the rendering of [df.head(10)], which has the
    first ten rows of [df] at most; [metadata.rows] and [metadata.columns]
    are the full counts.  For 10,000 rows the preview has 10 rows and
    [metadata.rows] is 10,000. *)
Theorem CSV_summary env filepath pre enc post df :
  encodings = pre ++ enc :: post →
  (∀ enc', enc' ∈ pre → decode_error (pd_read_csv env filepath enc')) →
  pd_read_csv env filepath enc = Ret df →
  ∃ r st, returns (CSVExtractor_extract env filepath) r st ∧
    text_of r = Some (
      (str "CSV Table with " ++ str_of_nat (length (rows df)) ++ str " rows and "
         ++ str_of_nat (length (columns df)) ++ str " columns:")
      ++ (nl ++ nl) ++ (str "Columns: " ++ join (str ", ") (columns df))
      ++ (nl ++ nl) ++ str "Data preview:"
      ++ (nl ++ nl) ++ to_string env (head 10 df)) ∧
    columns (head 10 df) = columns df ∧
    rows (head 10 df) = take 10 (rows df) ∧
    (length (rows (head 10 df)) ≤ 10)%nat ∧
    meta_key r "rows" = Some (VInt (Z.of_nat (length (rows df)))) ∧
    meta_key r "columns" = Some (VInt (Z.of_nat (length (columns df)))) ∧
    meta_key r "error" = None ∧
    (Z.of_nat (length (rows df)) = 10000 →
       meta_key r "rows" = Some (VInt 10000) ∧
       length (rows (head 10 df)) = 10%nat).
Proof.
  intros Hencs Hpre Henc. do 2 eexists. split.
  - exact (CSV_extract_first env filepath pre enc post df Hencs Hpre Henc).
  - split; [reflexivity|]. split; [reflexivity|]. split; [reflexivity|].
    split; [simpl; rewrite length_take; lia|].
    split; [reflexivity|]. split; [reflexivity|]. split; [reflexivity|].
    intros Hn. split.
    + rewrite meta_key_res. rewrite lookup_insert_ne by done.
      rewrite lookup_insert_eq, Hn. reflexivity.
    + simpl. rewrite length_take. lia.
Qed.

Lemma CSV_summary_witness :
  ∃ r st,
    returns (CSVExtractor_extract (csv_reader (Z.to_nat 10000)) (str "riders.csv")) r st ∧
    meta_key r "rows" = Some (VInt 10000) ∧
    length (rows (head 10 (sheet (Z.to_nat 10000)))) = 10%nat.
Proof.
  destruct (CSV_summary (csv_reader (Z.to_nat 10000)) (str "riders.csv")
              [] "utf-8" ["latin-1"; "cp1252"] (sheet (Z.to_nat 10000)))
    as (r & st & Hret & _ & _ & _ & _ & _ & _ & _ & H).
  - reflexivity.
  - intros enc' Hin. inversion Hin.
  - reflexivity.
  - exists r, st. split; [exact Hret|]. apply H. vm_compute. reflexivity.
Defined.

(** ** C8: the plain-text extractor *)

Lemma universal_newlines_id s : CR ∉ s → universal_newlines s = s.
Proof.
  induction s as [|c s IH]; [reflexivity|].
  intros Hno. apply not_elem_of_cons in Hno as [Hc Hs].
  cbn [universal_newlines]. unfold CR in Hc.
  destruct (c =? 13)%N eqn:E; [apply N.eqb_eq in E; congruence|].
  rewrite (IH Hs). reflexivity.
Qed.

Lemma universal_newlines_CR s : CR ∉ universal_newlines s.
Proof.
  unfold CR.
  assert (∀ n s, (length s ≤ n)%nat → 13%N ∉ universal_newlines s) as H.
  { clear s. induction n as [|n IH]; intros [|c s] Hlen;
      try (intros []%elem_of_nil); [simpl in Hlen; lia|].
    simpl in Hlen. cbn [universal_newlines].
    destruct (c =? 13)%N eqn:E.
    - destruct s as [|c' s].
      + intros [=]%list_elem_of_singleton.
      + destruct (c' =? 10)%N; apply not_elem_of_cons; (split; [discriminate|]);
          apply IH; simpl in *; lia.
    - apply N.eqb_neq in E. apply not_elem_of_cons. split; [congruence|].
      apply IH. lia. }
  exact (H (length s) s (le_n _)).
Qed.

(** Text mode leaves a content as it is exactly when it has no carriage
    return. *)
Lemma universal_newlines_verbatim s : universal_newlines s = s ↔ CR ∉ s.
Proof.
  split; [|apply universal_newlines_id].
  intros <-. apply universal_newlines_CR.
Qed.

Lemma TXT_python_text env fs filepath bs :
  fs filepath = Some bs →
  ∃ r st, returns (TXTExtractor_extract (with_files env fs) filepath) r st ∧
    text_of r = Some (universal_newlines (decoded bs)) ∧
    meta_key r "lines" =
      Some (VInt (Z.of_nat (length (split LF (universal_newlines (decoded bs)))))).
Proof.
  intros Hfile. unfold decoded.
  pose proof (python_read_utf8 fs (open_read env) filepath bs Hfile) as Hutf8.
  pose proof (python_read_latin1 fs (open_read env) filepath bs Hfile) as Hlatin.
  destruct (decode_utf8 bs) as [s|].
  - do 2 eexists. split.
    + apply (TXT_extract_first _ filepath [] "utf-8" ["latin-1"; "cp1252"]);
        [reflexivity | intros ? []%elem_of_nil | exact Hutf8].
    + split; reflexivity.
  - do 2 eexists. split.
    + apply (TXT_extract_first _ filepath ["utf-8"] "latin-1" ["cp1252"]);
        [reflexivity | | exact Hlatin].
      intros enc' ->%list_elem_of_singleton. eexists. split; [exact Hutf8|reflexivity].
    + split; reflexivity.
Qed.

(** C8, as amended.  When one of the encodings reads the file, the text
    returned is what the read returned, unchanged, and [metadata.lines] is
    the number of segments of that text between line feeds: one more than
    the number of line feeds, so that a text ending in a line feed has a
    last, empty, segment, which is counted.  What the read returns is not
    always the content of the file: under Python's text mode it is the
    decoded content with every line ending "\r\n" or "\r" turned into
    "\n".  The text returned has no carriage return, it is the content of
    the file as it is exactly when that content has none, and the lines are
    counted on the text returned. *)
Theorem TXT_text_and_lines env filepath :
  (∀ pre enc post content,
     encodings = pre ++ enc :: post →
     (∀ enc', enc' ∈ pre → decode_error (open_read env filepath enc')) →
     open_read env filepath enc = Ret content →
     ∃ r st, returns (TXTExtractor_extract env filepath) r st ∧
       text_of r = Some content ∧
       meta_key r "lines" = Some (VInt (Z.of_nat (length (split LF content)))) ∧
       join nl (split LF content) = content ∧
       length (split LF content) = (count_LF content + 1)%nat ∧
       (∀ s, content = s ++ nl →
          split LF content = split LF s ++ [[]] ∧
          meta_key r "lines" = Some (VInt (Z.of_nat (length (split LF s)) + 1)))) ∧
  (∀ fs bs, fs filepath = Some bs →
     ∃ r st text,
       returns (TXTExtractor_extract (with_files env fs) filepath) r st ∧
       text_of r = Some text ∧
       text = universal_newlines (decoded bs) ∧
       (text = decoded bs ↔ CR ∉ decoded bs) ∧
       (CR ∉ text) ∧
       meta_key r "lines" = Some (VInt (Z.of_nat (length (split LF text)))) ∧
       length (split LF text) = (count_LF text + 1)%nat).
Proof.
  split.
  - intros pre enc post content Hencs Hpre Henc. do 2 eexists. split.
    + exact (TXT_extract_first env filepath pre enc post content Hencs Hpre Henc).
    + split; [reflexivity|]. split; [reflexivity|].
      split; [apply join_split|]. split; [apply split_length|].
      intros s ->. split; [apply split_snoc|].
      rewrite meta_key_res, lookup_insert_eq. unfold nl.
      rewrite split_snoc, length_app. simpl. do 2 f_equal. lia.
  - intros fs bs Hfile.
    destruct (TXT_python_text env fs filepath bs Hfile) as (r & st & Hret & Ht & Hl).
    exists r, st, (universal_newlines (decoded bs)).
    split; [exact Hret|]. split; [exact Ht|]. split; [reflexivity|].
    split; [apply universal_newlines_verbatim|].
    split; [apply universal_newlines_CR|]. split; [exact Hl|].
    apply split_length.
Qed.

(** The file "dos.txt": "a", a DOS line ending, "b". *)
Lemma dos_run :
  decode_utf8 dos_lines = Some [97; CR; LF; 98]%N ∧
  ∃ st, returns (TXTExtractor_extract dos_disk (str "dos.txt"))
    (res (str "a" ++ nl ++ str "b")
       {[ "encoding" := VStr (str "utf-8"); "lines" := VInt 2 ]}) st.
Proof. split; [reflexivity|]. eexists. vm_compute. reflexivity. Qed.

Lemma TXT_text_and_lines_witness :
  (∃ r st, returns (TXTExtractor_extract dos_disk (str "dos.txt")) r st ∧
     text_of r = Some (str "a" ++ nl ++ str "b") ∧
     meta_key r "lines" = Some (VInt 2)) ∧
  (∃ r st, returns (TXTExtractor_extract notes_disk (str "notes.txt")) r st ∧
     text_of r = Some (str "a" ++ nl ++ str "b" ++ nl) ∧
     meta_key r "lines" = Some (VInt 3)).
Proof.
  split.
  - destruct (TXT_text_and_lines offline (str "dos.txt")) as [_ H].
    destruct (H (one_file (str "dos.txt") dos_lines) dos_lines eq_refl)
      as (r & st & text & Hret & Ht & -> & _ & _ & Hl & _).
    exists r, st. split; [exact Hret|]. split; [exact Ht|exact Hl].
  - destruct (TXT_text_and_lines notes_disk (str "notes.txt")) as [H _].
    destruct (H [] "utf-8" ["latin-1"; "cp1252"] (str "a" ++ nl ++ str "b" ++ nl))
      as (r & st & Hret & Htext & Hlines & _).
    + reflexivity.
    + intros enc' Hin. inversion Hin.
    + reflexivity.
    + exists r, st. split; [exact Hret|]. split; [exact Htext|]. exact Hlines.
Defined.

(** C8 as worded fails: the file "dos.txt" holds "a\r\nb", and the text
    returned is "a\nb": the carriage return of the file is not in it. *)
Lemma crlf_is_rewritten : ¬ text_is_file_content_verbatim.
Proof.
  intros H.
  destruct dos_run as (Hutf8 & st0 & Hrun).
  destruct (H offline (one_file (str "dos.txt") dos_lines) (str "dos.txt")
              dos_lines _ eq_refl Hutf8)
    as (r & st & Hret & Htext & _).
  unfold returns, dos_disk in *. rewrite Hrun in Hret.
  injection Hret as <- <-. discriminate.
Qed.

(** ** The PDF extractor, page by page *)

Lemma str_inj s1 s2 : str s1 = str s2 → s1 = s2.
Proof.
  unfold str. intros H.
  assert (Inj (=) (=) Ascii.N_of_ascii) as Hinj.
  { intros a b Hab.
    rewrite <- (Ascii.ascii_N_embedding a), <- (Ascii.ascii_N_embedding b), Hab.
    reflexivity. }
  apply (list_fmap_eq_inj Ascii.N_of_ascii Hinj) in H.
  rewrite <- (String.string_of_list_ascii_of_string s1),
          <- (String.string_of_list_ascii_of_string s2), H.
  reflexivity.
Qed.

Lemma str_of_nat_inj n n' : str_of_nat n = str_of_nat n' → n = n'.
Proof. intros H%str_inj. exact (inj pretty _ _ H). Qed.



Lemma page_ocr_inj i j : page_ocr i = page_ocr j → i = j.
Proof.
  unfold page_ocr. intros H.
  apply app_inv_head, app_inv_tail, str_of_nat_inj in H. lia.
Qed.


Lemma direct_text_Some text t :
  direct_text text = Some t ↔ text = Some t ∧ (30 < length (strip t))%nat.
Proof.
  unfold direct_text. destruct text as [t'|]; [|split; [discriminate|intros [[=] _]]].
  destruct (bool_decide (t' ≠ [])) eqn:E1;
    destruct (bool_decide (30 < length (strip t'))%nat) eqn:E2; simpl.
  - apply bool_decide_eq_true in E2. split.
    + intros [= <-]. auto.
    + intros [[= <-] _]. reflexivity.
  - apply bool_decide_eq_false in E2. split; [discriminate|].
    intros [[= <-] H]. contradiction.
  - apply bool_decide_eq_false in E1. split; [discriminate|].
    intros [[= <-] H]. destruct t'; [simpl in H; lia|]. exfalso. apply E1. discriminate.
  - apply bool_decide_eq_false in E2. split; [discriminate|].
    intros [[= <-] H]. contradiction.
Qed.

Lemma direct_text_significant page text t :
  extract_text page = Ret text →
  direct_text text = Some t ↔ significant page t.
Proof.
  intros H. rewrite direct_text_Some. unfold significant. rewrite H. split.
  - intros [-> ?]. auto.
  - intros [[= ->] ?]. auto.
Qed.

Lemma direct_text_None page text :
  extract_text page = Ret text →
  direct_text text = None ↔ ¬ (∃ t, significant page t).
Proof.
  intros H. split.
  - intros Hn [t Ht]. apply (direct_text_significant page text t H) in Ht. congruence.
  - intros Hn. destruct (direct_text text) as [t|] eqn:E; [|reflexivity].
    exfalso. apply Hn. exists t. apply (direct_text_significant page text t H), E.
Qed.

(** Appending to the tag list twice is appending once. *)
Lemma em_insert_insert (m : gmap string pyval) l dm dm' :
  <[em := VList ((l ++ dm) ++ dm')]> (<[em := VList (l ++ dm)]> m) =
  <[em := VList (l ++ (dm ++ dm'))]> m.
Proof. rewrite insert_insert_eq, app_assoc. reflexivity. Qed.

Lemma em_insert_nil (m : gmap string pyval) l :
  m !! em = Some (VList l) → <[em := VList (l ++ [])]> m = m.
Proof. intros H. rewrite app_nil_r. apply insert_id, H. Qed.

Lemma for_each_append {A} (f : A → pystr) xs r a tc te lg :
  for_each xs (λ x, all_text_append (f x)) (State r a tc te lg) =
  (Ret tt, State r (a ++ (f <$> xs)) tc te lg).
Proof.
  revert a. induction xs as [|x xs IH]; intros a; simpl.
  - rewrite app_nil_r. reflexivity.
  - mrun. rewrite IH, <- app_assoc. reflexivity.
Qed.

Section Page.

Context (env : Env) (filepath : pystr) (i : nat).

(** The tables of a page: the text and the count grow, [result] is not
    touched, and the block never raises. *)
Lemma PDF_tables_run page r a tc te lg :
  ∃ dt tc',
    PDF_tables i page (State r a tc te lg) =
    (Ret tt, State r (a ++ dt) tc' te
               (lg ++ [(c_extract_tables i, failure_of (extract_tables page))])).
Proof.
  unfold PDF_tables. mrun.
  destruct (extract_tables page) as [tables|e]; mrun.
  - destruct (bool_decide (tables ≠ [])); mrun.
    + rewrite for_each_append. eauto.
    + exists [], tc. rewrite app_nil_r. reflexivity.
  - exists [], tc. rewrite app_nil_r. reflexivity.
Qed.

(** The OCR of the images of one page: some tags [page_ocr i] and some
    texts are appended; no rasterisation is requested. *)
Lemma PDF_ocr_images imgs t m l a tc te lg :
  m !! em = Some (VList l) →
  ∃ o n dt dl,
    for_each imgs (λ img,
      ocr_text ← lib (c_image_to_string img "eng+mal")
                     (image_to_string env img "eng+mal");
      all_text_append ocr_text;;
      meta_append "extraction_method" (VStr (page_ocr i)))
      (State (res t m) a tc te lg) =
    (o, State (res t (<[em := VList (l ++ replicate n (VStr (page_ocr i)))]> m))
              (a ++ dt) tc te (lg ++ dl)) ∧
    Forall (λ ev : event, is_convert ev.1 = false) dl.
Proof.
  revert m l a lg. induction imgs as [|img imgs IH]; intros m l a lg Hl; simpl.
  - exists (Ret tt), 0%nat, [], []. simpl.
    rewrite (em_insert_nil m l Hl), !app_nil_r. split; [reflexivity|constructor].
  - mrun. destruct (image_to_string env img "eng+mal") as [ocr_text|e]; mrun.
    + rewrite (run_meta_append _ _ _ _ _ _ em _ l Hl).
      edestruct (IH (<[em := VList (l ++ [VStr (page_ocr i)])]> m)
                    (l ++ [VStr (page_ocr i)]) (a ++ [ocr_text])
                    (lg ++ [(c_image_to_string img "eng+mal", None)]))
        as (o & n & dt & dl & Hrun & Hdl).
      { apply lookup_insert_eq. }
      mrun. rewrite Hrun.
      exists o, (S n), (ocr_text :: dt), ((c_image_to_string img "eng+mal", None) :: dl).
      split.
      * rewrite insert_insert_eq, <- !app_assoc. reflexivity.
      * constructor; [reflexivity|exact Hdl].
    + exists (Raise e), 0%nat, [], [(c_image_to_string img "eng+mal", Some e)].
      simpl. rewrite (em_insert_nil m l Hl), !app_nil_r.
      split; [reflexivity|]. constructor; [reflexivity|constructor].
Qed.

(** The fallback of one page: the rasterisation of page [i+1] alone is
    requested, once, and the block never raises. *)
Lemma PDF_ocr_run t m l a tc te lg :
  m !! em = Some (VList l) →
  ∃ n dt dl,
    PDF_ocr env filepath i (State (res t m) a tc te lg) =
    (Ret tt, State (res t (<[em := VList (l ++ replicate n (VStr (page_ocr i)))]> m))
               (a ++ dt) tc te
               (lg ++ (c_convert_from_path filepath (i + 1) (i + 1),
                       failure_of (convert_from_path env filepath (i + 1) (i + 1))) :: dl)) ∧
    Forall (λ ev : event, is_convert ev.1 = false) dl.
Proof.
  intros Hl. unfold PDF_ocr. mrun.
  destruct (convert_from_path env filepath (i + 1) (i + 1)) as [imgs|e]; mrun.
  - edestruct (PDF_ocr_images imgs t m l a tc te
                 (lg ++ [(c_convert_from_path filepath (i + 1) (i + 1), None)]) Hl)
      as (o & n & dt & dl & Hrun & Hdl).
    rewrite Hrun. destruct o as [[]|e]; mrun.
    + exists n, dt, dl. rewrite <- app_assoc. split; [reflexivity|exact Hdl].
    + eexists n, dt, (dl ++ [_]). rewrite <- !app_assoc. split; [reflexivity|].
      apply Forall_app. split; [exact Hdl|]. constructor; [reflexivity|constructor].
  - eexists 0%nat, [], [_]. simpl.
    rewrite (em_insert_nil m l Hl), app_nil_r, <- app_assoc.
    split; [reflexivity|]. constructor; [reflexivity|constructor].
Qed.

(** One page. *)
Lemma PDF_page_run page t m l a tc te lg :
  m !! em = Some (VList l) →
  ∃ o dm dt tc' dl,
    PDF_page env filepath i page (State (res t m) a tc te lg) =
    (o, State (res t (<[em := VList (l ++ dm)]> m)) (a ++ dt) tc' te (lg ++ dl)) ∧
    failure_of o = failure_of (extract_text page) ∧
    (∀ x, x ∈ dm → tag_of i page x) ∧
    (∀ ev : event, ev ∈ dl → is_convert ev.1 = true →
       ev = convert_event env filepath i ∧ ¬ (∃ t', significant page t')) ∧
    (∀ t', significant page t' → VStr (page_direct i) ∈ dm ∧ t' ∈ dt) ∧
    (text_extracted page → (¬ (∃ t', significant page t')) →
       convert_event env filepath i ∈ dl).
Proof.
  intros Hl. unfold PDF_page. mrun.
  destruct (extract_text page) as [text|e] eqn:Htext; mrun.
  - destruct (direct_text text) as [t0|] eqn:Hdirect.
    + (* the text is accepted *)
      pose proof (proj1 (direct_text_significant page text t0 Htext) Hdirect) as Hsig.
      mrun. rewrite (run_meta_append _ _ _ _ _ _ em _ l Hl). mrun.
      destruct (PDF_tables_run page
                  (res t (<[em := VList (l ++ [VStr (page_direct i)])]> m))
                  (a ++ [t0]) tc te (lg ++ [(c_extract_text i, None)]))
        as (dt & tc' & Hrun).
      rewrite Hrun.
      eexists (Ret tt), [VStr (page_direct i)], (t0 :: dt), tc', [_; _].
      rewrite <- !app_assoc. split; [reflexivity|]. split; [reflexivity|].
      split; [|split; [|split]].
      * intros x ->%list_elem_of_singleton. left. eauto.
      * intros ev Hev Hc. exfalso.
        apply elem_of_cons in Hev as [->|Hev]; [discriminate|].
        apply list_elem_of_singleton in Hev as ->. discriminate.
      * intros t' Ht'. split; [left|].
        destruct Hsig as [H1 _], Ht' as [H2 _]. rewrite H1 in H2.
        injection H2 as ->. left.
      * intros _ Hn. exfalso. apply Hn. eauto.
    + (* the page goes to OCR *)
      pose proof (proj1 (direct_text_None page text Htext) Hdirect) as Hnot.
      destruct (PDF_ocr_run t m l a tc te
                  (lg ++ [(c_extract_text i, None)]) Hl)
        as (n & dt1 & dl1 & Hrun1 & Hdl1).
      rewrite Hrun1. mrun.
      destruct (PDF_tables_run page
                  (res t (<[em := VList (l ++ replicate n (VStr (page_ocr i)))]> m))
                  (a ++ dt1) tc te
                  ((lg ++ [(c_extract_text i, None)]) ++
                   (c_convert_from_path filepath (i + 1) (i + 1),
                    failure_of (convert_from_path env filepath (i + 1) (i + 1))) :: dl1))
        as (dt2 & tc' & Hrun2).
      rewrite Hrun2.
      eexists (Ret tt), (replicate n (VStr (page_ocr i))), (dt1 ++ dt2), tc',
        ((c_extract_text i, None) :: convert_event env filepath i :: dl1 ++ [_]).
      split.
      { unfold convert_event. rewrite <- !app_assoc. reflexivity. }
      split; [reflexivity|]. split; [|split; [|split]].
      * intros x [-> _]%elem_of_replicate. right. unfold text_extracted. eauto.
      * intros ev Hev Hc.
        apply elem_of_cons in Hev as [->|Hev]; [discriminate|].
        apply elem_of_cons in Hev as [->|Hev]; [auto|].
        exfalso. apply elem_of_app in Hev as [Hev|Hev].
        -- rewrite Forall_forall in Hdl1. rewrite (Hdl1 ev Hev) in Hc. discriminate.
        -- apply list_elem_of_singleton in Hev as ->. discriminate.
      * intros t' Ht'. exfalso. apply Hnot. eauto.
      * intros _ _. right. left.
  - (* the text extraction raises *)
    eexists (Raise e), [], [], tc, [_].
    rewrite (em_insert_nil m l Hl), app_nil_r.
    split; [reflexivity|]. split; [reflexivity|].
    split; [|split; [|split]].
    + intros x []%elem_of_nil.
    + intros ev ->%list_elem_of_singleton. discriminate.
    + intros t' [Ht' _]. rewrite Htext in Ht'. discriminate.
    + intros [text Ht']. rewrite Htext in Ht'. discriminate.
Qed.

End Page.

(** The loop over the pages. *)
Lemma PDF_loop_run env filepath pages :
  ∀ i0 t m l a tc te lg,
  m !! em = Some (VList l) →
  ∃ o dm dt tc' dl,
    for_enumerate_from i0 pages (PDF_page env filepath) (State (res t m) a tc te lg) =
    (o, State (res t (<[em := VList (l ++ dm)]> m)) (a ++ dt) tc' te (lg ++ dl)) ∧
    loop_facts env filepath i0 pages o dm dt dl.
Proof.
  induction pages as [|page pages IH]; intros i0 t m l a tc te lg Hl; simpl.
  - exists (Ret tt), [], [], tc, [].
    rewrite (em_insert_nil m l Hl), !app_nil_r. split; [reflexivity|].
    split; [|split; [|split]].
    + intros x []%elem_of_nil.
    + intros ev []%elem_of_nil.
    + intros j p Hj. rewrite lookup_nil in Hj. discriminate.
    + intros p []%elem_of_nil.
  - destruct (PDF_page_run env filepath i0 page t m l a tc te lg Hl)
      as (o1 & dm1 & dt1 & tc1 & dl1 & Hrun1 & Hfail & Htags & Hconv & Hsig & Hocr).
    mrun. rewrite Hrun1. destruct o1 as [[]|e]; mrun.
    + (* the page is done; on to the next *)
      assert (text_extracted page) as Hpage.
      { unfold text_extracted. destruct (extract_text page); [eauto|discriminate]. }
      destruct (IH (S i0) t (<[em := VList (l ++ dm1)]> m) (l ++ dm1) (a ++ dt1)
                  tc1 te (lg ++ dl1) (lookup_insert_eq _ _ _))
        as (o & dm & dt & tc' & dl & Hrun & H1 & H2 & H3 & H4).
      rewrite Hrun. exists o, (dm1 ++ dm), (dt1 ++ dt), tc', (dl1 ++ dl).
      rewrite em_insert_insert, <- !app_assoc. split; [reflexivity|].
      split; [|split; [|split]].
      * intros x [Hx|Hx]%elem_of_app.
        -- exists 0%nat, page. rewrite Nat.add_0_r. auto.
        -- destruct (H1 x Hx) as (j & p & Hj & Hp). exists (S j), p.
           rewrite Nat.add_succ_r. auto.
      * intros ev [Hev|Hev]%elem_of_app Hc.
        -- destruct (Hconv ev Hev Hc) as [-> Hn].
           exists 0%nat, page. rewrite Nat.add_0_r. auto.
        -- destruct (H2 ev Hev Hc) as (j & p & Hj & -> & Hn). exists (S j), p.
           rewrite Nat.add_succ_r. auto.
      * intros [|j] p Hj Hreach; simpl in Hj.
        -- injection Hj as <-. rewrite Nat.add_0_r. split.
           ++ intros t' Ht'. destruct (Hsig t' Ht').
              split; apply elem_of_app; auto.
           ++ intros Hn. apply elem_of_app. auto.
        -- rewrite Nat.add_succ_r.
           destruct (H3 j p Hj) as [Ha Hb].
           { intros j' p' Hle Hj'. apply (Hreach (S j') p'); [lia|exact Hj']. }
           split.
           ++ intros t' Ht'. destruct (Ha t' Ht').
              split; apply elem_of_app; auto.
           ++ intros Hn. apply elem_of_app. auto.
      * destruct o as [[]|e].
        -- intros p [->|Hp]%elem_of_cons; auto.
        -- destruct H4 as (j & p & Hj & He & Hbefore). exists (S j), p.
           split; [exact Hj|]. split; [exact He|].
           intros [|j'] p' Hlt Hj'; simpl in Hj'.
           ++ injection Hj' as <-. exact Hpage.
           ++ apply (Hbefore j' p'); [lia|exact Hj'].
    + (* the text extraction of this page raised: the loop ends here *)
      exists (Raise e), dm1, dt1, tc1, dl1. split; [reflexivity|].
      assert (extract_text page = Raise e) as Hpage.
      { destruct (extract_text page); simpl in Hfail; congruence. }
      split; [|split; [|split]].
      * intros x Hx. exists 0%nat, page. rewrite Nat.add_0_r. auto.
      * intros ev Hev Hc. destruct (Hconv ev Hev Hc) as [-> Hn].
        exists 0%nat, page. rewrite Nat.add_0_r. auto.
      * intros j p Hj Hreach. exfalso.
        destruct (Hreach 0%nat page) as [text Ht]; [lia|reflexivity|].
        rewrite Hpage in Ht. discriminate.
      * exists 0%nat, page. split; [reflexivity|]. split; [exact Hpage|].
        intros j' p' Hlt. lia.
Qed.

(** ** Where an exception can come from *)

Lemma raise_from_pres {A} Q (m : M A) : pres Q m → raise_from Q m.
Proof. intros Hm st e st1 HQ Hrun. specialize (Hm st HQ). rewrite Hrun in Hm. exact Hm. Qed.

Lemma raise_from_bind {A B} Q (m : M A) (k : A → M B) :
  pres Q m → (∀ a, raise_from Q (k a)) → raise_from Q (m ≫= k).
Proof.
  intros Hm Hk st e st1 HQ Hrun. rewrite bind_eq in Hrun.
  specialize (Hm st HQ). destruct (m st) as [[a|e'] st']; simpl in Hm.
  - exact (Hk a st' e st1 Hm Hrun).
  - injection Hrun as <- <-. exact Hm.
Qed.

Lemma raise_from_never {A} Q W (m : M A) :
  never_raises W m → (∀ r, Q r → W r) → raise_from Q m.
Proof.
  intros Hm HQW st e st1 HQ Hrun.
  destruct (Hm st (HQW _ HQ)) as (a & st' & Hret). congruence.
Qed.

Lemma never_raises_bind {A B} W (m : M A) (k : A → M B) :
  never_raises W m → pres W m → (∀ a, never_raises W (k a)) →
  never_raises W (m ≫= k).
Proof.
  intros Hm Hp Hk st HW. destruct (Hm st HW) as (a & st' & Hret).
  rewrite bind_eq, Hret. apply Hk. specialize (Hp st HW).
  rewrite Hret in Hp. exact Hp.
Qed.

Lemma never_raises_ret {A} W (a : A) : never_raises W (mret a).
Proof. intros st _. eexists _, _. reflexivity. Qed.

Lemma never_raises_get_all_text W : never_raises W get_all_text.
Proof. intros st _. eexists _, _. reflexivity. Qed.

Lemma never_raises_get_tables_count W : never_raises W get_tables_count.
Proof. intros st _. eexists _, _. reflexivity. Qed.

Lemma never_raises_get_text_entities W : never_raises W get_text_entities.
Proof. intros st _. eexists _, _. reflexivity. Qed.

Lemma never_raises_set_text W v : never_raises W (set_text v).
Proof. intros st _. eexists _, _. reflexivity. Qed.

Lemma never_raises_meta_set k v : never_raises well_formed (meta_set k v).
Proof.
  intros st [[m Hm] _]. eexists _, _. apply (meta_set_eq k v st m Hm).
Qed.

Lemma text_pending_stable_meta k : stable_meta text_pending k.
Proof.
  intros r m v Hm [Hwf Ht]. split.
  - apply well_formed_stable_meta; assumption.
  - rewrite text_of_set_meta. exact Ht.
Qed.

Lemma text_pending_well_formed r : text_pending r → well_formed r.
Proof. intros [H _]. exact H. Qed.

#[local] Hint Resolve text_pending_stable_meta well_formed_stable_meta
  well_formed_stable_text : pres.

Create HintDb never.

#[local] Hint Resolve never_raises_ret never_raises_get_all_text
  never_raises_get_tables_count never_raises_get_text_entities
  never_raises_set_text never_raises_meta_set pres_get_all_text
  pres_get_tables_count pres_get_text_entities : never.

(** The end of a [try] block, from the assignment of the text on, never
    raises. *)
Ltac never_tac :=
  repeat first
    [ solve [auto with never pres]
    | simple apply never_raises_bind; [| |intros ?] ].

(** Peel the statements that leave the text alone, up to that end. *)
Ltac raise_tac :=
  repeat first
    [ solve [apply (raise_from_never _ well_formed);
             [never_tac | exact text_pending_well_formed]]
    | simple apply raise_from_bind; [|intros ?]
    | match goal with
      | |- raise_from _ (match ?x with _ => _ end) => destruct x
      end
    | match goal with
      | |- pres _ _ => solve [pres_tac]
      end ].

(** When the [try] block raises, the text has not been assigned yet. *)
Lemma body_raise_text_pending env c filepath :
  raise_from text_pending (body env c filepath).
Proof.
  destruct c; simpl.
  - unfold PDF_body, for_enumerate. raise_tac.
    apply PDF_loop_pres. auto with pres.
  - unfold Image_body. raise_tac.
  - unfold DOCX_body. raise_tac.
  - unfold CAD_body. raise_tac.
    apply pres_for_each. intros entity. apply CAD_entity_pres. auto with pres.
  - unfold CSV_body. raise_tac. apply CSV_read_pres. auto with pres.
  - unfold TXT_body. raise_tac. apply TXT_read_pres. auto with pres.
Qed.

Lemma init_text_pending c : text_pending (init c).
Proof.
  split; [apply init_well_formed|].
  destruct (init_res c) as (m & -> & _). reflexivity.
Qed.

(** ** The PDF extractor on a document that opens *)

Lemma PDF_extract_run env filepath pages :
  pdfplumber_open env filepath = Ret pages →
  ∃ o dm dt dl r st,
    loop_facts env filepath 0 pages o dm dt dl ∧
    returns (PDFExtractor_extract env filepath) r st ∧
    meta_key r em = Some (VList dm) ∧
    meta_key r "pages" = Some (VInt (Z.of_nat (length pages))) ∧
    all_text st = dt ∧
    log st = (c_pdfplumber_open filepath, None) :: dl ∧
    match o with
    | Ret _ =>
        text_of r = Some (join (nl ++ nl) dt) ∧ meta_key r "error" = None
    | Raise e =>
        text_of r = Some [] ∧
        meta_key r "error" = Some (VStr (exn_msg e)) ∧
        meta_key r "tables_found" = Some (VInt 0)
    end.
Proof.
  intros Hopen.
  unfold returns, PDFExtractor_extract, PDF_body, for_enumerate, fresh.
  change PDF_init
    with (res [] {[ "pages" := VInt 0; "extraction_method" := VList [];
                    "tables_found" := VInt 0 ]}).
  mrun. rewrite Hopen. mrun.
  set (m1 := <["pages" := VInt (Z.of_nat (length pages))]>
               {[ "pages" := VInt 0; "extraction_method" := VList [];
                  "tables_found" := VInt 0 ]} : gmap string pyval).
  assert (m1 !! em = Some (VList [])) as Hl
    by (unfold m1, em; rewrite lookup_insert_ne by discriminate; reflexivity).
  destruct (PDF_loop_run env filepath pages 0 [] m1
              [] [] 0 0 ([] ++ [(c_pdfplumber_open filepath, None)]) Hl)
    as (o & dm & dt & tc' & dl & Hrun & Hfacts).
  rewrite Hrun. exists o, dm, dt, dl.
  destruct o as [[]|e]; mrun; do 2 eexists;
    (split; [exact Hfacts|]); (split; [reflexivity|]);
    rewrite ?meta_key_res, ?text_of_res; unfold m1, em;
    repeat split;
    repeat (rewrite lookup_insert_eq || rewrite lookup_insert_ne by discriminate);
    reflexivity.
Qed.

(** [returns] determines what is returned. *)
Lemma returns_inj {A} (m : M A) a st a' st' :
  returns m a st → returns m a' st' → a = a' ∧ st = st'.
Proof. unfold returns. intros H H'. rewrite H in H'. injection H' as <- <-. auto. Qed.

(** ** C2: direct text or OCR, page by page *)





(** ** C3: what is left of a partial extraction *)

Lemma handled_metadata c filepath e m r :
  metadata_of (handled c filepath e m r) =
  Some (<["error" := VStr (exn_msg e)]> m).
Proof.
  unfold handled.
  destruct c; rewrite ?metadata_of_set_text; apply metadata_of_set_meta.
Qed.

Lemma handled_text c filepath e m r :
  text_of (handled c filepath e m r) =
  match c with
  | CADExtractor => Some (CAD_placeholder filepath)
  | _ => text_of r
  end.
Proof.
  unfold handled.
  destruct c; try apply text_of_set_meta. apply text_of_set_text.
Qed.

(** In a document [good ++ bad :: rest] where the pages of [good] are read
    and the text extraction of [bad] raises [e], the loop ends with [e]. *)
Lemma loop_stops_at_bad env filepath good bad rest e o dm dt dl :
  loop_facts env filepath 0 (good ++ bad :: rest) o dm dt dl →
  (∀ page, page ∈ good → text_extracted page) →
  extract_text bad = Raise e →
  o = Raise e.
Proof.
  intros (_ & _ & _ & H4) Hgood Hbad.
  assert ((good ++ bad :: rest) !! length good = Some bad) as Hat
    by (rewrite lookup_app_r, Nat.sub_diag by lia; reflexivity).
  destruct o as [[]|e'].
  - destruct (H4 bad) as [text Ht].
    + apply elem_of_app. right. left.
    + rewrite Hbad in Ht. discriminate.
  - destruct H4 as (j & p & Hj & He & Hbefore).
    destruct (Nat.lt_trichotomy j (length good)) as [Hlt|[->|Hgt]].
    + rewrite lookup_app_l in Hj by exact Hlt.
      destruct (Hgood p) as [text Ht]; [apply list_elem_of_lookup; eauto|].
      rewrite He in Ht. discriminate.
    + rewrite Hat in Hj. injection Hj as <-. congruence.
    + destruct (Hbefore (length good) bad Hgt Hat) as [text Ht].
      rewrite Hbad in Ht. discriminate.
Qed.

(** C3, as amended.  When the [try] block of an extractor raises, the
    result is returned with the metadata as it was at that point plus the
    key ['error']: every field written before the failure is kept.  The
    text is not: it is assigned at the end of the block only, so it is
    still empty at the failure (and the CAD extractor puts its placeholder
    there).  For a PDF whose first pages were read before the text
    extraction of a later page raised: the text returned is empty, the page
    count and the "direct" tags of the pages read are in the metadata, and
    their texts were collected in the text stream only. *)
Theorem partial_results env filepath :
  (∀ c e st1,
     body env c filepath (entry c) = (Raise e, st1) →
     ∃ r st m1, returns (extract env c filepath) r st ∧
       metadata_of (result st1) = Some m1 ∧
       text_of (result st1) = Some [] ∧
       metadata_of r = Some (<["error" := VStr (exn_msg e)]> m1) ∧
       (∀ k, k ≠ "error" → meta_key r k = m1 !! k) ∧
       text_of r =
         Some (match c with CADExtractor => CAD_placeholder filepath | _ => [] end)) ∧
  (∀ good bad rest e,
     pdfplumber_open env filepath = Ret (good ++ bad :: rest) →
     (∀ page, page ∈ good → text_extracted page) →
     extract_text bad = Raise e →
     ∃ r st methods, returns (PDFExtractor_extract env filepath) r st ∧
       text_of r = Some [] ∧
       meta_key r "error" = Some (VStr (exn_msg e)) ∧
       meta_key r "pages" = Some (VInt (Z.of_nat (length (good ++ bad :: rest)))) ∧
       meta_key r "extraction_method" = Some (VList methods) ∧
       (∀ j page t, good !! j = Some page → significant page t →
          VStr (page_direct j) ∈ methods ∧ t ∈ all_text st)).
Proof.
  split.
  - intros c e st1 Hbody.
    pose proof (extract_cases env c filepath) as H. rewrite Hbody in H.
    destruct H as (m1 & Hm1 & Hret).
    pose proof (body_raise_text_pending env c filepath (entry c) e st1
                  (init_text_pending c) Hbody) as [_ Htext].
    do 2 eexists. exists m1. split; [exact Hret|].
    split; [exact Hm1|]. split; [exact Htext|].
    split; [apply handled_metadata|]. split.
    + intros k Hk. unfold meta_key. rewrite handled_metadata. simpl.
      apply lookup_insert_ne. congruence.
    + rewrite handled_text, Htext. destruct c; reflexivity.
  - intros good bad rest e Hopen Hgood Hbad.
    destruct (PDF_extract_run env filepath _ Hopen)
      as (o & dm & dt & dl & r & st & Hfacts & Hret & Hem & Hpages & Hat & _ & Ho).
    pose proof (loop_stops_at_bad _ _ _ _ _ _ _ _ _ _ Hfacts Hgood Hbad) as ->.
    destruct Ho as (Htext & Herr & _).
    exists r, st, dm. split; [exact Hret|]. split; [exact Htext|].
    split; [exact Herr|]. split; [exact Hpages|]. split; [exact Hem|].
    intros j page t Hj Hsig.
    destruct Hfacts as (_ & _ & H3 & _).
    destruct (H3 j page) as [Ha _].
    + rewrite lookup_app_l; [exact Hj|]. apply lookup_lt_Some in Hj. exact Hj.
    + intros j' p' Hle Hj'. apply Hgood.
      apply lookup_lt_Some in Hj.
      rewrite lookup_app_l in Hj' by lia. apply list_elem_of_lookup. eauto.
    + simpl in Ha. rewrite Hat. apply Ha, Hsig.
Qed.

(** A document whose second page cannot be parsed. *)
Lemma broken_pdf_run :
  returns (PDFExtractor_extract (pdf_only [text_page; broken_page]) (str "report.pdf"))
    (res []
       {[ "pages" := VInt 2;
          "extraction_method" := VList [VStr (str "page_1_direct")];
          "tables_found" := VInt 0;
          "error" := VStr (str "Invalid dictionary construct") ]})
    (State
       (res []
          {[ "pages" := VInt 2;
             "extraction_method" := VList [VStr (str "page_1_direct")];
             "tables_found" := VInt 0;
             "error" := VStr (str "Invalid dictionary construct") ]})
       [forty] 0 0
       [ (c_pdfplumber_open (str "report.pdf"), None);
         (c_extract_text 0, None);
         (c_extract_tables 0, None);
         (c_extract_text 1,
          Some (Exn (LibraryError "PSSyntaxError") (str "Invalid dictionary construct"))) ]).
Proof. vm_compute. reflexivity. Qed.

Lemma text_page_significant : significant text_page forty.
Proof. split; [reflexivity|]. vm_compute. lia. Qed.

Lemma partial_results_witness :
  ∃ r st methods,
    returns (PDFExtractor_extract (pdf_only [text_page; broken_page]) (str "report.pdf")) r st ∧
    text_of r = Some [] ∧
    meta_key r "error" = Some (VStr (str "Invalid dictionary construct")) ∧
    meta_key r "pages" = Some (VInt 2) ∧
    meta_key r "extraction_method" = Some (VList methods) ∧
    VStr (page_direct 0) ∈ methods ∧ forty ∈ all_text st.
Proof.
  destruct (partial_results (pdf_only [text_page; broken_page]) (str "report.pdf"))
    as [_ H].
  destruct (H [text_page] broken_page [] parse_error eq_refl) as
    (r & st & methods & Hret & Htext & Herr & Hpages & Hem & Hgood).
  - intros page ->%list_elem_of_singleton. eexists. reflexivity.
  - reflexivity.
  - exists r, st, methods. split; [exact Hret|]. split; [exact Htext|].
    split; [exact Herr|]. split; [exact Hpages|]. split; [exact Hem|].
    apply (Hgood 0%nat text_page forty eq_refl text_page_significant).
Defined.

(** C3 as worded fails: the first page of "report.pdf" was extracted, the
    second raised, and the text returned is empty. *)
Lemma collected_text_is_dropped : ¬ partial_text_survives.
Proof.
  intros H.
  assert (∀ page, page ∈ [text_page] → ∃ t, significant page t) as Hgood.
  { intros page ->%list_elem_of_singleton. exists forty. exact text_page_significant. }
  destruct (H (pdf_only [text_page; broken_page]) (str "report.pdf")
              [text_page] broken_page [] parse_error _ _
              eq_refl Hgood eq_refl broken_pdf_run)
    as [_ (text & Htext & Hocc)].
  rewrite text_of_res in Htext. injection Htext as <-.
  destruct (Hocc text_page forty) as (before & after & Heq).
  - left.
  - exact text_page_significant.
  - apply (f_equal length) in Heq. rewrite !length_app in Heq.
    change (length forty) with 40%nat in Heq. simpl in Heq. lia.
Qed.

(** * Further properties of the extractors *)

Set Warnings "-clear-no-such-hyp".

(** ** The metadata keys of a result *)

Lemma has_keys_stable_meta ks k :
  k ∈ ks → stable_meta (has_keys ks) k.
Proof.
  intros Hk r m v Hm (m' & Hm' & Hkeys).
  rewrite Hm in Hm'. injection Hm' as <-.
  exists (<[k := v]> m). split; [apply metadata_of_set_meta|].
  rewrite dom_insert_L. apply (elem_of_list_to_set (C := gset string)) in Hk.
  set_solver.
Qed.

Lemma has_keys_stable_error ks : stable_meta (has_keys ks) "error".
Proof.
  intros r m v Hm (m' & Hm' & Hkeys).
  rewrite Hm in Hm'. injection Hm' as <-.
  exists (<["error" := v]> m). split; [apply metadata_of_set_meta|].
  rewrite dom_insert_L. set_solver.
Qed.

Lemma has_keys_stable_text ks : stable_text (has_keys ks).
Proof.
  intros r t (m & Hm & Hkeys). exists m.
  rewrite metadata_of_set_text. auto.
Qed.

Lemma init_has_keys c : has_keys (schema c) (init c).
Proof. destruct c; eexists; (split; [reflexivity|]); vm_compute; reflexivity. Qed.

#[local] Hint Extern 1 (stable_meta (has_keys _) _) =>
  (apply has_keys_stable_meta; solve [repeat constructor]) : pres.

#[local] Hint Resolve has_keys_stable_text : pres.

Lemma body_has_keys env c filepath :
  pres (has_keys (schema c)) (body env c filepath).
Proof.
  destruct c; simpl.
  - unfold PDF_body, for_enumerate. pres_tac.
    apply PDF_page_pres. auto with pres.
  - unfold Image_body. pres_tac.
  - unfold DOCX_body. pres_tac.
  - unfold CAD_body. pres_tac. apply CAD_entity_pres. auto with pres.
  - unfold CSV_body. pres_tac. apply CSV_read_pres. auto with pres.
  - unfold TXT_body. pres_tac. apply TXT_read_pres. auto with pres.
Qed.

(** X1.  Whatever the libraries answer, the metadata of the dictionary an
    extractor returns has exactly the keys its initial dictionary lists,
    and possibly the key ['error']: no key is ever removed and no other key
    is ever added. *)
Theorem metadata_schema env c filepath :
  ∃ r st m, returns (extract env c filepath) r st ∧
    metadata_of r = Some m ∧
    dom m ∖ {["error"]} = (list_to_set (schema c) : gset string).
Proof.
  pose proof (extract_cases env c filepath) as H.
  pose proof (body_has_keys env c filepath (entry c) (init_has_keys c)) as Hk.
  destruct (body env c filepath (entry c)) as [[[]|e] st1]; simpl in *.
  - destruct Hk as (m & Hm & Hdom). exists (result st1), st1, m. auto.
  - destruct H as (m & Hm & H).
    destruct Hk as (m' & Hm' & Hdom). rewrite Hm in Hm'. injection Hm' as <-.
    do 2 eexists. exists (<["error" := VStr (exn_msg e)]> m).
    split; [exact H|]. split; [apply handled_metadata|].
    rewrite dom_insert_L, <- Hdom. set_solver.
Qed.

(** ** An error and the text *)

(** X2.  A returned dictionary that has the key ['error'] has no extracted
    text: its text is the empty string, or for the CAD extractor the
    placeholder. *)
Theorem error_means_no_text env c filepath r st :
  returns (extract env c filepath) r st →
  is_Some (meta_key r "error") →
  text_of r =
    Some (match c with CADExtractor => CAD_placeholder filepath | _ => [] end).
Proof.
  intros Hret Herr.
  pose proof (extract_cases env c filepath) as H.
  pose proof (body_no_error env c filepath) as Hne.
  pose proof (body_raise_text_pending env c filepath (entry c)) as Hraise.
  destruct (body env c filepath (entry c)) as [[[]|e] st1]; simpl in *.
  - destruct (returns_inj _ _ _ _ _ Hret H) as [-> ->].
    rewrite Hne in Herr. destruct Herr as [v Hv]. discriminate.
  - destruct H as (m & Hm & H).
    destruct (returns_inj _ _ _ _ _ Hret H) as [-> _].
    destruct (Hraise e st1 (init_text_pending c) eq_refl) as [_ Ht].
    rewrite handled_text, Ht. destruct c; reflexivity.
Qed.

Lemma error_means_no_text_witness :
  ∃ r st,
    returns (extract (pdf_only [text_page; broken_page]) PDFExtractor (str "report.pdf")) r st ∧
    text_of r = Some [].
Proof.
  eexists _, _. split; [exact broken_pdf_run|].
  apply (error_means_no_text (pdf_only [text_page; broken_page]) PDFExtractor
           (str "report.pdf") _ _ broken_pdf_run).
  eexists. reflexivity.
Defined.

(** ** The PDF extractor on a file that does not open *)

(** X3.  When the PDF cannot be opened, nothing else is called: the result
    has the message of the failure under ['error'], the empty text, a page
    count of 0, no provenance tag and a table count of 0. *)
Theorem PDF_open_failure env filepath e :
  pdfplumber_open env filepath = Raise e →
  ∃ r st, returns (PDFExtractor_extract env filepath) r st ∧
    text_of r = Some [] ∧
    meta_key r "error" = Some (VStr (exn_msg e)) ∧
    meta_key r "pages" = Some (VInt 0) ∧
    meta_key r "extraction_method" = Some (VList []) ∧
    meta_key r "tables_found" = Some (VInt 0) ∧
    log st = [(c_pdfplumber_open filepath, Some e)].
Proof.
  intros Hopen.
  unfold returns, PDFExtractor_extract, PDF_body, fresh.
  change PDF_init
    with (res [] {[ "pages" := VInt 0; "extraction_method" := VList [];
                    "tables_found" := VInt 0 ]}).
  mrun. rewrite Hopen. mrun. do 2 eexists. split; [reflexivity|].
  repeat split.
Qed.

Lemma PDF_open_failure_witness :
  ∃ r st, returns (PDFExtractor_extract offline (str "missing.pdf")) r st ∧
    text_of r = Some [] ∧
    meta_key r "error" = Some (VStr (str "not available")) ∧
    meta_key r "pages" = Some (VInt 0).
Proof.
  destruct (PDF_open_failure offline (str "missing.pdf") unavailable eq_refl)
    as (r & st & Hret & Ht & He & Hp & _).
  exists r, st. auto.
Defined.

(** ** The image extractor when OCR answers *)

(** X4.  When the image opens and the OCR call returns, the text is what
    the OCR call returned, [image_size] is the size read from the header,
    there is no ['error'] key, and the two calls are the only ones made. *)
Theorem Image_success env filepath img text :
  Image_open env filepath = Ret img →
  image_to_string env img "eng+mal" = Ret text →
  ∃ r st, returns (ImageExtractor_extract env filepath) r st ∧
    text_of r = Some text ∧
    meta_key r "image_size" = Some (VTuple [VInt (size img).1; VInt (size img).2]) ∧
    meta_key r "ocr_method" = Some (VStr (str "tesseract")) ∧
    meta_key r "error" = None ∧
    log st = [ (c_Image_open filepath, None);
               (c_image_to_string img "eng+mal", None) ].
Proof.
  intros Hopen Hocr.
  unfold returns, ImageExtractor_extract, Image_body, fresh.
  change Image_init
    with (res [] {[ "ocr_method" := VStr (str "tesseract"); "image_size" := VNone ]}).
  mrun. rewrite Hopen. mrun. rewrite Hocr. mrun.
  do 2 eexists. split; [reflexivity|]. repeat split.
Qed.

Lemma Image_success_witness :
  ∃ r st, returns (ImageExtractor_extract ocr_up (str "sign.png")) r st ∧
    text_of r = Some (str "EXIT") ∧
    meta_key r "image_size" = Some (VTuple [VInt 640; VInt 480]) ∧
    meta_key r "error" = None.
Proof.
  destruct (Image_success ocr_up (str "sign.png") photo (str "EXIT") eq_refl eq_refl)
    as (r & st & Hret & Ht & Hs & _ & He & _).
  exists r, st. auto.
Defined.

(** ** The DOCX extractor *)

Lemma for_each_append_if (keep : pystr → bool) xs r a tc te lg :
  for_each xs (λ x, if keep x then all_text_append x else mret tt)
    (State r a tc te lg) =
  (Ret tt, State r (a ++ List.filter keep xs) tc te lg).
Proof.
  revert a. induction xs as [|x xs IH]; intros a; simpl.
  - rewrite app_nil_r. reflexivity.
  - mrun. destruct (keep x); mrun; rewrite IH.
    + rewrite <- app_assoc. reflexivity.
    + reflexivity.
Qed.

(** X5.  When the document opens, the text is made of its paragraphs, the
    blank ones (empty or white space only) left out, followed by one block
    per table, all joined by blank lines; [metadata.paragraphs] is the
    number of paragraphs kept and [metadata.tables] the number of tables.
    There is no ['error'] key and no other library call. *)
Theorem DOCX_success env filepath doc :
  docx_Document env filepath = Ret doc →
  ∃ r st, returns (DOCXExtractor_extract env filepath) r st ∧
    text_of r =
      Some (join (nl ++ nl)
              (List.filter (λ p, bool_decide (strip p ≠ [])) (paragraphs doc)
               ++ ((λ table, str "TABLE:" ++ nl
                               ++ join nl (join (str " | ") <$> table))
                     <$> tables doc))) ∧
    meta_key r "paragraphs" =
      Some (VInt (Z.of_nat (length
        (List.filter (λ p, bool_decide (strip p ≠ [])) (paragraphs doc))))) ∧
    meta_key r "tables" = Some (VInt (Z.of_nat (length (tables doc)))) ∧
    meta_key r "error" = None ∧
    log st = [(c_docx_Document filepath, None)].
Proof.
  intros Hopen.
  unfold returns, DOCXExtractor_extract, DOCX_body, fresh.
  change DOCX_init
    with (res [] {[ "paragraphs" := VInt 0; "tables" := VInt 0 ]}).
  mrun. rewrite Hopen. mrun.
  rewrite for_each_append_if. mrun.
  rewrite for_each_append. mrun.
  do 2 eexists. split; [reflexivity|]. repeat split.
Qed.

Lemma DOCX_success_witness :
  ∃ r st, returns (DOCXExtractor_extract (docx_reader memo) (str "memo.docx")) r st ∧
    text_of r =
      Some (str "Track inspection" ++ nl ++ nl ++ str "Line 1 is clear." ++ nl ++ nl
            ++ str "TABLE:" ++ nl ++ str "KM | Status" ++ nl ++ str "5+200 | ") ∧
    meta_key r "paragraphs" = Some (VInt 2) ∧
    meta_key r "tables" = Some (VInt 1).
Proof.
  destruct (DOCX_success (docx_reader memo) (str "memo.docx") memo eq_refl)
    as (r & st & Hret & Ht & Hp & Htb & _).
  exists r, st. split; [exact Hret|]. split; [exact Ht|]. split; [exact Hp|exact Htb].
Defined.

(** X6.  When the document cannot be opened, the result has the message of
    the failure under ['error'], the empty text and both counts at 0. *)
Theorem DOCX_failure env filepath e :
  docx_Document env filepath = Raise e →
  ∃ r st, returns (DOCXExtractor_extract env filepath) r st ∧
    text_of r = Some [] ∧
    meta_key r "error" = Some (VStr (exn_msg e)) ∧
    meta_key r "paragraphs" = Some (VInt 0) ∧
    meta_key r "tables" = Some (VInt 0) ∧
    log st = [(c_docx_Document filepath, Some e)].
Proof.
  intros Hopen.
  unfold returns, DOCXExtractor_extract, DOCX_body, fresh.
  change DOCX_init
    with (res [] {[ "paragraphs" := VInt 0; "tables" := VInt 0 ]}).
  mrun. rewrite Hopen. mrun.
  do 2 eexists. split; [reflexivity|]. repeat split.
Qed.

Lemma DOCX_failure_witness :
  ∃ r st, returns (DOCXExtractor_extract offline (str "memo.docx")) r st ∧
    text_of r = Some [] ∧
    meta_key r "error" = Some (VStr (str "not available")).
Proof.
  destruct (DOCX_failure offline (str "memo.docx") unavailable eq_refl)
    as (r & st & Hret & Ht & He & _).
  exists r, st. auto.
Defined.

(** ** The CAD extractor on a drawing that opens *)

Lemma visited_le entities : (visited entities ≤ length entities)%nat.
Proof.
  induction entities as [|entity rest IH]; simpl; [lia|].
  destruct (entity_text entity) as [[]|]; lia.
Qed.

Lemma visited_all entities :
  entity_failure entities = None → visited entities = length entities.
Proof.
  induction entities as [|entity rest IH]; simpl; [reflexivity|].
  destruct (entity_text entity) as [[]|]; intros H; try discriminate;
    rewrite IH by exact H; reflexivity.
Qed.

Lemma visited_failure entities e :
  entity_failure entities = Some e → (1 ≤ visited entities)%nat.
Proof.
  destruct entities as [|entity rest]; simpl; [discriminate|].
  destruct (entity_text entity) as [[]|]; lia.
Qed.

Lemma texts_le_visited entities :
  (length (texts_of entities) ≤ visited entities)%nat.
Proof.
  induction entities as [|entity rest IH]; simpl; [lia|].
  destruct (entity_text entity) as [[]|]; simpl; lia.
Qed.

Lemma entities_insert_insert (m : gmap string pyval) n k :
  <["entities" := VInt (n + 1 + Z.of_nat k)]> (<["entities" := VInt (n + 1)]> m) =
  <["entities" := VInt (n + Z.of_nat (S k))]> m.
Proof. rewrite insert_insert_eq. do 2 f_equal. lia. Qed.

(** One entity: it is counted, then its text, if it has one, is read. *)
Lemma CAD_entity_run entity t m n a tc te lg :
  m !! "entities" = Some (VInt n) →
  ∃ dl,
    CAD_entity entity (State (res t m) a tc te lg) =
    match entity_text entity with
    | Some (Ret text) =>
        (Ret tt, State (res t (<["entities" := VInt (n + 1)]> m)) (a ++ [text])
                   tc (te + 1) (lg ++ dl))
    | Some (Raise e) =>
        (Raise e, State (res t (<["entities" := VInt (n + 1)]> m)) a tc te (lg ++ dl))
    | None =>
        (Ret tt, State (res t (<["entities" := VInt (n + 1)]> m)) a tc te (lg ++ dl))
    end.
Proof.
  intros Hn. unfold CAD_entity, entity_text, incr_text_entities. mrun.
  rewrite (run_meta_incr _ _ _ _ _ _ "entities" n Hn). mrun.
  destruct (bool_decide (dxftype entity ∈ [str "TEXT"; str "MTEXT"])).
  - destruct (dxf_text entity) as [[text|e]|]; mrun.
    + eexists [_]. reflexivity.
    + eexists [_]. reflexivity.
    + exists []. rewrite app_nil_r. reflexivity.
  - destruct (bool_decide (dxftype entity = str "DIMENSION")).
    + destruct (dxf_text entity) as [[text|e]|]; mrun.
      * eexists [_]. reflexivity.
      * eexists [_]. reflexivity.
      * exists []. rewrite app_nil_r. reflexivity.
    + mrun. exists []. rewrite app_nil_r. reflexivity.
Qed.

(** The loop over the model space. *)
Lemma CAD_loop_run entities :
  ∀ t m n a tc te lg,
  m !! "entities" = Some (VInt n) →
  ∃ dl,
    for_each entities CAD_entity (State (res t m) a tc te lg) =
    (match entity_failure entities with
     | None => Ret tt
     | Some e => Raise e
     end,
     State (res t (<["entities" := VInt (n + Z.of_nat (visited entities))]> m))
       (a ++ texts_of entities) tc
       (te + Z.of_nat (length (texts_of entities))) (lg ++ dl)).
Proof.
  induction entities as [|entity rest IH]; intros t m n a tc te lg Hn.
  - exists []. simpl. rewrite !app_nil_r, !Z.add_0_r, (insert_id m _ _ Hn).
    reflexivity.
  - cbn [for_each visited texts_of entity_failure]. mrun.
    destruct (CAD_entity_run entity t m n a tc te lg Hn) as (dl1 & Hrun1).
    rewrite Hrun1. clear Hrun1.
    destruct (entity_text entity) as [[text|e]|]; mrun.
    + destruct (IH t (<["entities" := VInt (n + 1)]> m) (n + 1) (a ++ [text])
                  tc (te + 1) (lg ++ dl1) (lookup_insert_eq _ _ _)) as (dl & Hrun).
      rewrite Hrun. exists (dl1 ++ dl).
      rewrite entities_insert_insert, <- !app_assoc. simpl length.
      replace (te + 1 + Z.of_nat (length (texts_of rest)))
        with (te + Z.of_nat (S (length (texts_of rest)))) by lia.
      reflexivity.
    + exists dl1. rewrite app_nil_r, Z.add_0_r.
      change (Z.of_nat 1) with 1. reflexivity.
    + destruct (IH t (<["entities" := VInt (n + 1)]> m) (n + 1) a tc te
                  (lg ++ dl1) (lookup_insert_eq _ _ _)) as (dl & Hrun).
      rewrite Hrun. exists (dl1 ++ dl).
      rewrite entities_insert_insert, <- !app_assoc. reflexivity.
Qed.

Ltac lookups :=
  rewrite ?meta_key_res, ?text_of_res;
  repeat (rewrite lookup_insert_eq || rewrite lookup_insert_ne by discriminate);
  try reflexivity.

(** The CAD extractor on a path that ends in ".dxf", a drawing that opens
    and a model space that is handed out. *)
Lemma CAD_run env filepath doc entities :
  endswith (lower filepath) (str ".dxf") = true →
  ezdxf_readfile env filepath = Ret doc →
  modelspace doc = Ret entities →
  ∃ r st, returns (CADExtractor_extract env filepath) r st ∧
    meta_key r "layers" = Some (VList (VStr <$> layers doc)) ∧
    meta_key r "entities" = Some (VInt (Z.of_nat (visited entities))) ∧
    match entity_failure entities with
    | None =>
        text_of r = Some (join nl (texts_of entities)) ∧
        meta_key r "text_entities" =
          Some (VInt (Z.of_nat (length (texts_of entities)))) ∧
        meta_key r "error" = None
    | Some e =>
        text_of r = Some (CAD_placeholder filepath) ∧
        meta_key r "text_entities" = Some (VInt 0) ∧
        meta_key r "error" = Some (VStr (exn_msg e))
    end.
Proof.
  intros Hdxf Hread Hmsp.
  unfold returns, CADExtractor_extract, CAD_body, CAD_handler, fresh.
  change CAD_init
    with (res [] {[ "entities" := VInt 0; "text_entities" := VInt 0;
                    "layers" := VList [] ]}).
  rewrite Hdxf. mrun. rewrite Hread. mrun. rewrite Hmsp. mrun.
  set (m1 := <["layers" := VList (VStr <$> layers doc)]>
               {[ "entities" := VInt 0; "text_entities" := VInt 0;
                  "layers" := VList [] ]} : gmap string pyval).
  assert (m1 !! "entities" = Some (VInt 0)) as Hn
    by (unfold m1; rewrite lookup_insert_ne by discriminate; reflexivity).
  match goal with
  | |- context [for_each entities CAD_entity (State _ ?a ?tc ?te ?lg)] =>
      destruct (CAD_loop_run entities [] m1 0 a tc te lg Hn) as (dl & Hrun)
  end.
  rewrite Hrun. clear Hrun.
  destruct (entity_failure entities) as [e|]; mrun;
    do 2 eexists; (split; [reflexivity|]); unfold m1;
    repeat split; lookups.
Qed.

(** X7.  For a ".dxf" path whose drawing opens and whose entities can all
    be read: [metadata.entities] is the number of entities of the model
    space, [metadata.layers] the layer names, the text has one line per
    text taken (from every TEXT and MTEXT entity, and from the DIMENSION
    entities that have a text) and [metadata.text_entities] is the number of
    these lines, which the number of entities bounds.  There is no
    ['error'] key. *)
Theorem CAD_success env filepath doc entities :
  endswith (lower filepath) (str ".dxf") = true →
  ezdxf_readfile env filepath = Ret doc →
  modelspace doc = Ret entities →
  entity_failure entities = None →
  ∃ r st, returns (CADExtractor_extract env filepath) r st ∧
    meta_key r "entities" = Some (VInt (Z.of_nat (length entities))) ∧
    meta_key r "layers" = Some (VList (VStr <$> layers doc)) ∧
    text_of r = Some (join nl (texts_of entities)) ∧
    meta_key r "text_entities" = Some (VInt (Z.of_nat (length (texts_of entities)))) ∧
    (length (texts_of entities) ≤ length entities)%nat ∧
    meta_key r "error" = None.
Proof.
  intros Hdxf Hread Hmsp Hok.
  destruct (CAD_run env filepath doc entities Hdxf Hread Hmsp)
    as (r & st & Hret & Hl & Hn & H).
  rewrite Hok in H. destruct H as (Ht & Hk & He).
  exists r, st. split; [exact Hret|].
  rewrite (visited_all entities Hok) in Hn.
  split; [exact Hn|]. split; [exact Hl|]. split; [exact Ht|].
  split; [exact Hk|]. split; [|exact He].
  rewrite <- (visited_all entities Hok). apply texts_le_visited.
Qed.

Lemma CAD_success_witness :
  ∃ r st,
    returns (CADExtractor_extract
               (cad_reader [a_line; a_note; a_dimension; a_bare_dimension])
               (str "plans/Depot.DXF")) r st ∧
    meta_key r "entities" = Some (VInt 4) ∧
    text_of r = Some (str "PLATFORM 2" ++ nl ++ str "12.5 m") ∧
    meta_key r "text_entities" = Some (VInt 2).
Proof.
  destruct (CAD_success (cad_reader [a_line; a_note; a_dimension; a_bare_dimension])
              (str "plans/Depot.DXF")
              {| layers := [str "0"; str "TRACK"];
                 modelspace := Ret [a_line; a_note; a_dimension; a_bare_dimension] |}
              [a_line; a_note; a_dimension; a_bare_dimension]
              eq_refl eq_refl eq_refl eq_refl)
    as (r & st & Hret & Hn & _ & Ht & Hk & _).
  exists r, st. split; [exact Hret|]. split; [exact Hn|]. split; [exact Ht|exact Hk].
Defined.

(** X8.  When the text of an entity cannot be read, the loop stops there:
    the result has the placeholder text and the message of the failure;
    [metadata.entities] counts the entities visited, that one included;
    [metadata.text_entities] is still 0, whatever texts were taken before,
    and [metadata.layers] is set. *)
Theorem CAD_entity_failure env filepath doc entities e :
  endswith (lower filepath) (str ".dxf") = true →
  ezdxf_readfile env filepath = Ret doc →
  modelspace doc = Ret entities →
  entity_failure entities = Some e →
  ∃ r st, returns (CADExtractor_extract env filepath) r st ∧
    text_of r = Some (CAD_placeholder filepath) ∧
    meta_key r "error" = Some (VStr (exn_msg e)) ∧
    meta_key r "entities" = Some (VInt (Z.of_nat (visited entities))) ∧
    (1 ≤ visited entities ≤ length entities)%nat ∧
    meta_key r "text_entities" = Some (VInt 0) ∧
    meta_key r "layers" = Some (VList (VStr <$> layers doc)).
Proof.
  intros Hdxf Hread Hmsp Hfail.
  destruct (CAD_run env filepath doc entities Hdxf Hread Hmsp)
    as (r & st & Hret & Hl & Hn & H).
  rewrite Hfail in H. destruct H as (Ht & Hk & He).
  exists r, st. split; [exact Hret|]. split; [exact Ht|]. split; [exact He|].
  split; [exact Hn|]. split; [|auto].
  split; [exact (visited_failure entities e Hfail)|apply visited_le].
Qed.

Lemma CAD_entity_failure_witness :
  ∃ r st,
    returns (CADExtractor_extract
               (cad_reader [a_note; a_line; a_bad_note; a_dimension])
               (str "plans/depot.dxf")) r st ∧
    text_of r = Some (str "CAD file detected: depot.dxf") ∧
    meta_key r "error" = Some (VStr (str "invalid text attribute")) ∧
    meta_key r "entities" = Some (VInt 3) ∧
    meta_key r "text_entities" = Some (VInt 0).
Proof.
  destruct (CAD_entity_failure (cad_reader [a_note; a_line; a_bad_note; a_dimension])
              (str "plans/depot.dxf")
              {| layers := [str "0"; str "TRACK"];
                 modelspace := Ret [a_note; a_line; a_bad_note; a_dimension] |}
              [a_note; a_line; a_bad_note; a_dimension] dxf_error
              eq_refl eq_refl eq_refl eq_refl)
    as (r & st & Hret & Ht & He & Hn & _ & Hk & _).
  exists r, st. split; [exact Hret|]. split; [exact Ht|]. split; [exact He|].
  split; [exact Hn|exact Hk].
Defined.

(** X9.  Whatever the path and whatever the library answers, the CAD
    extractor returns both counts as integers with
    [0 <= text_entities <= entities]. *)
Theorem CAD_counts env filepath :
  ∃ r st n k, returns (CADExtractor_extract env filepath) r st ∧
    meta_key r "entities" = Some (VInt n) ∧
    meta_key r "text_entities" = Some (VInt k) ∧
    0 ≤ k ≤ n.
Proof.
  destruct (endswith (lower filepath) (str ".dxf")) eqn:Hdxf.
  - destruct (ezdxf_readfile env filepath) as [doc|e] eqn:Hread.
    + destruct (modelspace doc) as [entities|e] eqn:Hmsp.
      * destruct (CAD_run env filepath doc entities Hdxf Hread Hmsp)
          as (r & st & Hret & _ & Hn & H).
        pose proof (texts_le_visited entities).
        destruct (entity_failure entities) as [e|].
        -- destruct H as (_ & Hk & _). exists r, st. do 2 eexists.
           split; [exact Hret|]. split; [exact Hn|]. split; [exact Hk|]. lia.
        -- destruct H as (_ & Hk & _). exists r, st. do 2 eexists.
           split; [exact Hret|]. split; [exact Hn|]. split; [exact Hk|]. lia.
      * unfold returns, CADExtractor_extract, CAD_body, CAD_handler, fresh.
        change CAD_init
          with (res [] {[ "entities" := VInt 0; "text_entities" := VInt 0;
                          "layers" := VList [] ]}).
        rewrite Hdxf. mrun. rewrite Hread. mrun. rewrite Hmsp. mrun.
        do 2 eexists. exists 0, 0. split; [reflexivity|].
        split; [lookups|]. split; [lookups|]. lia.
    + destruct (CAD_parser_failure env filepath e Hdxf Hread)
        as (r & st & Hret & _ & _ & Hn & Hk).
      exists r, st, 0, 0. split; [exact Hret|]. split; [exact Hn|].
      split; [exact Hk|]. lia.
  - exists CAD_init, (entry CADExtractor), 0, 0.
    split; [apply CAD_extract_skips, Hdxf|]. repeat split; lia.
Qed.

(** ** The decoding loop, whatever the reads answer *)

Section ReadLoopAny.

Context {A : Type} (mk : string → call) (oracle : string → outcome A)
  (failure : exn).

(** The loop reads under a prefix of the encodings, in order, and goes on
    to the next one only after a decoding error. *)
Lemma read_loop_any encs :
  ∀ t m a tc te lg,
  ∃ k o m',
    read_loop mk oracle failure encs (State (res t m) a tc te lg) =
      (o, State (res t m') a tc te (lg ++ attempts mk oracle (take k encs))) ∧
    (k ≤ length encs)%nat ∧
    (encs ≠ [] → 1 ≤ k)%nat ∧
    (∀ enc, enc ∈ take (k - 1) encs → decode_error (oracle enc)) ∧
    (∀ key, key ≠ "encoding" → m' !! key = m !! key).
Proof.
  induction encs as [|enc encs IH]; intros t m a tc te lg.
  - exists 0%nat, (Raise failure), m. simpl. rewrite app_nil_r.
    split; [reflexivity|]. split; [lia|]. split; [congruence|].
    split; [intros enc []%elem_of_nil|auto].
  - cbn [read_loop]. mrun.
    destruct (oracle enc) as [x|e] eqn:Henc; mrun.
    + exists 1%nat, (Ret x), (<["encoding" := VStr (str enc)]> m).
      unfold attempts. simpl. rewrite ?take_0, ?Henc.
      split; [reflexivity|]. split; [lia|]. split; [lia|].
      split; [intros enc' []%elem_of_nil|].
      intros key Hkey. apply lookup_insert_ne. congruence.
    + destruct (decide (exn_cls e = UnicodeDecodeError)) as [Hcls|Hcls].
      * destruct (IH t m a tc te (lg ++ [(mk enc, Some e)]))
          as (k & o & m' & Hrun & Hk & Hk1 & Hpre & Hm').
        rewrite Hrun. exists (S k), o, m'.
        unfold attempts. simpl. rewrite Henc, <- app_assoc.
        split; [reflexivity|]. split; [lia|]. split; [lia|].
        split; [|exact Hm'].
        intros enc'. rewrite Nat.sub_0_r.
        destruct k as [|k]; [intros []%elem_of_nil|].
        replace (S k - 1)%nat with k in Hpre by lia.
        rewrite firstn_cons. intros [->|Hin]%elem_of_cons.
        -- exists e. auto.
        -- apply Hpre, Hin.
      * exists 1%nat, (Raise e), m.
        unfold attempts. simpl. rewrite ?take_0, ?Henc.
        split; [reflexivity|]. split; [lia|]. split; [lia|].
        split; [intros enc' []%elem_of_nil|auto].
Qed.

End ReadLoopAny.

(** X10.  Whatever the reads answer, each of the two extractors reads the
    file at least once and at most three times, under the encodings in the
    order of the list, none skipped and none repeated, and reads it again
    only after a decoding error; nothing else is called. *)
Theorem reads_follow_the_list env filepath :
  (∃ r st k, returns (TXTExtractor_extract env filepath) r st ∧
     (1 ≤ k ≤ 3)%nat ∧
     log st = attempts (c_open_read filepath) (open_read env filepath)
                (take k encodings) ∧
     ∀ enc, enc ∈ take (k - 1) encodings →
       decode_error (open_read env filepath enc)) ∧
  (∃ r st k, returns (CSVExtractor_extract env filepath) r st ∧
     (1 ≤ k ≤ 3)%nat ∧
     log st = attempts (c_pd_read_csv filepath) (pd_read_csv env filepath)
                (take k encodings) ∧
     ∀ enc, enc ∈ take (k - 1) encodings →
       decode_error (pd_read_csv env filepath enc)).
Proof.
  split.
  - unfold returns, TXTExtractor_extract, TXT_body, fresh.
    change TXT_init
      with (res [] {[ "encoding" := VStr (str "utf-8"); "lines" := VInt 0 ]}).
    rewrite TXT_read_loop. mrun.
    match goal with
    | |- context [read_loop ?mk ?o ?f encodings (State (res ?t ?m) ?a ?tc ?te ?lg)] =>
        destruct (read_loop_any mk o f encodings t m a tc te lg)
          as (k & out & m' & Hrun & Hk & Hk1 & Hpre & _)
    end.
    rewrite Hrun. clear Hrun.
    assert (1 ≤ k ≤ 3)%nat by (split; [apply Hk1; discriminate|exact Hk]).
    destruct out as [text|e]; mrun; do 2 eexists; exists k;
      (split; [reflexivity|]); auto.
  - unfold returns, CSVExtractor_extract, CSV_body, fresh.
    change CSV_init
      with (res [] {[ "rows" := VInt 0; "columns" := VInt 0;
                      "encoding" := VStr (str "utf-8") ]}).
    rewrite CSV_read_loop. mrun.
    match goal with
    | |- context [read_loop ?mk ?o ?f encodings (State (res ?t ?m) ?a ?tc ?te ?lg)] =>
        destruct (read_loop_any mk o f encodings t m a tc te lg)
          as (k & out & m' & Hrun & Hk & Hk1 & Hpre & _)
    end.
    rewrite Hrun. clear Hrun.
    assert (1 ≤ k ≤ 3)%nat by (split; [apply Hk1; discriminate|exact Hk]).
    destruct out as [df|e]; mrun; do 2 eexists; exists k;
      (split; [reflexivity|]); auto.
Qed.

(** ** A read that fails for another reason *)

Lemma TXT_extract_other env filepath pre enc post e :
  encodings = pre ++ enc :: post →
  (∀ enc', enc' ∈ pre → decode_error (open_read env filepath enc')) →
  open_read env filepath enc = Raise e →
  exn_cls e ≠ UnicodeDecodeError →
  returns (TXTExtractor_extract env filepath)
    (res []
       (<["error" := VStr (exn_msg e)]>
          {[ "encoding" := VStr (str "utf-8"); "lines" := VInt 0 ]}))
    (State
       (res []
          (<["error" := VStr (exn_msg e)]>
             {[ "encoding" := VStr (str "utf-8"); "lines" := VInt 0 ]}))
       [] 0 0
       (attempts (c_open_read filepath) (open_read env filepath) (pre ++ [enc]))).
Proof.
  intros Hencs Hpre Henc Hcls.
  unfold returns, TXTExtractor_extract, TXT_body, fresh.
  change TXT_init
    with (res [] {[ "encoding" := VStr (str "utf-8"); "lines" := VInt 0 ]}).
  rewrite TXT_read_loop, Hencs. mrun.
  rewrite (read_loop_other _ _ _ _ _ _ _ _ pre enc post e _ Hpre Henc Hcls).
  mrun. reflexivity.
Qed.

Lemma CSV_extract_other env filepath pre enc post e :
  encodings = pre ++ enc :: post →
  (∀ enc', enc' ∈ pre → decode_error (pd_read_csv env filepath enc')) →
  pd_read_csv env filepath enc = Raise e →
  exn_cls e ≠ UnicodeDecodeError →
  returns (CSVExtractor_extract env filepath)
    (res []
       (<["error" := VStr (exn_msg e)]>
          {[ "rows" := VInt 0; "columns" := VInt 0;
             "encoding" := VStr (str "utf-8") ]}))
    (State
       (res []
          (<["error" := VStr (exn_msg e)]>
             {[ "rows" := VInt 0; "columns" := VInt 0;
                "encoding" := VStr (str "utf-8") ]}))
       [] 0 0
       (attempts (c_pd_read_csv filepath) (pd_read_csv env filepath) (pre ++ [enc]))).
Proof.
  intros Hencs Hpre Henc Hcls.
  unfold returns, CSVExtractor_extract, CSV_body, fresh.
  change CSV_init
    with (res [] {[ "rows" := VInt 0; "columns" := VInt 0;
                    "encoding" := VStr (str "utf-8") ]}).
  rewrite CSV_read_loop, Hencs. mrun.
  rewrite (read_loop_other _ _ _ _ _ _ _ _ pre enc post e _ Hpre Henc Hcls).
  mrun. reflexivity.
Qed.

(** X11.  A read that raises anything but a decoding error (a missing
    file, a table that does not parse) ends the loop: the encodings after
    it are not tried, the message of that exception is under ['error'], the
    text is empty, the counts are 0, and [metadata.encoding] keeps its
    initial value "utf-8", whichever encoding was being tried. *)
Theorem other_failure_is_final env filepath pre enc post :
  encodings = pre ++ enc :: post →
  (∀ e,
     (∀ enc', enc' ∈ pre → decode_error (open_read env filepath enc')) →
     open_read env filepath enc = Raise e →
     exn_cls e ≠ UnicodeDecodeError →
     ∃ r st, returns (TXTExtractor_extract env filepath) r st ∧
       text_of r = Some [] ∧
       meta_key r "error" = Some (VStr (exn_msg e)) ∧
       meta_key r "encoding" = Some (VStr (str "utf-8")) ∧
       meta_key r "lines" = Some (VInt 0) ∧
       log st = attempts (c_open_read filepath) (open_read env filepath) (pre ++ [enc])) ∧
  (∀ e,
     (∀ enc', enc' ∈ pre → decode_error (pd_read_csv env filepath enc')) →
     pd_read_csv env filepath enc = Raise e →
     exn_cls e ≠ UnicodeDecodeError →
     ∃ r st, returns (CSVExtractor_extract env filepath) r st ∧
       text_of r = Some [] ∧
       meta_key r "error" = Some (VStr (exn_msg e)) ∧
       meta_key r "encoding" = Some (VStr (str "utf-8")) ∧
       meta_key r "rows" = Some (VInt 0) ∧
       meta_key r "columns" = Some (VInt 0) ∧
       log st = attempts (c_pd_read_csv filepath) (pd_read_csv env filepath) (pre ++ [enc])).
Proof.
  intros Hencs. split.
  - intros e Hpre Henc Hcls. do 2 eexists. split.
    + exact (TXT_extract_other env filepath pre enc post e Hencs Hpre Henc Hcls).
    + repeat split.
  - intros e Hpre Henc Hcls. do 2 eexists. split.
    + exact (CSV_extract_other env filepath pre enc post e Hencs Hpre Henc Hcls).
    + repeat split.
Qed.

Lemma other_failure_is_final_witness :
  ∃ r st, returns (TXTExtractor_extract bare_disk (str "absent.txt")) r st ∧
    text_of r = Some [] ∧
    meta_key r "error" =
      Some (VStr (str "[Errno 2] No such file or directory: 'absent.txt'")) ∧
    log st = [(c_open_read (str "absent.txt") "utf-8", Some no_such_file)].
Proof.
  destruct (other_failure_is_final bare_disk (str "absent.txt")
              [] "utf-8" ["latin-1"; "cp1252"] eq_refl) as [H _].
  destruct (H no_such_file)
    as (r & st & Hret & Ht & He & _ & _ & Hlog).
  - intros enc' Hin. inversion Hin.
  - reflexivity.
  - discriminate.
  - exists r, st. auto.
Defined.

(** ** A text file that exists *)

(** X12.  Under Python's codecs, a text file that exists is always read:
    there is no ['error'] key, the file is read once or twice (UTF-8, then
    Latin-1) and never under Windows-1252, and [metadata.lines] is the
    number of line feeds of the text plus one, so it is at least 1; the
    empty file gives the empty text and a line count of 1. *)
Theorem TXT_existing_file env fs filepath bs :
  fs filepath = Some bs →
  ∃ r st text n,
    returns (TXTExtractor_extract (with_files env fs) filepath) r st ∧
    meta_key r "error" = None ∧
    text_of r = Some text ∧
    meta_key r "lines" = Some (VInt n) ∧
    n = Z.of_nat (count_LF text) + 1 ∧
    1 ≤ n ∧
    (length (log st) ≤ 2)%nat ∧
    (∀ o, (c_open_read filepath "cp1252", o) ∉ log st) ∧
    (bs = [] → text = [] ∧ n = 1).
Proof.
  intros Hfile.
  pose proof (python_read_utf8 fs (open_read env) filepath bs Hfile) as Hutf8.
  pose proof (python_read_latin1 fs (open_read env) filepath bs Hfile) as Hlatin.
  destruct (decode_utf8 bs) as [s|] eqn:Hdec.
  - eexists _, _, (universal_newlines s),
      (Z.of_nat (length (split LF (universal_newlines s)))).
    split.
    + apply (TXT_extract_first _ filepath [] "utf-8" ["latin-1"; "cp1252"]);
        [reflexivity | intros ? []%elem_of_nil | exact Hutf8].
    + split; [reflexivity|]. split; [reflexivity|]. split; [reflexivity|].
      rewrite split_length. unfold count_LF.
      split; [lia|]. split; [lia|]. split; [simpl; lia|]. split.
      * intros o Hin. simpl in Hin.
        apply list_elem_of_singleton in Hin. discriminate.
      * intros ->. injection Hdec as <-. split; reflexivity.
  - eexists _, _, (universal_newlines (decode_latin1 bs)),
      (Z.of_nat (length (split LF (universal_newlines (decode_latin1 bs))))).
    split.
    + apply (TXT_extract_first _ filepath ["utf-8"] "latin-1" ["cp1252"]);
        [reflexivity | | exact Hlatin].
      intros enc' ->%list_elem_of_singleton. eexists. split; [exact Hutf8|reflexivity].
    + split; [reflexivity|]. split; [reflexivity|]. split; [reflexivity|].
      rewrite split_length. unfold count_LF.
      split; [lia|]. split; [lia|]. split; [simpl; lia|]. split.
      * intros o Hin. simpl in Hin.
        apply elem_of_cons in Hin as [Hin|Hin]; [discriminate|].
        apply list_elem_of_singleton in Hin. discriminate.
      * intros ->. discriminate.
Qed.

Lemma TXT_existing_file_witness :
  ∃ r st text n,
    returns (TXTExtractor_extract
               (with_files offline (one_file (str "empty.txt") []))
               (str "empty.txt")) r st ∧
    meta_key r "error" = None ∧
    text_of r = Some text ∧
    meta_key r "lines" = Some (VInt n) ∧
    text = [] ∧ n = 1.
Proof.
  destruct (TXT_existing_file offline (one_file (str "empty.txt") [])
              (str "empty.txt") [] eq_refl)
    as (r & st & text & n & Hret & He & Ht & Hl & _ & _ & _ & _ & Hempty).
  destruct (Hempty eq_refl) as [-> ->].
  exists r, st, [], 1. repeat split; assumption.
Defined.
(** ** The PDF extractor in closed form *)

Lemma concat_imap_cons {A B} (f : nat → A → list B) i0 x xs :
  concat (imap (λ j, f (i0 + j)%nat) (x :: xs)) =
  f i0 x ++ concat (imap (λ j, f (S i0 + j)%nat) xs).
Proof.
  simpl. rewrite Nat.add_0_r. f_equal. f_equal.
  apply imap_ext. intros j y _. simpl. f_equal. lia.
Qed.

Lemma for_enumerate_from_app {A} (f : nat → A → M unit) xs ys i st :
  for_enumerate_from i (xs ++ ys) f st =
  match for_enumerate_from i xs f st with
  | (Ret _, st') => for_enumerate_from (i + length xs) ys f st'
  | (Raise e, st') => (Raise e, st')
  end.
Proof.
  revert i st. induction xs as [|x xs IH]; intros i st; simpl.
  - rewrite Nat.add_0_r. reflexivity.
  - rewrite !bind_eq. destruct (f i x st) as [[[]|e] st']; [|reflexivity].
    rewrite IH. replace (S i + length xs)%nat with (i + S (length xs))%nat by lia.
    reflexivity.
Qed.

Section PageExact.

Context (env : Env) (filepath : pystr) (i : nat).

Lemma PDF_ocr_images_exact imgs t m l a tc te lg :
  m !! em = Some (VList l) →
  for_each imgs (λ img,
    ocr_text ← lib (c_image_to_string img "eng+mal")
                   (image_to_string env img "eng+mal");
    all_text_append ocr_text;;
    meta_append "extraction_method" (VStr (page_ocr i)))
    (State (res t m) a tc te lg) =
  (match ocr_failure env imgs with Some e => Raise e | None => Ret tt end,
   State (res t (<[em := VList (l ++ replicate (length (ocr_texts env imgs))
                                      (VStr (page_ocr i)))]> m))
         (a ++ ocr_texts env imgs) tc te (lg ++ ocr_calls env imgs)).
Proof.
  revert m l a lg. induction imgs as [|img imgs IH]; intros m l a lg Hl.
  - simpl. rewrite (em_insert_nil m l Hl), !app_nil_r. reflexivity.
  - cbn [for_each ocr_failure ocr_texts ocr_calls]. mrun.
    destruct (image_to_string env img "eng+mal") as [ocr_text|e]; mrun.
    + rewrite (run_meta_append _ _ _ _ _ _ em _ l Hl). mrun.
      rewrite (IH _ (l ++ [VStr (page_ocr i)])) by apply lookup_insert_eq.
      rewrite insert_insert_eq, <- !app_assoc. reflexivity.
    + simpl. rewrite (em_insert_nil m l Hl), !app_nil_r. reflexivity.
Qed.

Lemma PDF_ocr_exact t m l a tc te lg :
  m !! em = Some (VList l) →
  PDF_ocr env filepath i (State (res t m) a tc te lg) =
  (Ret tt,
   State (res t (<[em := VList (l ++ replicate (length (page_scan env filepath i))
                                      (VStr (page_ocr i)))]> m))
         (a ++ page_scan env filepath i) tc te
         (lg ++ scan_calls env filepath i)).
Proof.
  intros Hl. unfold PDF_ocr, page_scan, scan_calls, convert_event. mrun.
  destruct (convert_from_path env filepath (i + 1) (i + 1)) as [imgs|e]; mrun.
  - rewrite (PDF_ocr_images_exact imgs _ _ l) by exact Hl.
    destruct (ocr_failure env imgs) as [e|]; mrun.
    + unfold ocr_failed. rewrite <- !app_assoc. reflexivity.
    + rewrite app_nil_r, <- !app_assoc. reflexivity.
  - simpl. rewrite (em_insert_nil m l Hl), app_nil_r, <- !app_assoc. reflexivity.
Qed.

Lemma PDF_tables_exact page r a tc te lg :
  PDF_tables i page (State r a tc te lg) =
  (Ret tt,
   State r (a ++ (table_block <$> page_tables page))
         (tc + Z.of_nat (length (page_tables page))) te
         (lg ++ [(c_extract_tables i, failure_of (extract_tables page))])).
Proof.
  unfold PDF_tables, page_tables. mrun.
  destruct (extract_tables page) as [tables|e]; mrun.
  - destruct tables as [|table tables].
    + rewrite bool_decide_eq_false_2 by (intros H; apply H; reflexivity). mrun.
      simpl. rewrite app_nil_r, Z.add_0_r. reflexivity.
    + rewrite bool_decide_eq_true_2 by discriminate. mrun.
      rewrite (for_each_append table_block). reflexivity.
  - simpl. rewrite app_nil_r, Z.add_0_r. reflexivity.
Qed.

Lemma PDF_page_exact page text t m l a tc te lg :
  extract_text page = Ret text →
  m !! em = Some (VList l) →
  PDF_page env filepath i page (State (res t m) a tc te lg) =
  (Ret tt,
   State (res t (<[em := VList (l ++ page_methods env filepath i page)]> m))
         (a ++ page_texts env filepath i page)
         (tc + Z.of_nat (length (page_tables page))) te
         (lg ++ page_calls env filepath i page)).
Proof.
  intros Htext Hl. unfold PDF_page, page_methods, page_texts, page_calls.
  rewrite Htext. mrun.
  destruct (direct_text text) as [t0|]; mrun.
  - rewrite (run_meta_append _ _ _ _ _ _ em _ l Hl). mrun.
    rewrite PDF_tables_exact. simpl. rewrite <- !app_assoc. reflexivity.
  - rewrite (PDF_ocr_exact _ _ l) by exact Hl. mrun.
    rewrite PDF_tables_exact. simpl. rewrite <- !app_assoc. reflexivity.
Qed.

Lemma PDF_page_raise page e r a tc te lg :
  extract_text page = Raise e →
  PDF_page env filepath i page (State r a tc te lg) =
  (Raise e, State r a tc te (lg ++ [(c_extract_text i, Some e)])).
Proof. intros Htext. unfold PDF_page. rewrite Htext. mrun. reflexivity. Qed.

End PageExact.

Lemma PDF_loop_exact env filepath pages :
  (∀ page, page ∈ pages → text_extracted page) →
  ∀ i0 t m l a tc te lg,
  m !! em = Some (VList l) →
  for_enumerate_from i0 pages (PDF_page env filepath) (State (res t m) a tc te lg) =
  (Ret tt,
   State (res t (<[em := VList (l ++ concat (imap (λ j, page_methods env filepath (i0 + j)%nat)
                                               pages))]> m))
         (a ++ concat (imap (λ j, page_texts env filepath (i0 + j)%nat) pages))
         (tc + Z.of_nat (length (pages ≫= page_tables))) te
         (lg ++ concat (imap (λ j, page_calls env filepath (i0 + j)%nat) pages))).
Proof.
  induction pages as [|page pages IH]; intros Hall i0 t m l a tc te lg Hl.
  - simpl. rewrite (em_insert_nil m l Hl), !app_nil_r, Z.add_0_r. reflexivity.
  - destruct (Hall page) as [text Htext]; [left|].
    cbn [for_enumerate_from]. mrun.
    rewrite (PDF_page_exact env filepath i0 page text _ _ l) by assumption.
    mrun.
    rewrite (IH (λ p Hp, Hall p (list_elem_of_further _ _ _ Hp)) (S i0) _ _
               (l ++ page_methods env filepath i0 page))
      by apply lookup_insert_eq.
    rewrite !concat_imap_cons, insert_insert_eq, <- !app_assoc.
    rewrite bind_cons, length_app, Nat2Z.inj_add, Z.add_assoc. reflexivity.
Qed.

Lemma PDF_loop_stops env filepath good bad rest e :
  (∀ page, page ∈ good → text_extracted page) →
  extract_text bad = Raise e →
  ∀ t m l a tc te lg,
  m !! em = Some (VList l) →
  for_enumerate_from 0 (good ++ bad :: rest) (PDF_page env filepath)
    (State (res t m) a tc te lg) =
  (Raise e,
   State (res t (<[em := VList (l ++ concat (imap (page_methods env filepath) good))]> m))
         (a ++ concat (imap (page_texts env filepath) good))
         (tc + Z.of_nat (length (good ≫= page_tables))) te
         (lg ++ concat (imap (page_calls env filepath) good) ++
          [(c_extract_text (length good), Some e)])).
Proof.
  intros Hgood Hbad t m l a tc te lg Hl.
  rewrite for_enumerate_from_app.
  rewrite (PDF_loop_exact env filepath good Hgood 0 t m l a tc te lg Hl).
  cbn [for_enumerate_from]. mrun.
  rewrite (PDF_page_raise env filepath _ bad e) by exact Hbad.
  rewrite <- app_assoc. reflexivity.
Qed.

(** The extractor on a document that opens and whose pages are all read. *)
Lemma PDF_extract_exact env filepath pages :
  pdfplumber_open env filepath = Ret pages →
  (∀ page, page ∈ pages → text_extracted page) →
  ∃ m, returns (PDFExtractor_extract env filepath)
    (res (join (nl ++ nl) (concat (imap (page_texts env filepath) pages))) m)
    (State
       (res (join (nl ++ nl) (concat (imap (page_texts env filepath) pages))) m)
       (concat (imap (page_texts env filepath) pages))
       (Z.of_nat (length (pages ≫= page_tables))) 0
       ((c_pdfplumber_open filepath, None) ::
        concat (imap (page_calls env filepath) pages))) ∧
    m !! "error" = None ∧
    m !! "pages" = Some (VInt (Z.of_nat (length pages))) ∧
    m !! "extraction_method" =
      Some (VList (concat (imap (page_methods env filepath) pages))) ∧
    m !! "tables_found" = Some (VInt (Z.of_nat (length (pages ≫= page_tables)))).
Proof.
  intros Hopen Hall.
  unfold returns, PDFExtractor_extract, PDF_body, for_enumerate, fresh.
  change PDF_init
    with (res [] {[ "pages" := VInt 0; "extraction_method" := VList [];
                    "tables_found" := VInt 0 ]}).
  mrun. rewrite Hopen. mrun.
  rewrite (PDF_loop_exact env filepath pages Hall 0 _ _ [])
    by (unfold em; rewrite lookup_insert_ne by discriminate; reflexivity).
  mrun. eexists. split; [reflexivity|]. unfold em.
  repeat split;
    repeat (rewrite lookup_insert_eq || rewrite lookup_insert_ne by discriminate);
    reflexivity.
Qed.

(** The extractor on a document that opens and where the text extraction of
    one page raises. *)
Lemma PDF_extract_stops env filepath good bad rest e :
  pdfplumber_open env filepath = Ret (good ++ bad :: rest) →
  (∀ page, page ∈ good → text_extracted page) →
  extract_text bad = Raise e →
  ∃ m, returns (PDFExtractor_extract env filepath)
    (res [] m)
    (State (res [] m)
       (concat (imap (page_texts env filepath) good))
       (Z.of_nat (length (good ≫= page_tables))) 0
       ((c_pdfplumber_open filepath, None) ::
        concat (imap (page_calls env filepath) good) ++
        [(c_extract_text (length good), Some e)])) ∧
    m !! "error" = Some (VStr (exn_msg e)) ∧
    m !! "extraction_method" =
      Some (VList (concat (imap (page_methods env filepath) good))) ∧
    m !! "tables_found" = Some (VInt 0).
Proof.
  intros Hopen Hgood Hbad.
  unfold returns, PDFExtractor_extract, PDF_body, for_enumerate, fresh.
  change PDF_init
    with (res [] {[ "pages" := VInt 0; "extraction_method" := VList [];
                    "tables_found" := VInt 0 ]}).
  mrun. rewrite Hopen. mrun.
  rewrite (PDF_loop_stops env filepath good bad rest e Hgood Hbad _ _ [])
    by (unfold em; rewrite lookup_insert_ne by discriminate; reflexivity).
  mrun. eexists. split; [reflexivity|]. unfold em.
  repeat split;
    repeat (rewrite lookup_insert_eq || rewrite lookup_insert_ne by discriminate);
    reflexivity.
Qed.

(** X13.  A PDF that opens and whose pages all answer the text extraction
    is returned without an error, and every field is a function of the
    answers of the libraries: the tags are those of the pages in order (one
    "direct" tag for a page with a significant text, one "ocr" tag for each
    image OCR read before its first failure otherwise); the text is the
    texts of the pages, each followed by its tables as "TABLE:" blocks,
    joined by blank lines; [tables_found] is the number of tables of the
    pages whose table extraction returned.  A rasterisation, an OCR or a
    table extraction that raises costs the page that part and nothing
    else. *)
Theorem PDF_read_through env filepath pages :
  pdfplumber_open env filepath = Ret pages →
  (∀ page, page ∈ pages → text_extracted page) →
  ∃ r st, returns (PDFExtractor_extract env filepath) r st ∧
    meta_key r "error" = None ∧
    meta_key r "pages" = Some (VInt (Z.of_nat (length pages))) ∧
    meta_key r "extraction_method" =
      Some (VList (concat (imap (page_methods env filepath) pages))) ∧
    meta_key r "tables_found" =
      Some (VInt (Z.of_nat (length (pages ≫= page_tables)))) ∧
    text_of r =
      Some (join (nl ++ nl) (concat (imap (page_texts env filepath) pages))) ∧
    log st = (c_pdfplumber_open filepath, None) ::
             concat (imap (page_calls env filepath) pages).
Proof.
  intros Hopen Hall.
  destruct (PDF_extract_exact env filepath pages Hopen Hall)
    as (m & Hret & He & Hp & Hm & Ht).
  do 2 eexists. split; [exact Hret|].
  rewrite !meta_key_res, text_of_res. auto 10.
Qed.

Lemma PDF_read_through_witness :
  ∃ r st,
    returns (PDFExtractor_extract
               (pdf_scanner [fares_page; scanned_page; no_tables_page])
               (str "fares.pdf")) r st ∧
    meta_key r "error" = None ∧
    meta_key r "pages" = Some (VInt 3) ∧
    meta_key r "extraction_method" =
      Some (VList [VStr (str "page_1_direct"); VStr (str "page_2_ocr");
                   VStr (str "page_3_direct")]) ∧
    meta_key r "tables_found" = Some (VInt 1) ∧
    text_of r =
      Some (forty ++ nl ++ nl ++
            str "TABLE:" ++ nl ++ str "Aluva | 40" ++ nl ++ str "Edapally | 30" ++
            nl ++ nl ++ str "EXIT" ++ nl ++ nl ++ forty).
Proof.
  destruct (PDF_read_through
              (pdf_scanner [fares_page; scanned_page; no_tables_page])
              (str "fares.pdf") [fares_page; scanned_page; no_tables_page]
              eq_refl)
    as (r & st & Hret & He & Hp & Hm & Ht & Htext & _).
  - intros page Hin. unfold text_extracted.
    repeat (apply elem_of_cons in Hin as [->|Hin]; [eexists; reflexivity|]).
    inversion Hin.
  - exists r, st. split; [exact Hret|]. split; [exact He|].
    split; [exact Hp|]. split; [exact Hm|]. split; [exact Ht|]. exact Htext.
Defined.

(** ** A document with a text layer on every page *)

Lemma page_of_significant env filepath i page t :
  significant page t →
  page_methods env filepath i page = [VStr (page_direct i)] ∧
  page_texts env filepath i page = t :: (table_block <$> page_tables page) ∧
  page_calls env filepath i page =
    [(c_extract_text i, None);
     (c_extract_tables i, failure_of (extract_tables page))].
Proof.
  intros Hsig. pose proof Hsig as [Htext _].
  apply (direct_text_significant page (Some t) t Htext) in Hsig.
  unfold page_methods, page_texts, page_calls. rewrite Htext, Hsig. auto.
Qed.

Lemma pages_of_significant env filepath pages ts :
  Forall2 significant pages ts →
  ∀ i0,
  concat (imap (λ j, page_methods env filepath (i0 + j)%nat) pages) =
    (λ i, VStr (page_direct i)) <$> seq i0 (length pages) ∧
  concat (imap (λ j, page_texts env filepath (i0 + j)%nat) pages) =
    concat (zip_with (λ page t, t :: (table_block <$> page_tables page)) pages ts) ∧
  concat (imap (λ j, page_calls env filepath (i0 + j)%nat) pages) =
    concat (imap (λ j page,
                    [(c_extract_text (i0 + j), None);
                     (c_extract_tables (i0 + j), failure_of (extract_tables page))])
                 pages).
Proof.
  induction 1 as [|page t pages ts Hsig _ IH]; intros i0; [auto|].
  destruct (page_of_significant env filepath i0 page t Hsig) as (H1 & H2 & H3).
  destruct (IH (S i0)) as (IH1 & IH2 & IH3).
  rewrite !concat_imap_cons, H1, H2, H3, IH1, IH2, IH3.
  split; [reflexivity|]. split; [reflexivity|].
  rewrite (concat_imap_cons
             (λ k page, [(c_extract_text k, None);
                         (c_extract_tables k, failure_of (extract_tables page))])).
  reflexivity.
Qed.

(** X14.  A PDF that opens and whose pages all have a significant text
    layer never reaches the fallback: no page is rasterised and OCR is
    never called (the log holds the opening and, page by page, one text
    and one table extraction); the tags are page_1_direct, ...,
    page_n_direct in order, one for each page; the text is the text of
    each page followed by its tables, joined by blank lines; and there is
    no ['error'] key. *)
Theorem PDF_digital_document env filepath pages ts :
  pdfplumber_open env filepath = Ret pages →
  Forall2 significant pages ts →
  ∃ r st, returns (PDFExtractor_extract env filepath) r st ∧
    meta_key r "error" = None ∧
    meta_key r "extraction_method" =
      Some (VList ((λ i, VStr (page_direct i)) <$> seq 0 (length pages))) ∧
    text_of r =
      Some (join (nl ++ nl)
              (concat (zip_with (λ page t, t :: (table_block <$> page_tables page))
                         pages ts))) ∧
    log st = (c_pdfplumber_open filepath, None) ::
             concat (imap (λ i page,
                             [(c_extract_text i, None);
                              (c_extract_tables i, failure_of (extract_tables page))])
                          pages).
Proof.
  intros Hopen Hsig.
  assert (∀ page, page ∈ pages → text_extracted page) as Hall.
  { intros page Hin.
    apply list_elem_of_lookup in Hin as [j Hj].
    destruct (Forall2_lookup_l _ _ _ _ _ Hsig Hj) as (t & _ & [Ht _]).
    exists (Some t). exact Ht. }
  destruct (PDF_extract_exact env filepath pages Hopen Hall)
    as (m & Hret & He & _ & Hm & _).
  destruct (pages_of_significant env filepath pages ts Hsig 0) as (H1 & H2 & H3).
  simpl in H1, H2, H3.
  do 2 eexists. split; [exact Hret|].
  rewrite !meta_key_res, text_of_res. simpl log.
  split; [exact He|]. split; [rewrite Hm; do 2 f_equal; exact H1|].
  split; [do 2 f_equal; exact H2|]. f_equal. exact H3.
Qed.

Lemma fares_page_significant : significant fares_page forty.
Proof. split; [reflexivity|]. vm_compute. lia. Qed.

Lemma PDF_digital_document_witness :
  ∃ r st,
    returns (PDFExtractor_extract (pdf_only [text_page; fares_page])
               (str "fares.pdf")) r st ∧
    meta_key r "error" = None ∧
    meta_key r "extraction_method" =
      Some (VList [VStr (str "page_1_direct"); VStr (str "page_2_direct")]) ∧
    text_of r =
      Some (forty ++ nl ++ nl ++ forty ++ nl ++ nl ++
            str "TABLE:" ++ nl ++ str "Aluva | 40" ++ nl ++ str "Edapally | 30") ∧
    log st = [ (c_pdfplumber_open (str "fares.pdf"), None);
               (c_extract_text 0, None); (c_extract_tables 0, None);
               (c_extract_text 1, None); (c_extract_tables 1, None) ].
Proof.
  destruct (PDF_digital_document (pdf_only [text_page; fares_page])
              (str "fares.pdf") [text_page; fares_page] [forty; forty] eq_refl)
    as (r & st & Hret & He & Hm & Htext & Hlog).
  - constructor; [exact text_page_significant|].
    constructor; [exact fares_page_significant|]. constructor.
  - exists r, st. split; [exact Hret|]. split; [exact He|].
    split; [exact Hm|]. split; [exact Htext|]. exact Hlog.
Defined.

(** ** A page that cannot be read *)

(** X15.  When the text extraction of a page raises, the extraction ends
    there: the pages after it are never read (the last call in the log is
    that text extraction), the exception is reported under ['error'], the
    tags are exactly those of the pages before it, and the text is empty.
    The tables counted on the pages before it are not reported either:
    [tables_found] is still 0, whatever the count had reached. *)
Theorem PDF_stops_at_failure env filepath good bad rest e :
  pdfplumber_open env filepath = Ret (good ++ bad :: rest) →
  (∀ page, page ∈ good → text_extracted page) →
  extract_text bad = Raise e →
  ∃ r st, returns (PDFExtractor_extract env filepath) r st ∧
    text_of r = Some [] ∧
    meta_key r "error" = Some (VStr (exn_msg e)) ∧
    meta_key r "extraction_method" =
      Some (VList (concat (imap (page_methods env filepath) good))) ∧
    meta_key r "tables_found" = Some (VInt 0) ∧
    tables_count st = Z.of_nat (length (good ≫= page_tables)) ∧
    all_text st = concat (imap (page_texts env filepath) good) ∧
    log st = (c_pdfplumber_open filepath, None) ::
             concat (imap (page_calls env filepath) good) ++
             [(c_extract_text (length good), Some e)].
Proof.
  intros Hopen Hgood Hbad.
  destruct (PDF_extract_stops env filepath good bad rest e Hopen Hgood Hbad)
    as (m & Hret & He & Hm & Ht).
  do 2 eexists. split; [exact Hret|].
  rewrite !meta_key_res, text_of_res. simpl. auto 10.
Qed.

Lemma PDF_stops_at_failure_witness :
  ∃ r st,
    returns (PDFExtractor_extract (pdf_only [fares_page; broken_page; text_page])
               (str "fares.pdf")) r st ∧
    text_of r = Some [] ∧
    meta_key r "error" = Some (VStr (str "Invalid dictionary construct")) ∧
    meta_key r "extraction_method" = Some (VList [VStr (str "page_1_direct")]) ∧
    meta_key r "tables_found" = Some (VInt 0) ∧
    tables_count st = 1 ∧
    log st = [ (c_pdfplumber_open (str "fares.pdf"), None);
               (c_extract_text 0, None); (c_extract_tables 0, None);
               (c_extract_text 1, Some parse_error) ].
Proof.
  destruct (PDF_stops_at_failure (pdf_only [fares_page; broken_page; text_page])
              (str "fares.pdf") [fares_page] broken_page [text_page] parse_error
              eq_refl)
    as (r & st & Hret & Htext & He & Hm & Ht & Htc & _ & Hlog).
  - intros page ->%list_elem_of_singleton. eexists. reflexivity.
  - reflexivity.
  - exists r, st. split; [exact Hret|]. split; [exact Htext|].
    split; [exact He|]. split; [exact Hm|]. split; [exact Ht|].
    split; [exact Htc|]. exact Hlog.
Defined.
